(** * Kenchi outlier detectors: the fit / anomaly_score / predict contract

    A shallow embedding of [kenchi/base.py] and of the detectors of
    [kenchi/outlier_detection] (FastABOD, KernelDensityOutlierDetector,
    GaussianOutlierDetector, GaussianMixtureOutlierDetector,
    VMFOutlierDetector).

    Conventions of the embedding.
    - A Python float is an exact rational ([Q]): arithmetic does not round.
      Non-finite values are represented where the control flow of the code
      depends on them: the stored threshold ([fval]) and the quotients of
      [_abof].  Elsewhere a division by zero, which gives inf or nan in
      numpy with a warning, has no counterpart in the model.
    - Exact arithmetic is the arithmetic of the code, up to rounding, as
      long as no operation overflows, underflows to zero or, on an integer
      array, wraps.  The theorems on the value that [_abof] computes
      (claim C7) and on the success of [fit] for FastABOD on separated
      rows assume that the squared distances [_abof] divides by lie in
      the range [in_arithmetic_range], where this is the case.
    - A detector object is a record; an attribute that has not been
      assigned yet is [None].  Methods are computations in the monad [M]:
      they read and update the object, may raise, and log the calls they
      make into the numeric libraries.  An exception keeps the updates made
      before it, as in Python.
    - The numeric libraries (scikit-learn estimators, scipy's chi2) are the
      fields of the class [Backend].
    - The decorators of [kenchi/utils.py] wrap results in pandas objects
      and are the identity on arrays; they are left out. *)

From Stdlib Require Import String.
From Stdlib Require Import List ZArith QArith Qround Qabs Bool Lia Lqa Arith.
From Stdlib Require Import Morphisms Setoid Sorted.
Import ListNotations.

Set Implicit Arguments.
Local Open Scope Q_scope.

(* ================================================================= *)
(** ** Values *)

Definition vec := list Q.
Definition matrix := list vec.

(** A float that may be non-finite. *)
Inductive fval : Type :=
| Finite (q : Q)
| PosInf
| NegInf
| NaN.

Definition Qltb (x y : Q) : bool := negb (Qle_bool y x).

(** [s > t] on floats, [s] finite: comparisons with nan are false. *)
Definition gt_fval (s : Q) (t : fval) : bool :=
  match t with
  | Finite q => Qltb q s
  | PosInf => false
  | NegInf => true
  | NaN => false
  end.

(* ================================================================= *)
(** ** Exceptions, outcomes and the method monad *)

Inductive exn : Type :=
| ValueError (msg : string)
| NotFittedError
| AttributeError
| FloatingPointError.

Inductive result (A : Type) : Type :=
| Ok (a : A)
| Raise (e : exn).
Arguments Ok {A} a.
Arguments Raise {A} e.

(** Calls that leave the detector classes. *)
Inductive event : Type :=
| E_check_array
| E_knn_fit | E_kneighbors | E_abof
| E_kde_fit | E_kde_score_samples
| E_glasso_fit | E_mahalanobis
| E_gmm_fit | E_gmm_score_samples
| E_normalizer_fit | E_normalizer_transform
| E_chi2_fit | E_chi2_ppf
| E_percentile.

Record outcome (S A : Type) : Type := mkOutcome {
  value : result A;
  final : S;
  trace : list event
}.
Arguments mkOutcome {S A} value final trace.

Definition M (S A : Type) : Type := S -> outcome S A.

Definition ret {S A} (a : A) : M S A :=
  fun s => mkOutcome (Ok a) s [].

Definition bind {S A B} (m : M S A) (f : A -> M S B) : M S B :=
  fun s =>
    match m s with
    | mkOutcome (Ok a) s1 t1 =>
        match f a s1 with
        | mkOutcome r s2 t2 => mkOutcome r s2 (t1 ++ t2)
        end
    | mkOutcome (Raise e) s1 t1 => mkOutcome (Raise e) s1 t1
    end.

Definition raise {S A} (e : exn) : M S A :=
  fun s => mkOutcome (Raise e) s [].

Definition get {S} : M S S :=
  fun s => mkOutcome (Ok s) s [].

Definition modify {S} (f : S -> S) : M S unit :=
  fun s => mkOutcome (Ok tt) (f s) [].

(** A call into a library: it is logged and its result or exception is
    passed on. *)
Definition call {S A} (ev : event) (r : result A) : M S A :=
  fun s => mkOutcome r s [ev].

(** [self.attr] where the attribute may be missing. *)
Definition getattr {S A} (attr : S -> option A) : M S A :=
  fun s =>
    match attr s with
    | Some a => mkOutcome (Ok a) s []
    | None => mkOutcome (Raise AttributeError) s []
    end.

(** [sklearn.utils.validation.check_is_fitted(self, attr)]: raises
    NotFittedError unless the attribute exists. *)
Definition check_is_fitted {S A} (attr : S -> option A) : M S unit :=
  fun s =>
    match attr s with
    | Some _ => mkOutcome (Ok tt) s []
    | None => mkOutcome (Raise NotFittedError) s []
    end.

Declare Scope method_scope.
Delimit Scope method_scope with method.
Notation "x <- m ;; k" := (bind m (fun x => k))
  (at level 61, m at next level, right associativity) : method_scope.
Notation "m ;;; k" := (bind m (fun _ => k))
  (at level 61, right associativity) : method_scope.

(** Pure computations that may raise. *)
Definition rbind {A B} (r : result A) (f : A -> result B) : result B :=
  match r with
  | Ok a => f a
  | Raise e => Raise e
  end.

Fixpoint mapR {A B} (f : A -> result B) (l : list A) : result (list B) :=
  match l with
  | [] => Ok []
  | x :: l' =>
      rbind (f x) (fun y => rbind (mapR f l') (fun ys => Ok (y :: ys)))
  end.

(** [try: r  except FloatingPointError as e: raise ValueError(msg) from e]. *)
Definition except_FloatingPointError {A} (msg : string) (r : result A)
  : result A :=
  match r with
  | Raise FloatingPointError => Raise (ValueError msg)
  | _ => r
  end.

(* ================================================================= *)
(** ** numpy and scikit-learn utilities used by the detectors

    Models of the library functions that the detectors call on arrays,
    after their documented behaviour. *)

(** [sklearn.utils.check_array]: a two-dimensional array with at least one
    sample and one feature (every entry of a [matrix] is finite). *)
Definition check_array (X : matrix) : result matrix :=
  match X with
  | [] => Raise (ValueError "Found array with 0 sample(s)")
  | r :: _ =>
      if (0 <? length r)%nat && forallb (fun r' => (length r' =? length r)%nat) X
      then Ok X
      else Raise (ValueError "Expected 2D array with at least 1 feature")
  end.

Definition n_features (X : matrix) : nat :=
  match X with
  | [] => 0%nat
  | r :: _ => length r
  end.

Definition Qsum (l : list Q) : Q := fold_right Qplus 0 l.

(** [a @ b] on two vectors. *)
Definition dot (a b : vec) : Q :=
  Qsum (map (fun ab => fst ab * snd ab) (combine a b)).

(** [a - b], elementwise. *)
Definition vsub (a b : vec) : vec :=
  map (fun ab => fst ab - snd ab) (combine a b).

Definition Qlen {A} (l : list A) : Q := inject_Z (Z.of_nat (length l)).

(** [np.mean] and [np.var] (ddof = 0) of a non-empty vector. *)
Definition np_mean (l : list Q) : Q := Qsum l / Qlen l.

Definition np_var (l : list Q) : Q :=
  np_mean (map (fun x => (x - np_mean l) * (x - np_mean l)) l).

(** [np.mean(X, axis=0)]. *)
Fixpoint column (j : nat) (X : matrix) : vec :=
  match X with
  | [] => []
  | r :: X' => nth j r 0 :: column j X'
  end.

Definition columns (X : matrix) : list vec :=
  map (fun j => column j X) (seq 0 (n_features X)).

Definition np_mean_axis0 (X : matrix) : vec := map np_mean (columns X).

(** [itertools.combinations(l, 2)], in its order. *)
Fixpoint combinations2 {A} (l : list A) : list (A * A) :=
  match l with
  | [] => []
  | x :: l' => map (pair x) l' ++ combinations2 l'
  end.

(** Sorting, for percentiles and for nearest neighbours: a stable
    insertion sort on keyed entries. *)
Fixpoint insert_key {A} (x : Q * A) (l : list (Q * A)) : list (Q * A) :=
  match l with
  | [] => [x]
  | y :: l' =>
      if Qle_bool (fst x) (fst y) then x :: l else y :: insert_key x l'
  end.

Fixpoint sort_key {A} (l : list (Q * A)) : list (Q * A) :=
  match l with
  | [] => []
  | x :: l' => insert_key x (sort_key l')
  end.

Definition np_sort (l : list Q) : list Q :=
  map fst (sort_key (map (fun x => (x, tt)) l)).

(** [np.percentile(a, q)] with linear interpolation.  The index
    [q/100 * (n-1)] is split in its floor and its fractional part, and the
    two neighbouring order statistics are mixed. *)
Definition percentile_sorted (s : list Q) (q : Q) : Q :=
  let n := length s in
  let idx := q / 100 * inject_Z (Z.of_nat (n - 1)) in
  let below := Z.to_nat (Qfloor idx) in
  let above := Nat.min (below + 1) (n - 1) in
  let w_above := idx - inject_Z (Qfloor idx) in
  let w_below := 1 - w_above in
  nth below s 0 * w_below + nth above s 0 * w_above.

Definition np_percentile (a : list Q) (q : Q) : result fval :=
  if Qltb q 0 || Qltb 100 q
  then Raise (ValueError "Percentiles must be in the range [0,100]")
  else
    match a with
    | [] => Ok NaN
    | _ => Ok (Finite (percentile_sorted (np_sort a) q))
    end.

(** [np.percentile(a, q, axis=0)]. *)
Definition np_percentile_axis0 (a : matrix) (q : Q) : result (list fval) :=
  mapR (fun c => np_percentile c q) (columns a).

(** The value of [np.pi] as a double. *)
Definition np_pi : Q := 884279719003555 # 281474976710656.

(** [sklearn.utils.gen_even_slices(n, n_packs)], as (start, end) pairs:
    pack [pack_num] holds [n // n_packs] rows, one more for the first
    [n % n_packs] packs; empty packs are not produced. *)
Fixpoint slices_from (n n_packs : nat) (packs : list nat) (start : nat)
  : list (nat * nat) :=
  match packs with
  | [] => []
  | pack_num :: packs' =>
      let this_n :=
        (n / n_packs + (if pack_num <? n mod n_packs then 1 else 0))%nat in
      if (0 <? this_n)%nat
      then (start, (start + this_n)%nat)
             :: slices_from n n_packs packs' (start + this_n)%nat
      else slices_from n n_packs packs' start
  end.

Definition gen_even_slices (n : nat) (n_packs : Z) : result (list (nat * nat)) :=
  if (n_packs <? 1)%Z
  then Raise (ValueError "gen_even_slices got n_packs=%s, must be >=1")
  else Ok (slices_from n (Z.to_nat n_packs) (seq 0 (Z.to_nat n_packs)) 0).

(** [l[start:end]]. *)
Definition slice {A} (s : nat * nat) (l : list A) : list A :=
  firstn (snd s - fst s) (skipn (fst s) l).

(* ================================================================= *)
(** ** The numeric backend *)

(** Keyword arguments of a metric. *)
Definition metric_params_t := list (string * Q).

(** Fitted [sklearn.neighbors.KernelDensity]. *)
Record KernelDensity : Type := mkKernelDensity {
  kd_bandwidth : Q;
  kd_kernel : string;
  kd_metric : string;
  kd_metric_params : option metric_params_t;
  kd_X : matrix
}.

(** Fitted [sklearn.covariance.GraphLasso]. *)
Record GraphLasso : Type := mkGraphLasso {
  precision_ : matrix;
  location_ : vec
}.

(** Fitted [sklearn.mixture.GaussianMixture]. *)
Record GaussianMixture : Type := mkGaussianMixture {
  gm_covariance_type : string;
  weights_ : vec;
  means_ : matrix;
  precisions_ : list matrix
}.

(** Modelled from the spec: the numeric backend of section 6 (dense linear
    algebra, distances, density estimation, mixture-model EM, sparse
    precision estimation, chi-squared fitting), which the detectors call
    and never reimplement.  An estimator is a function of its arguments
    (the random seed is one of them). *)
Class Backend : Type := {
  (** metrics known to [NearestNeighbors], and the distance they denote
      (metric, metric_params, p) *)
  valid_metric : string -> bool;
  distance : string -> option metric_params_t -> Z -> vec -> vec -> Q;
  (** [KernelDensity(bandwidth, kernel, metric, metric_params).fit(X)] and
      [score_samples] (log-density) *)
  KernelDensity_fit :
    Q -> string -> string -> option metric_params_t -> matrix ->
    result KernelDensity;
  kde_score_samples : KernelDensity -> matrix -> result (list Q);
  (** [GraphLasso(alpha, assume_centered, max_iter, tol).fit(X)] and
      [mahalanobis] *)
  GraphLasso_fit : Q -> bool -> Z -> Q -> matrix -> result GraphLasso;
  mahalanobis : GraphLasso -> matrix -> result (list Q);
  (** [GaussianMixture(covariance_type, max_iter, means_init, n_components,
      precisions_init, random_state, tol, warm_start, weights_init).fit(X)]
      and [score_samples] (log-likelihood) *)
  GaussianMixture_fit :
    string -> Z -> option matrix -> Z -> option (list matrix) -> option Z ->
    Q -> bool -> option vec -> matrix -> result GaussianMixture;
  gmm_score_samples : GaussianMixture -> matrix -> result (list Q);
  (** [Normalizer().fit(X)] keeps no state; [transform] scales each row to
      unit L2 norm *)
  Normalizer_fit : matrix -> result unit;
  Normalizer_transform : matrix -> result matrix;
  (** [np.linalg.norm] of a vector and [np.log] *)
  np_linalg_norm : vec -> Q;
  np_log : Q -> Q;
  (** [scipy.stats.chi2.fit(data)] = (df, loc, scale) and
      [chi2.ppf(q, df, loc, scale)] *)
  chi2_fit : list Q -> result (Q * Q * Q);
  chi2_ppf : Q -> Q -> Q -> Q -> fval
}.

(* ================================================================= *)
(** ** sklearn.neighbors.NearestNeighbors

    An exact k-nearest-neighbour index over the distance of the backend:
    the training matrix is kept, and a query sorts the training rows by
    their distance to the query row. *)

Module Neighbors.

Record t : Type := mk {
  metric : string;
  metric_params : option metric_params_t;
  n_jobs : Z;
  n_neighbors : Z;
  p : Z;
  _fit_X : matrix
}.

Section WithBackend.
Context {B : Backend}.

(** [NearestNeighbors(...).fit(X)]. *)
Definition fit (metric : string) (metric_params : option metric_params_t)
    (n_jobs n_neighbors p : Z) (X : matrix) : result t :=
  if valid_metric metric
  then Ok (mk metric metric_params n_jobs n_neighbors p X)
  else Raise (ValueError "Metric not valid").

Definition dist_to (nn : t) (q : vec) (i : nat) : Q :=
  distance (metric nn) (metric_params nn) (p nn) q (nth i (_fit_X nn) []).

(** Candidate indices by increasing distance to [q]; ties keep the lower
    index first. *)
Definition argsort_dist (nn : t) (q : vec) (cands : list nat) : list nat :=
  map snd (sort_key (map (fun i => (dist_to nn q i, i)) cands)).

(** [kneighbors(X, return_distance=False)]: the indices of the
    [n_neighbors] nearest training rows of each query row; with [X=None]
    the queries are the training rows, and a row is not its own
    neighbour. *)
Definition kneighbors (nn : t) (X : option matrix) : result (list (list nat)) :=
  let n_fit := length (_fit_X nn) in
  let k := Z.to_nat (n_neighbors nn) in
  if (n_neighbors nn <=? 0)%Z
  then Raise (ValueError "Expected n_neighbors > 0")
  else
    match X with
    | Some Xq =>
        if (n_fit <? k)%nat
        then Raise (ValueError "Expected n_neighbors <= n_samples")
        else if negb (forallb
                        (fun r => (length r =? n_features (_fit_X nn))%nat) Xq)
        then Raise (ValueError "Incompatible dimension for X and Y matrices")
        else Ok (map (fun q => firstn k (argsort_dist nn q (seq 0 n_fit))) Xq)
    | None =>
        if (n_fit <? k + 1)%nat
        then Raise (ValueError "Expected n_neighbors <= n_samples")
        else Ok (map (fun i =>
                        firstn k
                          (argsort_dist nn (nth i (_fit_X nn) [])
                             (filter (fun j => negb (j =? i)%nat)
                                (seq 0 n_fit))))
                   (seq 0 n_fit))
    end.

End WithBackend.
End Neighbors.

(* ================================================================= *)
(** ** kenchi/outlier_detection/angle_based/abod.py *)

(** [x / y] on numpy floats under [np.errstate(invalid='raise')]: 0/0 is
    an invalid operation and raises; a non-zero value over zero is a
    division by zero, which only warns and gives an infinity. *)
Definition np_true_divide (x : fval) (y : Q) : result fval :=
  match x with
  | Finite a =>
      if Qeq_bool y 0
      then if Qeq_bool a 0 then Raise FloatingPointError
           else if Qltb 0 a then Ok PosInf else Ok NegInf
      else Ok (Finite (a / y))
  | PosInf => if Qltb y 0 then Ok NegInf else Ok PosInf
  | NegInf => if Qltb y 0 then Ok PosInf else Ok NegInf
  | NaN => Ok NaN
  end.

Fixpoint all_finite (l : list fval) : option (list Q) :=
  match l with
  | [] => Some []
  | Finite q :: l' =>
      match all_finite l' with
      | Some qs => Some (q :: qs)
      | None => None
      end
  | _ :: _ => None
  end.

(** One row of [np.var(..., axis=1)] under [invalid='raise']: an infinite
    entry makes the deviation from the mean invalid, and so does an empty
    row. *)
Definition np_var_checked (l : list fval) : result Q :=
  match all_finite l with
  | Some [] => Raise FloatingPointError
  | Some qs => Ok (np_var qs)
  | None => Raise FloatingPointError
  end.

(** [(pa @ pb) / (pa @ pa) / (pb @ pb)], the products being exact: the
    code computes this value, up to rounding, when [pa @ pa] and [pb @ pb]
    neither overflow, underflow nor wrap ([in_arithmetic_range]). *)
Definition abof_term (pa pb : vec) : result fval :=
  rbind (np_true_divide (Finite (dot pa pb)) (dot pa pa))
        (fun q => np_true_divide q (dot pb pb)).

(** The inner list of [_abof] for one sample [p] with neighbours [ind_p],
    and its variance. *)
Definition abof_row (fit_X : matrix) (p : vec) (ind_p : list nat) : result Q :=
  rbind
    (mapR (fun ab => abof_term (fst ab) (snd ab))
       (combinations2 (map (fun j => vsub (nth j fit_X []) p) ind_p)))
    np_var_checked.

Definition _abof (X : matrix) (ind : list (list nat)) (fit_X : matrix)
  : result (list Q) :=
  mapR (fun pi => abof_row fit_X (fst pi) (snd pi)) (combine X ind).

(** [Parallel(n_jobs)(delayed(_abof)(X[s], ind[s], fit_X) for s in
    gen_even_slices(n_samples, n_jobs))]: the jobs, in slice order. *)
Definition parallel_abof (n_jobs : Z) (X : matrix) (ind : list (list nat))
    (fit_X : matrix) : result (list (list Q)) :=
  rbind (gen_even_slices (length X) n_jobs)
        (mapR (fun s => _abof (slice s X) (slice s ind) fit_X)).

Module FastABOD.

Record t : Type := mk {
  fpr : Q;
  metric : string;
  metric_params : option metric_params_t;
  n_jobs : Z;
  n_neighbors : Z;
  p : Z;
  _knn : option Neighbors.t;
  y_score_ : option (list Q);
  threshold_ : option fval
}.

Definition set_knn (v : Neighbors.t) (s : t) : t :=
  mk (fpr s) (metric s) (metric_params s) (n_jobs s) (n_neighbors s) (p s)
     (Some v) (y_score_ s) (threshold_ s).

Definition set_y_score_ (v : list Q) (s : t) : t :=
  mk (fpr s) (metric s) (metric_params s) (n_jobs s) (n_neighbors s) (p s)
     (_knn s) (Some v) (threshold_ s).

Definition set_threshold_ (v : fval) (s : t) : t :=
  mk (fpr s) (metric s) (metric_params s) (n_jobs s) (n_neighbors s) (p s)
     (_knn s) (y_score_ s) (Some v).

Definition check_params (self : t) : result unit :=
  if Qltb (fpr self) 0 || Qltb 1 (fpr self)
  then Raise (ValueError "fpr must be between 0 and 1 inclusive but was {0}")
  else if (n_neighbors self <=? 1)%Z
  then Raise (ValueError "n_neighbors must be greator than 1 but was {0}")
  else if (p self <? 1)%Z
  then Raise (ValueError "p must be greater than or equal to 1 but was {0}")
  else Ok tt.

(** [FastABOD(fpr, metric, metric_params, n_jobs, n_neighbors, p)]. *)
Definition init (fpr : Q) (metric : string)
    (metric_params : option metric_params_t) (n_jobs n_neighbors p : Z)
  : result t :=
  let self := mk fpr metric metric_params n_jobs n_neighbors p None None None in
  rbind (check_params self) (fun _ => Ok self).

Section WithBackend.
Context {B : Backend}.
Local Open Scope method_scope.

(** The list of job results is not empty when it is concatenated: a
    query that passed [check_array] or [kneighbors] has a row, and
    [gen_even_slices] raises unless there is a job. *)
Definition anomaly_score (X : option matrix) : M t (list Q) :=
  check_is_fitted _knn ;;;
  knn <- getattr _knn ;;
  Xi <- match X with
        | None =>
            ind <- call E_kneighbors (Neighbors.kneighbors knn None) ;;
            ret (Neighbors._fit_X knn, ind)
        | Some X =>
            X <- call E_check_array (check_array X) ;;
            ind <- call E_kneighbors (Neighbors.kneighbors knn (Some X)) ;;
            ret (X, ind)
        end ;;
  self <- get ;;
  result <- call E_abof
              (except_FloatingPointError "X must not contain training samples"
                 (parallel_abof (n_jobs self) (fst Xi) (snd Xi)
                    (Neighbors._fit_X knn))) ;;
  ret (map Qopp (concat result)).

Definition fit (X : matrix) : M t unit :=
  X <- call E_check_array (check_array X) ;;
  self <- get ;;
  knn <- call E_knn_fit
           (Neighbors.fit (metric self) (metric_params self) (n_jobs self)
              (n_neighbors self) (p self) X) ;;
  modify (set_knn knn) ;;;
  y_score <- anomaly_score None ;;
  modify (set_y_score_ y_score) ;;;
  self <- get ;;
  threshold <- call E_percentile
                 (np_percentile y_score (100 * (1 - fpr self))) ;;
  modify (set_threshold_ threshold).

End WithBackend.
End FastABOD.

(* ================================================================= *)
(** ** kenchi/outlier_detection/statistical/nonparametric.py *)

Definition VALID_KERNELS : list string :=
  ["gaussian"; "tophat"; "epanechnikov"; "exponential"; "linear"; "cosine"]%string.

Definition str_in (x : string) (l : list string) : bool :=
  existsb (String.eqb x) l.

Module KernelDensityOutlierDetector.

Record t : Type := mk {
  bandwidth : Q;
  fpr : Q;
  kernel : string;
  metric : string;
  metric_params : option metric_params_t;
  _kde : option KernelDensity;
  y_score_ : option (list Q);
  threshold_ : option fval
}.

Definition set_kde (v : KernelDensity) (s : t) : t :=
  mk (bandwidth s) (fpr s) (kernel s) (metric s) (metric_params s)
     (Some v) (y_score_ s) (threshold_ s).

Definition set_y_score_ (v : list Q) (s : t) : t :=
  mk (bandwidth s) (fpr s) (kernel s) (metric s) (metric_params s)
     (_kde s) (Some v) (threshold_ s).

Definition set_threshold_ (v : fval) (s : t) : t :=
  mk (bandwidth s) (fpr s) (kernel s) (metric s) (metric_params s)
     (_kde s) (y_score_ s) (Some v).

Definition check_params (self : t) : result unit :=
  if Qle_bool (bandwidth self) 0
  then Raise (ValueError "bandwidth must be positive but was {0}")
  else if Qltb (fpr self) 0 || Qltb 1 (fpr self)
  then Raise (ValueError "fpr must be between 0 and 1 inclusive but was {0}")
  else if negb (str_in (kernel self) VALID_KERNELS)
  then Raise (ValueError "invalid kernel: {0}")
  else Ok tt.

(** [KernelDensityOutlierDetector(bandwidth, fpr, kernel, metric,
    metric_params)]. *)
Definition init (bandwidth fpr : Q) (kernel metric : string)
    (metric_params : option metric_params_t) : result t :=
  let self := mk bandwidth fpr kernel metric metric_params None None None in
  rbind (check_params self) (fun _ => Ok self).

Section WithBackend.
Context {B : Backend}.
Local Open Scope method_scope.

Definition anomaly_score (X : option matrix) : M t (list Q) :=
  check_is_fitted _kde ;;;
  match X with
  | None => getattr y_score_
  | Some X =>
      X <- call E_check_array (check_array X) ;;
      kde <- getattr _kde ;;
      log_density <- call E_kde_score_samples (kde_score_samples kde X) ;;
      ret (map Qopp log_density)
  end.

Definition fit (X : matrix) : M t unit :=
  X <- call E_check_array (check_array X) ;;
  self <- get ;;
  kde <- call E_kde_fit
           (KernelDensity_fit (bandwidth self) (kernel self) (metric self)
              (metric_params self) X) ;;
  modify (set_kde kde) ;;;
  y_score <- anomaly_score (Some X) ;;
  modify (set_y_score_ y_score) ;;;
  self <- get ;;
  threshold <- call E_percentile
                 (np_percentile y_score (100 * (1 - fpr self))) ;;
  modify (set_threshold_ threshold).

End WithBackend.
End KernelDensityOutlierDetector.

(* ================================================================= *)
(** ** kenchi/outlier_detection/statistical/parametric.py *)

Definition VALID_COVARIANCE_TYPES : list string :=
  ["full"; "tied"; "diag"; "spherical"]%string.

Module GaussianOutlierDetector.

Record t : Type := mk {
  alpha : Q;
  assume_centered : bool;
  fpr : Q;
  max_iter : Z;
  tol : Q;
  _glasso : option GraphLasso;
  y_score_ : option (list Q);
  threshold_ : option fval;
  Y_score_ : option matrix;
  feature_wise_threshold_ : option (list fval)
}.

Definition set_glasso (v : GraphLasso) (s : t) : t :=
  mk (alpha s) (assume_centered s) (fpr s) (max_iter s) (tol s)
     (Some v) (y_score_ s) (threshold_ s) (Y_score_ s)
     (feature_wise_threshold_ s).

Definition set_y_score_ (v : list Q) (s : t) : t :=
  mk (alpha s) (assume_centered s) (fpr s) (max_iter s) (tol s)
     (_glasso s) (Some v) (threshold_ s) (Y_score_ s)
     (feature_wise_threshold_ s).

Definition set_threshold_ (v : fval) (s : t) : t :=
  mk (alpha s) (assume_centered s) (fpr s) (max_iter s) (tol s)
     (_glasso s) (y_score_ s) (Some v) (Y_score_ s)
     (feature_wise_threshold_ s).

Definition set_Y_score_ (v : matrix) (s : t) : t :=
  mk (alpha s) (assume_centered s) (fpr s) (max_iter s) (tol s)
     (_glasso s) (y_score_ s) (threshold_ s) (Some v)
     (feature_wise_threshold_ s).

Definition set_feature_wise_threshold_ (v : list fval) (s : t) : t :=
  mk (alpha s) (assume_centered s) (fpr s) (max_iter s) (tol s)
     (_glasso s) (y_score_ s) (threshold_ s) (Y_score_ s) (Some v).

Definition check_params (self : t) : result unit :=
  if Qltb (alpha self) 0 || Qltb 1 (alpha self)
  then Raise (ValueError "alpha must be between 0 and 1 inclusive but was {0}")
  else if Qltb (fpr self) 0 || Qltb 1 (fpr self)
  then Raise (ValueError "fpr must be between 0 and 1 inclusive but was {0}")
  else if (max_iter self <=? 0)%Z
  then Raise (ValueError "max_iter must be positive but was {0}")
  else if Qltb (tol self) 0
  then Raise (ValueError "tol must be non-negative but was {0}")
  else Ok tt.

(** [GaussianOutlierDetector(alpha, assume_centered, fpr, max_iter, tol)]. *)
Definition init (alpha : Q) (assume_centered : bool) (fpr : Q)
    (max_iter : Z) (tol : Q) : result t :=
  let self :=
    mk alpha assume_centered fpr max_iter tol None None None None None in
  rbind (check_params self) (fun _ => Ok self).

Section WithBackend.
Context {B : Backend}.
Local Open Scope method_scope.

Definition anomaly_score (X : option matrix) : M t (list Q) :=
  check_is_fitted _glasso ;;;
  match X with
  | None => getattr y_score_
  | Some X =>
      X <- call E_check_array (check_array X) ;;
      glasso <- getattr _glasso ;;
      call E_mahalanobis (mahalanobis glasso X)
  end.

(** [np.diag(precision_)]. *)
Definition diag (P : matrix) : vec :=
  map (fun i => nth i (nth i P []) 0) (seq 0 (length P)).

(** [x - location_] for one row [x] of [X], with the broadcasting of
    numpy: a row of one entry is stretched along [location_].  A
    [location_] of one entry is stretched along a longer row as well, but
    the product with [precision_], a square matrix with one row per entry
    of [location_], is then not defined; other widths do not broadcast. *)
Definition broadcast_sub (x location : vec) : result vec :=
  if (length x =? length location)%nat then Ok (vsub x location)
  else if (length x =? 1)%nat
  then Ok (map (fun l => nth 0 x 0 - l) location)
  else if (length location =? 1)%nat
  then Raise (ValueError "shapes not aligned")
  else Raise (ValueError "operands could not be broadcast together").

(** The feature-wise score of one row [x]:
    [0.5 * log(2 pi / diag) + 0.5 / diag * ((x - location) @ precision)**2]. *)
Definition feature_wise_row (g : GraphLasso) (x : vec) : result vec :=
  rbind (broadcast_sub x (location_ g))
    (fun d =>
       Ok (map (fun j =>
                  let pjj := nth j (diag (precision_ g)) 0 in
                  let dP := dot d (column j (precision_ g)) in
                  (1 # 2) * np_log (2 * np_pi / pjj)
                  + (1 # 2) / pjj * (dP * dP))
               (seq 0 (length (precision_ g))))).

Definition feature_wise_anomaly_score (X : option matrix) : M t matrix :=
  check_is_fitted _glasso ;;;
  match X with
  | None => getattr Y_score_
  | Some X =>
      X <- call E_check_array (check_array X) ;;
      glasso <- getattr _glasso ;;
      match mapR (feature_wise_row glasso) X with
      | Ok Y => ret Y
      | Raise e => raise e
      end
  end.

Definition fit (X : matrix) : M t unit :=
  X <- call E_check_array (check_array X) ;;
  self <- get ;;
  glasso <- call E_glasso_fit
              (GraphLasso_fit (alpha self) (assume_centered self)
                 (max_iter self) (tol self) X) ;;
  modify (set_glasso glasso) ;;;
  y_score <- anomaly_score (Some X) ;;
  modify (set_y_score_ y_score) ;;;
  dls <- call E_chi2_fit (chi2_fit y_score) ;;
  self <- get ;;
  modify (set_threshold_
            (chi2_ppf (1 - fpr self) (fst (fst dls)) (snd (fst dls)) (snd dls))) ;;;
  Y_score <- feature_wise_anomaly_score (Some X) ;;
  modify (set_Y_score_ Y_score) ;;;
  self <- get ;;
  fwt <- call E_percentile
           (np_percentile_axis0 Y_score (100 * (1 - fpr self))) ;;
  modify (set_feature_wise_threshold_ fwt).

End WithBackend.
End GaussianOutlierDetector.

Module GaussianMixtureOutlierDetector.

Record t : Type := mk {
  covariance_type : string;
  fpr : Q;
  max_iter : Z;
  means_init : option matrix;
  n_components : Z;
  precisions_init : option (list matrix);
  random_state : option Z;
  tol : Q;
  warm_start : bool;
  weights_init : option vec;
  _gmm : option GaussianMixture;
  y_score_ : option (list Q);
  threshold_ : option fval
}.

Definition set_gmm (v : GaussianMixture) (s : t) : t :=
  mk (covariance_type s) (fpr s) (max_iter s) (means_init s) (n_components s)
     (precisions_init s) (random_state s) (tol s) (warm_start s)
     (weights_init s) (Some v) (y_score_ s) (threshold_ s).

Definition set_y_score_ (v : list Q) (s : t) : t :=
  mk (covariance_type s) (fpr s) (max_iter s) (means_init s) (n_components s)
     (precisions_init s) (random_state s) (tol s) (warm_start s)
     (weights_init s) (_gmm s) (Some v) (threshold_ s).

Definition set_threshold_ (v : fval) (s : t) : t :=
  mk (covariance_type s) (fpr s) (max_iter s) (means_init s) (n_components s)
     (precisions_init s) (random_state s) (tol s) (warm_start s)
     (weights_init s) (_gmm s) (y_score_ s) (Some v).

Definition check_params (self : t) : result unit :=
  if negb (str_in (covariance_type self) VALID_COVARIANCE_TYPES)
  then Raise (ValueError "invalid covariance_type: {0}")
  else if Qltb (fpr self) 0 || Qltb 1 (fpr self)
  then Raise (ValueError "fpr must be between 0 and 1 inclusive but was {0}")
  else if (max_iter self <=? 0)%Z
  then Raise (ValueError "max_iter must be positive but was {0}")
  else if (n_components self <=? 0)%Z
  then Raise (ValueError "n_components must be positive but was {0}")
  else if Qltb (tol self) 0
  then Raise (ValueError "tol must be non-negative but was {0}")
  else Ok tt.

(** [GaussianMixtureOutlierDetector(covariance_type, fpr, max_iter,
    means_init, n_components, precisions_init, random_state, tol,
    warm_start, weights_init)]. *)
Definition init (covariance_type : string) (fpr : Q) (max_iter : Z)
    (means_init : option matrix) (n_components : Z)
    (precisions_init : option (list matrix)) (random_state : option Z)
    (tol : Q) (warm_start : bool) (weights_init : option vec) : result t :=
  let self :=
    mk covariance_type fpr max_iter means_init n_components precisions_init
       random_state tol warm_start weights_init None None None in
  rbind (check_params self) (fun _ => Ok self).

Section WithBackend.
Context {B : Backend}.
Local Open Scope method_scope.

Definition anomaly_score (X : option matrix) : M t (list Q) :=
  check_is_fitted _gmm ;;;
  match X with
  | None => getattr y_score_
  | Some X =>
      X <- call E_check_array (check_array X) ;;
      gmm <- getattr _gmm ;;
      log_likelihood <- call E_gmm_score_samples (gmm_score_samples gmm X) ;;
      ret (map Qopp log_likelihood)
  end.

Definition fit (X : matrix) : M t unit :=
  X <- call E_check_array (check_array X) ;;
  self <- get ;;
  gmm <- call E_gmm_fit
           (GaussianMixture_fit (covariance_type self) (max_iter self)
              (means_init self) (n_components self) (precisions_init self)
              (random_state self) (tol self) (warm_start self)
              (weights_init self) X) ;;
  modify (set_gmm gmm) ;;;
  y_score <- anomaly_score (Some X) ;;
  modify (set_y_score_ y_score) ;;;
  self <- get ;;
  threshold <- call E_percentile
                 (np_percentile y_score (100 * (1 - fpr self))) ;;
  modify (set_threshold_ threshold).

End WithBackend.
End GaussianMixtureOutlierDetector.

Module VMFOutlierDetector.

Record t : Type := mk {
  assume_normalized : bool;
  fpr : Q;
  _normalizer : option unit;
  mean_direction_ : option vec;
  y_score_ : option (list Q);
  threshold_ : option fval
}.

Definition set_normalizer (v : unit) (s : t) : t :=
  mk (assume_normalized s) (fpr s) (Some v) (mean_direction_ s) (y_score_ s)
     (threshold_ s).

Definition set_mean_direction_ (v : vec) (s : t) : t :=
  mk (assume_normalized s) (fpr s) (_normalizer s) (Some v) (y_score_ s)
     (threshold_ s).

Definition set_y_score_ (v : list Q) (s : t) : t :=
  mk (assume_normalized s) (fpr s) (_normalizer s) (mean_direction_ s)
     (Some v) (threshold_ s).

Definition set_threshold_ (v : fval) (s : t) : t :=
  mk (assume_normalized s) (fpr s) (_normalizer s) (mean_direction_ s)
     (y_score_ s) (Some v).

Definition check_params (self : t) : result unit :=
  if Qltb (fpr self) 0 || Qltb 1 (fpr self)
  then Raise (ValueError "fpr must be between 0 and 1 inclusive but was {0}")
  else Ok tt.

(** [VMFOutlierDetector(assume_normalized, fpr)]. *)
Definition init (assume_normalized : bool) (fpr : Q) : result t :=
  let self := mk assume_normalized fpr None None None None in
  rbind (check_params self) (fun _ => Ok self).

Section WithBackend.
Context {B : Backend}.
Local Open Scope method_scope.

(** [1.0 - X @ mean_direction_]; the widths must agree. *)
Definition cosine_scores (X : matrix) (mu : vec) : result (list Q) :=
  if forallb (fun r => (length r =? length mu)%nat) X
  then Ok (map (fun r => 1 - dot r mu) X)
  else Raise (ValueError "shapes not aligned").

Definition anomaly_score (X : option matrix) : M t (list Q) :=
  check_is_fitted _normalizer ;;;
  match X with
  | None => getattr y_score_
  | Some X =>
      X <- call E_check_array (check_array X) ;;
      self <- get ;;
      X <- (if negb (assume_normalized self)
            then call E_normalizer_transform (Normalizer_transform X)
            else ret X) ;;
      mu <- getattr mean_direction_ ;;
      match cosine_scores X mu with
      | Ok y => ret y
      | Raise e => raise e
      end
  end.

Definition fit (X : matrix) : M t unit :=
  X <- call E_check_array (check_array X) ;;
  self <- get ;;
  X <- (if negb (assume_normalized self)
        then
          nz <- call E_normalizer_fit (Normalizer_fit X) ;;
          modify (set_normalizer nz) ;;;
          call E_normalizer_transform (Normalizer_transform X)
        else ret X) ;;
  let mean := np_mean_axis0 X in
  let nrm := np_linalg_norm mean in
  modify (set_mean_direction_ (map (fun m => m / nrm) mean)) ;;;
  y_score <- anomaly_score (Some X) ;;
  modify (set_y_score_ y_score) ;;;
  dls <- call E_chi2_fit (chi2_fit y_score) ;;
  self <- get ;;
  modify (set_threshold_
            (chi2_ppf (1 - fpr self) (fst (fst dls)) (snd (fst dls)) (snd dls))).

End WithBackend.
End VMFOutlierDetector.

(* ================================================================= *)
(** ** kenchi/base.py: DetectorMixin *)

(** Modelled from the spec: the class [BaseDetector] of
    [kenchi/outlier_detection/base.py], which the five detector classes
    extend and which is not among the sources.  By the detector contract
    (section 4.1) every detector has the [predict] and [fit_predict] of
    [DetectorMixin]; a detector object is an instance of one of the five
    classes, and the abstract methods dispatch on its class. *)
Inductive detector : Type :=
| ABOD (d : FastABOD.t)
| KDE (d : KernelDensityOutlierDetector.t)
| GAUSS (d : GaussianOutlierDetector.t)
| GMM (d : GaussianMixtureOutlierDetector.t)
| VMF (d : VMFOutlierDetector.t).

Definition lift {S A} (inj : S -> detector) (o : outcome S A)
  : outcome detector A :=
  mkOutcome (value o) (inj (final o)) (trace o).

Definition threshold_ (d : detector) : option fval :=
  match d with
  | ABOD s => FastABOD.threshold_ s
  | KDE s => KernelDensityOutlierDetector.threshold_ s
  | GAUSS s => GaussianOutlierDetector.threshold_ s
  | GMM s => GaussianMixtureOutlierDetector.threshold_ s
  | VMF s => VMFOutlierDetector.threshold_ s
  end.

Definition y_score_ (d : detector) : option (list Q) :=
  match d with
  | ABOD s => FastABOD.y_score_ s
  | KDE s => KernelDensityOutlierDetector.y_score_ s
  | GAUSS s => GaussianOutlierDetector.y_score_ s
  | GMM s => GaussianMixtureOutlierDetector.y_score_ s
  | VMF s => VMFOutlierDetector.y_score_ s
  end.

Definition fpr (d : detector) : Q :=
  match d with
  | ABOD s => FastABOD.fpr s
  | KDE s => KernelDensityOutlierDetector.fpr s
  | GAUSS s => GaussianOutlierDetector.fpr s
  | GMM s => GaussianMixtureOutlierDetector.fpr s
  | VMF s => VMFOutlierDetector.fpr s
  end.

Section WithBackend.
Context {B : Backend}.
Local Open Scope method_scope.

(** The abstract methods, dispatched on the class of the object. *)
Definition fit (X : matrix) : M detector unit :=
  fun d =>
    match d with
    | ABOD s => lift ABOD (FastABOD.fit X s)
    | KDE s => lift KDE (KernelDensityOutlierDetector.fit X s)
    | GAUSS s => lift GAUSS (GaussianOutlierDetector.fit X s)
    | GMM s => lift GMM (GaussianMixtureOutlierDetector.fit X s)
    | VMF s => lift VMF (VMFOutlierDetector.fit X s)
    end.

Definition anomaly_score (X : option matrix) : M detector (list Q) :=
  fun d =>
    match d with
    | ABOD s => lift ABOD (FastABOD.anomaly_score X s)
    | KDE s => lift KDE (KernelDensityOutlierDetector.anomaly_score X s)
    | GAUSS s => lift GAUSS (GaussianOutlierDetector.anomaly_score X s)
    | GMM s => lift GMM (GaussianMixtureOutlierDetector.anomaly_score X s)
    | VMF s => lift VMF (VMFOutlierDetector.anomaly_score X s)
    end.

(** [(y_score > threshold).astype(np.int32)]. *)
Definition flag (threshold : fval) (y_score : list Q) : list Z :=
  map (fun s => if gt_fval s threshold then 1%Z else 0%Z) y_score.

Definition predict (X : option matrix) : M detector (list Z) :=
  check_is_fitted threshold_ ;;;
  y_score <- anomaly_score X ;;
  threshold <- getattr threshold_ ;;
  ret (flag threshold y_score).

Definition fit_predict (X : matrix) : M detector (list Z) :=
  fit X ;;; predict (Some X).

End WithBackend.



(* ================================================================= *)
(** ** A reference backend

    An executable instance of [Backend], used to run the detectors on
    concrete data.  Distances are the rank-equivalent reduced distances
    (sum of squares for the Euclidean metric); square roots and logarithms
    are rational approximations; the estimators are the simplest members
    of their families (one kernel, identity precision, one component). *)

Module Reference.

Definition sq_dist (x y : vec) : Q := dot (vsub x y) (vsub x y).

Definition abs_dist (x y : vec) : Q := Qsum (map Qabs (vsub x y)).

Definition ref_valid_metric (m : string) : bool :=
  str_in m ["minkowski"; "euclidean"; "manhattan"]%string.

Definition ref_distance (m : string) (mp : option metric_params_t) (p : Z)
    (x y : vec) : Q :=
  if String.eqb m "manhattan" || (p =? 1)%Z then abs_dist x y else sq_dist x y.

(** [sqrt (n / d) = sqrt (n * d) / d], with 30 fractional bits. *)
Definition Qsqrt (x : Q) : Q :=
  Z.sqrt (Qnum x * Zpos (Qden x) * 2 ^ 60) # (Qden x * 2 ^ 30).

Definition widths_agree (X : matrix) (w : nat) : bool :=
  forallb (fun r => (length r =? w)%nat) X.

Definition ref_KernelDensity_fit (bandwidth : Q) (kernel metric : string)
    (mp : option metric_params_t) (X : matrix) : result KernelDensity :=
  Ok (mkKernelDensity bandwidth kernel metric mp X).

Definition ref_kde_score_samples (kde : KernelDensity) (X : matrix)
  : result (list Q) :=
  if widths_agree X (n_features (kd_X kde))
  then Ok (map (fun x =>
                  - (np_mean (map (sq_dist x) (kd_X kde)))
                    / (2 * kd_bandwidth kde * kd_bandwidth kde)) X)
  else Raise (ValueError "query data dimension must match training data dimension").

Definition identity (d : nat) : matrix :=
  map (fun i => map (fun j => if (i =? j)%nat then 1 else 0) (seq 0 d))
      (seq 0 d).

(** The graphical lasso regresses every feature on the others: it needs
    two features at least. *)
Definition ref_GraphLasso_fit (alpha : Q) (assume_centered : bool)
    (max_iter : Z) (tol : Q) (X : matrix) : result GraphLasso :=
  if (n_features X <? 2)%nat
  then Raise (ValueError "the graphical lasso needs two features at least")
  else
    Ok (mkGraphLasso (identity (n_features X))
          (if assume_centered then map (fun _ => 0) (seq 0 (n_features X))
           else np_mean_axis0 X)).

Definition ref_mahalanobis (g : GraphLasso) (X : matrix) : result (list Q) :=
  if widths_agree X (length (location_ g))
  then Ok (map (fun x =>
                  let d := vsub x (location_ g) in
                  dot (map (fun j => dot d (column j (precision_ g)))
                         (seq 0 (length d))) d) X)
  else Raise (ValueError "shapes not aligned").

Definition ref_GaussianMixture_fit (covariance_type : string) (max_iter : Z)
    (means_init : option matrix) (n_components : Z)
    (precisions_init : option (list matrix)) (random_state : option Z)
    (tol : Q) (warm_start : bool) (weights_init : option vec) (X : matrix)
  : result GaussianMixture :=
  Ok (mkGaussianMixture covariance_type [1] [np_mean_axis0 X]
        [identity (n_features X)]).

Definition ref_gmm_score_samples (gmm : GaussianMixture) (X : matrix)
  : result (list Q) :=
  match means_ gmm with
  | mu :: _ =>
      if widths_agree X (length mu)
      then Ok (map (fun x => - (1 # 2) * sq_dist x mu) X)
      else Raise (ValueError "shapes not aligned")
  | [] => Raise (ValueError "no component")
  end.

Definition ref_norm (v : vec) : Q := Qsqrt (dot v v).

Definition ref_Normalizer_transform (X : matrix) : result matrix :=
  Ok (map (fun r =>
             if Qeq_bool (ref_norm r) 0 then r
             else map (fun x => x / ref_norm r) r) X).

Definition ref_log (x : Q) : Q :=
  if Qltb 0 x then 2 * (x - 1) / (x + 1) else 0.

Definition ref_chi2_fit (data : list Q) : result (Q * Q * Q) :=
  match data with
  | [] => Raise (ValueError "empty data")
  | _ => Ok (1, 0, Qabs (np_mean data) + 1)
  end.

(** A quantile function with the shape of [chi2.ppf]: nan outside the
    domain, [loc] at 0, increasing, infinite at 1. *)
Definition ref_chi2_ppf (q df loc scale : Q) : fval :=
  if Qltb q 0 || Qltb 1 q || Qle_bool df 0 || Qle_bool scale 0 then NaN
  else if Qeq_bool q 1 then PosInf
  else Finite (loc + scale * q).

#[export] Instance backend : Backend := {
  valid_metric := ref_valid_metric;
  distance := ref_distance;
  KernelDensity_fit := ref_KernelDensity_fit;
  kde_score_samples := ref_kde_score_samples;
  GraphLasso_fit := ref_GraphLasso_fit;
  mahalanobis := ref_mahalanobis;
  GaussianMixture_fit := ref_GaussianMixture_fit;
  gmm_score_samples := ref_gmm_score_samples;
  Normalizer_fit := fun _ => Ok tt;
  Normalizer_transform := ref_Normalizer_transform;
  np_linalg_norm := ref_norm;
  np_log := ref_log;
  chi2_fit := ref_chi2_fit;
  chi2_ppf := ref_chi2_ppf
}.

(** Sample data. *)
Definition X_line : matrix := [[0]; [1]; [3]; [7]].
Definition X_dup : matrix := [[0; 0]; [0; 0]; [1; 0]; [0; 1]].
Definition X_plane : matrix := [[1; 0]; [0; 1]; [1; 1]; [3; 4]].
Definition X_query : matrix := [[6; 5]; [0; 0]].

Definition new_abod (f : Q) : detector :=
  ABOD (FastABOD.mk f "minkowski" None 1 2 2 None None None).
Definition new_abod3 (f : Q) : detector :=
  ABOD (FastABOD.mk f "minkowski" None 1 3 2 None None None).
Definition new_kde (f : Q) : detector :=
  KDE (KernelDensityOutlierDetector.mk 1 f "gaussian" "euclidean" None
         None None None).
Definition new_gauss (f : Q) : detector :=
  GAUSS (GaussianOutlierDetector.mk (1 # 100) false f 100 (1 # 10000)
           None None None None None).
Definition new_gmm (f : Q) : detector :=
  GMM (GaussianMixtureOutlierDetector.mk "full" f 100 None 1 None None
         (1 # 1000) false None None None None).
Definition new_vmf (normalized : bool) (f : Q) : detector :=
  VMF (VMFOutlierDetector.mk normalized f None None None None).

End Reference.

(* ================================================================= *)
(** * Vocabulary of the properties *)

Unset Implicit Arguments.

(** ** Construction *)

Definition raises_ValueError {A} (r : result A) : Prop :=
  exists msg, r = Raise (ValueError msg).

(** ** Row slices *)

(** Rows of pack [pack_num]. *)
Definition pack_size (n n_packs pack_num : nat) : nat :=
  (n / n_packs + (if pack_num <? n mod n_packs then 1 else 0))%nat.

Fixpoint packs_total (n n_packs : nat) (packs : list nat) : nat :=
  match packs with
  | [] => 0%nat
  | j :: packs' => (pack_size n n_packs j + packs_total n n_packs packs')%nat
  end.

(** ** Prediction *)

(** [s > t] as a proposition. *)
Definition fgt (s : Q) (t : fval) : Prop :=
  match t with
  | Finite q => q < s
  | NegInf => True
  | PosInf | NaN => False
  end.

(** Library scoring functions return one score per row. *)
Definition one_score_per_row {B : Backend} : Prop :=
  (forall kde X ld, kde_score_samples kde X = Ok ld -> length ld = length X) /\
  (forall g X y, mahalanobis g X = Ok y -> length y = length X) /\
  (forall gmm X ll, gmm_score_samples gmm X = Ok ll -> length ll = length X) /\
  (forall X X', Normalizer_transform X = Ok X' -> length X' = length X).

(** Claim C6 at one detector and one matrix that passes the validation:
    [predict(X)] returns one flag, 0 or 1, per row of [X]. *)
Definition predicts_every_valid_matrix {B : Backend}
    (d : detector) (X : matrix) : Prop :=
  check_array X = Ok X ->
  exists y,
    value (predict (Some X) d) = Ok y /\
    length y = length X /\
    Forall (fun z => z = 0%Z \/ z = 1%Z) y.

(** ** Threshold calibration *)



(** ** Cached scores *)

(** Claim C2 at one detector and training matrix: after a successful
    [fit(X)], [anomaly_score(None)] returns the cached [y_score_] and
    computes nothing (it makes no call). *)
Definition returns_cached_without_recomputation {B : Backend}
    (d : detector) (X : matrix) : Prop :=
  value (fit X d) = Ok tt ->
  exists ys,
    y_score_ (final (fit X d)) = Some ys /\
    value (anomaly_score None (final (fit X d))) = Ok ys /\
    trace (anomaly_score None (final (fit X d))) = [].

(** ** Failing fits *)

(** Claim C4 at one detector and input: a failing [fit] leaves the
    detector as it was. *)
Definition failed_fit_leaves_state_untouched {B : Backend}
    (d : detector) (X : matrix) : Prop :=
  forall e, value (fit X d) = Raise e -> final (fit X d) = d.

(** The estimator that [fit] builds from the validated matrix, before it
    assigns anything: the neighbour index, the density estimator, the
    graphical lasso, the mixture, or the normalizer (none when
    [assume_normalized]). *)
Definition estimator_fit {B : Backend} (d : detector) (X : matrix)
  : result unit :=
  match d with
  | ABOD s =>
      rbind (Neighbors.fit (FastABOD.metric s) (FastABOD.metric_params s)
               (FastABOD.n_jobs s) (FastABOD.n_neighbors s) (FastABOD.p s) X)
            (fun _ => Ok tt)
  | KDE s =>
      rbind (KernelDensity_fit (KernelDensityOutlierDetector.bandwidth s)
               (KernelDensityOutlierDetector.kernel s)
               (KernelDensityOutlierDetector.metric s)
               (KernelDensityOutlierDetector.metric_params s) X)
            (fun _ => Ok tt)
  | GAUSS s =>
      rbind (GraphLasso_fit (GaussianOutlierDetector.alpha s)
               (GaussianOutlierDetector.assume_centered s)
               (GaussianOutlierDetector.max_iter s)
               (GaussianOutlierDetector.tol s) X)
            (fun _ => Ok tt)
  | GMM s =>
      rbind (GaussianMixture_fit
               (GaussianMixtureOutlierDetector.covariance_type s)
               (GaussianMixtureOutlierDetector.max_iter s)
               (GaussianMixtureOutlierDetector.means_init s)
               (GaussianMixtureOutlierDetector.n_components s)
               (GaussianMixtureOutlierDetector.precisions_init s)
               (GaussianMixtureOutlierDetector.random_state s)
               (GaussianMixtureOutlierDetector.tol s)
               (GaussianMixtureOutlierDetector.warm_start s)
               (GaussianMixtureOutlierDetector.weights_init s) X)
            (fun _ => Ok tt)
  | VMF s =>
      if VMFOutlierDetector.assume_normalized s then Ok tt
      else Normalizer_fit X
  end.

(** The attribute that [fit] assigns last. *)
Definition last_assigned (d : detector) : option fval * option (list fval) :=
  match d with
  | GAUSS s => (None, GaussianOutlierDetector.feature_wise_threshold_ s)
  | _ => (threshold_ d, None)
  end.

(** ** Detectors that have not been fitted *)

(** The objects returned by the constructors. *)
Inductive constructed : detector -> Prop :=
| constructed_ABOD fpr metric mp n_jobs n_neighbors p s :
    FastABOD.init fpr metric mp n_jobs n_neighbors p = Ok s ->
    constructed (ABOD s)
| constructed_KDE bandwidth fpr kernel metric mp s :
    KernelDensityOutlierDetector.init bandwidth fpr kernel metric mp = Ok s ->
    constructed (KDE s)
| constructed_GAUSS alpha centered fpr max_iter tol s :
    GaussianOutlierDetector.init alpha centered fpr max_iter tol = Ok s ->
    constructed (GAUSS s)
| constructed_GMM cov fpr max_iter means n_components precs seed tol warm ws s :
    GaussianMixtureOutlierDetector.init cov fpr max_iter means n_components
      precs seed tol warm ws = Ok s ->
    constructed (GMM s)
| constructed_VMF normalized fpr s :
    VMFOutlierDetector.init normalized fpr = Ok s ->
    constructed (VMF s).

(** The detectors on which no [fit] has succeeded yet: new ones, and what
    failing calls of [fit] leave of them. *)
Inductive unfitted {B : Backend} : detector -> Prop :=
| unfitted_new d : constructed d -> unfitted d
| unfitted_fit_failed d X e :
    unfitted d -> value (fit X d) = Raise e -> unfitted (final (fit X d)).

(** Claim C5 at one detector: scoring and prediction raise
    NotFittedError. *)
Definition raises_not_fitted {B : Backend} (d : detector) : Prop :=
  forall X,
    value (anomaly_score X d) = Raise NotFittedError /\
    value (predict X d) = Raise NotFittedError.

(** The location estimated by the graphical lasso has one entry per
    feature. *)
Definition glasso_location_shape {B : Backend} : Prop :=
  forall alpha centered max_iter tol X g,
    GraphLasso_fit alpha centered max_iter tol X = Ok g ->
    length (location_ g) = n_features X.

(** ** Sorted vectors *)

Definition key_le {A} (x y : Q * A) : Prop := fst x <= fst y.


(** ** The false-positive rate *)





(** ** The angle-based outlier factor *)





(** The rows scored by [anomaly_score]: the given ones, or the training
    rows. *)
Definition queries (knn : Neighbors.t) (X : option matrix) : matrix :=
  match X with
  | Some X' => X'
  | None => Neighbors._fit_X knn
  end.

(** The metric of the index separates points: distances are non-negative,
    and zero exactly between equal points. *)
Definition metric_separates {B : Backend} (nn : Neighbors.t) : Prop :=
  forall x y,
    length x = length y ->
    0 <= distance (Neighbors.metric nn) (Neighbors.metric_params nn)
           (Neighbors.p nn) x y /\
    (distance (Neighbors.metric nn) (Neighbors.metric_params nn)
       (Neighbors.p nn) x y == 0 <-> Forall2 Qeq x y).

Definition overlap_message : string := "X must not contain training samples".

(** ** Hyperparameters and fitted attributes *)

(** The object with the attributes that [fit] assigns deleted: what is
    left are the arguments of the constructor. *)
Definition hyperparameters (d : detector) : detector :=
  match d with
  | ABOD s =>
      ABOD (FastABOD.mk (FastABOD.fpr s) (FastABOD.metric s)
              (FastABOD.metric_params s) (FastABOD.n_jobs s)
              (FastABOD.n_neighbors s) (FastABOD.p s) None None None)
  | KDE s =>
      KDE (KernelDensityOutlierDetector.mk
             (KernelDensityOutlierDetector.bandwidth s)
             (KernelDensityOutlierDetector.fpr s)
             (KernelDensityOutlierDetector.kernel s)
             (KernelDensityOutlierDetector.metric s)
             (KernelDensityOutlierDetector.metric_params s)
             None None None)
  | GAUSS s =>
      GAUSS (GaussianOutlierDetector.mk
               (GaussianOutlierDetector.alpha s)
               (GaussianOutlierDetector.assume_centered s)
               (GaussianOutlierDetector.fpr s)
               (GaussianOutlierDetector.max_iter s)
               (GaussianOutlierDetector.tol s)
               None None None None None)
  | GMM s =>
      GMM (GaussianMixtureOutlierDetector.mk
             (GaussianMixtureOutlierDetector.covariance_type s)
             (GaussianMixtureOutlierDetector.fpr s)
             (GaussianMixtureOutlierDetector.max_iter s)
             (GaussianMixtureOutlierDetector.means_init s)
             (GaussianMixtureOutlierDetector.n_components s)
             (GaussianMixtureOutlierDetector.precisions_init s)
             (GaussianMixtureOutlierDetector.random_state s)
             (GaussianMixtureOutlierDetector.tol s)
             (GaussianMixtureOutlierDetector.warm_start s)
             (GaussianMixtureOutlierDetector.weights_init s)
             None None None)
  | VMF s =>
      VMF (VMFOutlierDetector.mk (VMFOutlierDetector.assume_normalized s)
             (VMFOutlierDetector.fpr s) None None None None)
  end.

Definition is_Some {A} (o : option A) : bool :=
  match o with
  | Some _ => true
  | None => false
  end.

(** Every attribute that [fit] assigns is present. *)
Definition all_assigned (d : detector) : bool :=
  match d with
  | ABOD s =>
      is_Some (FastABOD._knn s) && is_Some (FastABOD.y_score_ s)
      && is_Some (FastABOD.threshold_ s)
  | KDE s =>
      is_Some (KernelDensityOutlierDetector._kde s)
      && is_Some (KernelDensityOutlierDetector.y_score_ s)
      && is_Some (KernelDensityOutlierDetector.threshold_ s)
  | GAUSS s =>
      is_Some (GaussianOutlierDetector._glasso s)
      && is_Some (GaussianOutlierDetector.y_score_ s)
      && is_Some (GaussianOutlierDetector.threshold_ s)
      && is_Some (GaussianOutlierDetector.Y_score_ s)
      && is_Some (GaussianOutlierDetector.feature_wise_threshold_ s)
  | GMM s =>
      is_Some (GaussianMixtureOutlierDetector._gmm s)
      && is_Some (GaussianMixtureOutlierDetector.y_score_ s)
      && is_Some (GaussianMixtureOutlierDetector.threshold_ s)
  | VMF s =>
      is_Some (VMFOutlierDetector._normalizer s)
      && is_Some (VMFOutlierDetector.mean_direction_ s)
      && is_Some (VMFOutlierDetector.y_score_ s)
      && is_Some (VMFOutlierDetector.threshold_ s)
  end.

(** The detectors whose [fit] builds its estimator from the training
    matrix: all but the directional detector with [assume_normalized]. *)
Definition builds_estimator (d : detector) : bool :=
  match d with
  | VMF s => negb (VMFOutlierDetector.assume_normalized s)
  | _ => true
  end.

(** The detectors that score the training matrix through the method that
    also scores new data. *)
Definition scores_training_as_new (d : detector) : bool :=
  match d with
  | KDE _ | GAUSS _ | GMM _ => true
  | ABOD _ | VMF _ => false
  end.


(** ** Training matrices *)

(** Two rows of the matrix are equal. *)
Definition has_duplicate_rows (X : matrix) : Prop :=
  exists i j,
    (i < length X)%nat /\ (j < length X)%nat /\ i <> j /\
    Forall2 Qeq (nth i X []) (nth j X []).



(** The shapes that GraphLasso gives its attributes: [precision_] is a
    square matrix with one row per entry of [location_]. *)
Definition glasso_well_shaped (g : GraphLasso) : Prop :=
  length (precision_ g) = length (location_ g) /\
  forall r, In r (precision_ g) -> length r = length (location_ g).

(** The index that [FastABOD.fit] builds on [X]. *)
Definition knn_of (s : FastABOD.t) (X : matrix) : Neighbors.t :=
  Neighbors.mk (FastABOD.metric s) (FastABOD.metric_params s)
    (FastABOD.n_jobs s) (FastABOD.n_neighbors s) (FastABOD.p s) X.

(** The exceptions that the detectors raise on their own account. *)
Definition is_ValueError_or_NotFittedError (e : exn) : Prop :=
  e = NotFittedError \/ exists msg, e = ValueError msg.

(** ** Scoring in one job *)

(** The scores of [FastABOD.anomaly_score] when [_abof] is called once,
    on all the rows. *)
Definition sequential_scores {B : Backend} (knn : Neighbors.t)
    (X : option matrix) : result (list Q) :=
  rbind (match X with
         | Some X' => check_array X'
         | None => Ok (Neighbors._fit_X knn)
         end)
    (fun Xq =>
       rbind (Neighbors.kneighbors knn
                (match X with Some _ => Some Xq | None => None end))
         (fun ind =>
            rbind (except_FloatingPointError overlap_message
                     (_abof Xq ind (Neighbors._fit_X knn)))
              (fun zs => Ok (map Qopp zs)))).

(** ** The in-sample scores *)

(** [mean / np.linalg.norm(mean)] for the mean of the rows of [X]. *)
Definition mean_direction {B : Backend} (X : matrix) : vec :=
  map (fun m => m / np_linalg_norm (np_mean_axis0 X)) (np_mean_axis0 X).

(** The in-sample score vector of the training matrix [X] for the
    hyperparameters of [d]: the scores that the model estimated from [X]
    gives to the rows of [X].  FastABOD scores every row from its
    neighbours among the other rows; the density detectors negate the
    log-density of the estimator fitted to [X]; the Gaussian detector takes
    the Mahalanobis distances of the graphical lasso fitted to [X]; the
    directional detector scores, against the mean direction of the
    normalized rows, the rows as [anomaly_score] sees them, normalized once
    more. *)
Definition in_sample_scores {B : Backend} (d : detector) (X : matrix)
  : result (list Q) :=
  match d with
  | ABOD s =>
      rbind (Neighbors.fit (FastABOD.metric s) (FastABOD.metric_params s)
               (FastABOD.n_jobs s) (FastABOD.n_neighbors s) (FastABOD.p s) X)
        (fun knn => sequential_scores knn None)
  | KDE s =>
      rbind (KernelDensity_fit (KernelDensityOutlierDetector.bandwidth s)
               (KernelDensityOutlierDetector.kernel s)
               (KernelDensityOutlierDetector.metric s)
               (KernelDensityOutlierDetector.metric_params s) X)
        (fun kde =>
           rbind (kde_score_samples kde X) (fun ld => Ok (map Qopp ld)))
  | GAUSS s =>
      rbind (GraphLasso_fit (GaussianOutlierDetector.alpha s)
               (GaussianOutlierDetector.assume_centered s)
               (GaussianOutlierDetector.max_iter s)
               (GaussianOutlierDetector.tol s) X)
        (fun g => mahalanobis g X)
  | GMM s =>
      rbind (GaussianMixture_fit
               (GaussianMixtureOutlierDetector.covariance_type s)
               (GaussianMixtureOutlierDetector.max_iter s)
               (GaussianMixtureOutlierDetector.means_init s)
               (GaussianMixtureOutlierDetector.n_components s)
               (GaussianMixtureOutlierDetector.precisions_init s)
               (GaussianMixtureOutlierDetector.random_state s)
               (GaussianMixtureOutlierDetector.tol s)
               (GaussianMixtureOutlierDetector.warm_start s)
               (GaussianMixtureOutlierDetector.weights_init s) X)
        (fun gmm =>
           rbind (gmm_score_samples gmm X) (fun ll => Ok (map Qopp ll)))
  | VMF s =>
      let normalize X :=
        if VMFOutlierDetector.assume_normalized s then Ok X
        else Normalizer_transform X in
      rbind (normalize X)
        (fun Xn =>
           rbind (normalize Xn)
             (fun Xnn =>
                VMFOutlierDetector.cosine_scores Xnn (mean_direction Xn)))
  end.

(** Claim C9 for the percentile families: after [fit(X)] on the detector
    [d], the detector [d'] holds the in-sample score vector of [X] and its
    threshold is its empirical 100(1-fpr) percentile. *)
Definition percentile_calibrated_on {B : Backend}
    (d : detector) (X : matrix) (d' : detector) : Prop :=
  exists ys t,
    in_sample_scores d X = Ok ys /\
    y_score_ d' = Some ys /\
    np_percentile ys (100 * (1 - fpr d)) = Ok t /\
    threshold_ d' = Some t.

(** Claim C9 for the chi-squared families: after [fit(X)] on the detector
    [d], the detector [d'] holds the in-sample score vector of [X] and its
    threshold is the (1-fpr) quantile of the chi-squared distribution
    whose degrees of freedom, location and scale are fitted to it. *)
Definition chi2_calibrated_on {B : Backend}
    (d : detector) (X : matrix) (d' : detector) : Prop :=
  exists ys df loc scale,
    in_sample_scores d X = Ok ys /\
    y_score_ d' = Some ys /\
    chi2_fit ys = Ok (df, loc, scale) /\
    threshold_ d' = Some (chi2_ppf (1 - fpr d) df loc scale).

(* ================================================================= *)
(** * Properties *)

(** ** Running methods *)

(** [check_array] returns its argument. *)
Lemma check_array_ok (X X' : matrix) : check_array X = Ok X' -> X' = X.
Proof.
  unfold check_array. destruct X as [|r X0]; [discriminate|].
  destruct (_ && _); [|discriminate]. now intros [= <-].
Qed.

(** Arithmetic and library functions stay folded while methods are run. *)
#[local] Arguments Qmult : simpl never.
#[local] Arguments Qplus : simpl never.
#[local] Arguments Qminus : simpl never.
#[local] Arguments Qdiv : simpl never.
#[local] Arguments Qopp : simpl never.
#[local] Arguments Qle_bool : simpl never.
#[local] Arguments Qeq_bool : simpl never.
#[local] Arguments Qltb : simpl never.
#[local] Arguments check_array : simpl never.
#[local] Arguments np_percentile : simpl never.
#[local] Arguments np_percentile_axis0 : simpl never.
#[local] Arguments parallel_abof : simpl never.
#[local] Arguments Neighbors.kneighbors : simpl never.
#[local] Arguments Neighbors.fit : simpl never.
#[local] Arguments np_mean_axis0 : simpl never.
#[local] Arguments except_FloatingPointError : simpl never.
#[local] Arguments flag : simpl never.
#[local] Arguments str_in : simpl never.
#[local] Arguments In : simpl never.

(** Run a method up to the next library call whose result is not known. *)
Ltac msimpl :=
  unfold bind, call, ret, get, modify, raise, getattr, check_is_fitted, lift
    in *;
  cbn in *.

(** Replace calls whose result is already known. *)
Ltac mrewrite :=
  repeat match goal with
    | E : ?r = Ok _ |- context [?r] => rewrite E
    | E : ?r = Raise _ |- context [?r] => rewrite E
    | E : ?r = Some _ |- context [?r] => rewrite E
    | E : ?r = None |- context [?r] => rewrite E
    | E : ?r = true |- context [?r] => rewrite E
    | E : ?r = false |- context [?r] => rewrite E
    | E : ?r = Ok _, H : context [?r] |- _ =>
        tryif constr_eq H E then fail else rewrite E in H
    | E : ?r = Raise _, H : context [?r] |- _ =>
        tryif constr_eq H E then fail else rewrite E in H
    | E : ?r = Some _, H : context [?r] |- _ =>
        tryif constr_eq H E then fail else rewrite E in H
    | E : ?r = None, H : context [?r] |- _ =>
        tryif constr_eq H E then fail else rewrite E in H
    | E : ?r = true, H : context [?r] |- _ =>
        tryif constr_eq H E then fail else rewrite E in H
    | E : ?r = false, H : context [?r] |- _ =>
        tryif constr_eq H E then fail else rewrite E in H
    end.

Ltac mleaf r :=
  lazymatch r with
  | context [match _ with _ => _ end] => fail
  | _ => idtac
  end.

(** Case analysis on the next call, attribute or flag whose value is not
    known. *)
Ltac mcase1 :=
  match goal with
  | H : context [negb ?b] |- _ => mleaf b; destruct b eqn:?
  | |- context [negb ?b] => mleaf b; destruct b eqn:?
  | H : context [match ?r with Ok _ => _ | Raise _ => _ end] |- _ =>
      mleaf r; destruct r eqn:?
  | H : context [match ?r with Some _ => _ | None => _ end] |- _ =>
      mleaf r; destruct r eqn:?
  | H : context [if ?r then _ else _] |- _ => mleaf r; destruct r eqn:?
  | |- context [match ?r with Ok _ => _ | Raise _ => _ end] =>
      mleaf r; destruct r eqn:?
  | |- context [match ?r with Some _ => _ | None => _ end] =>
      mleaf r; destruct r eqn:?
  | |- context [if ?r then _ else _] => mleaf r; destruct r eqn:?
  end.

Ltac mcase := first [progress mrewrite | mcase1]; cbn in *; try discriminate.

(** Case analysis on [check_array X], which returns [X] itself. *)
Ltac mcheck X :=
  let HX := fresh "HX" in
  let X' := fresh "X'" in
  let E := fresh "E" in
  destruct (check_array X) as [X'|?] eqn:HX; cbn in *; try discriminate;
  [ pose proof (check_array_ok _ _ HX) as E; subst X' | .. ].

(** ** Comparisons *)

Lemma Qltb_lt (x y : Q) : Qltb x y = true <-> x < y.
Proof.
  unfold Qltb. rewrite negb_true_iff.
  split; intro H.
  - apply Qnot_le_lt. intro Hle. apply Qle_bool_iff in Hle. congruence.
  - destruct (Qle_bool y x) eqn:E; [|reflexivity].
    apply Qle_bool_iff in E. exfalso. exact (Qlt_not_le _ _ H E).
Qed.

Lemma Qltb_ge (x y : Q) : Qltb x y = false <-> y <= x.
Proof.
  unfold Qltb. rewrite negb_false_iff. apply Qle_bool_iff.
Qed.

Lemma fpr_out_of_range (f : Q) :
  Qltb f 0 || Qltb 1 f = true <-> f < 0 \/ 1 < f.
Proof.
  rewrite orb_true_iff, !Qltb_lt. tauto.
Qed.

Lemma str_in_In (x : string) (l : list string) : str_in x l = true <-> In x l.
Proof.
  unfold str_in. rewrite existsb_exists. split.
  - intros [y [Hy Heq]]. apply String.eqb_eq in Heq. now subst.
  - intro H. exists x. split; [assumption | apply String.eqb_refl].
Qed.

(** ** Construction-time validation *)

(** A failing check: the constructor raises and the parameters are indeed
    out of their domain. *)
Ltac rejected :=
  cbn; split; [intros _; eexists; reflexivity | tauto].

Lemma FastABOD_init_spec fpr metric mp n_jobs n_neighbors p :
  (fpr < 0 \/ 1 < fpr \/ (n_neighbors <= 1)%Z \/ (p < 1)%Z ->
   raises_ValueError (FastABOD.init fpr metric mp n_jobs n_neighbors p)) /\
  (~ (fpr < 0 \/ 1 < fpr \/ (n_neighbors <= 1)%Z \/ (p < 1)%Z) ->
   FastABOD.init fpr metric mp n_jobs n_neighbors p =
   Ok (FastABOD.mk fpr metric mp n_jobs n_neighbors p None None None)).
Proof.
  unfold FastABOD.init, FastABOD.check_params, raises_ValueError. cbn.
  destruct (Qltb fpr 0 || Qltb 1 fpr) eqn:Ef.
  { apply fpr_out_of_range in Ef. rejected. }
  assert (Hf : ~ (fpr < 0 \/ 1 < fpr))
    by (rewrite <- fpr_out_of_range; congruence).
  destruct (n_neighbors <=? 1)%Z eqn:En.
  { apply Z.leb_le in En. rejected. }
  apply Z.leb_gt in En.
  destruct (p <? 1)%Z eqn:Ep.
  { apply Z.ltb_lt in Ep. rejected. }
  apply Z.ltb_ge in Ep. cbn. split; [|reflexivity].
  intros [H|[H|[H|H]]]; [tauto | tauto | lia | lia].
Qed.

Lemma KDE_init_spec bandwidth fpr kernel metric mp :
  (bandwidth <= 0 \/ fpr < 0 \/ 1 < fpr \/ ~ In kernel VALID_KERNELS ->
   raises_ValueError
     (KernelDensityOutlierDetector.init bandwidth fpr kernel metric mp)) /\
  (~ (bandwidth <= 0 \/ fpr < 0 \/ 1 < fpr \/ ~ In kernel VALID_KERNELS) ->
   KernelDensityOutlierDetector.init bandwidth fpr kernel metric mp =
   Ok (KernelDensityOutlierDetector.mk bandwidth fpr kernel metric mp
         None None None)).
Proof.
  unfold KernelDensityOutlierDetector.init,
    KernelDensityOutlierDetector.check_params, raises_ValueError. cbn.
  destruct (Qle_bool bandwidth 0) eqn:Eb.
  { apply Qle_bool_iff in Eb. rejected. }
  assert (Hb : ~ bandwidth <= 0) by (rewrite <- Qle_bool_iff; congruence).
  destruct (Qltb fpr 0 || Qltb 1 fpr) eqn:Ef.
  { apply fpr_out_of_range in Ef. rejected. }
  assert (Hf : ~ (fpr < 0 \/ 1 < fpr))
    by (rewrite <- fpr_out_of_range; congruence).
  destruct (str_in kernel VALID_KERNELS) eqn:Ek; cbn.
  - apply str_in_In in Ek. split; [|reflexivity].
    intros [H|[H|[H|H]]]; tauto.
  - assert (Hk : ~ In kernel VALID_KERNELS)
      by (rewrite <- str_in_In; congruence).
    rejected.
Qed.

Lemma Gaussian_init_spec alpha centered fpr max_iter tol :
  (alpha < 0 \/ 1 < alpha \/ fpr < 0 \/ 1 < fpr \/ (max_iter <= 0)%Z \/
   tol < 0 ->
   raises_ValueError
     (GaussianOutlierDetector.init alpha centered fpr max_iter tol)) /\
  (~ (alpha < 0 \/ 1 < alpha \/ fpr < 0 \/ 1 < fpr \/ (max_iter <= 0)%Z \/
      tol < 0) ->
   GaussianOutlierDetector.init alpha centered fpr max_iter tol =
   Ok (GaussianOutlierDetector.mk alpha centered fpr max_iter tol
         None None None None None)).
Proof.
  unfold GaussianOutlierDetector.init, GaussianOutlierDetector.check_params,
    raises_ValueError. cbn.
  destruct (Qltb alpha 0 || Qltb 1 alpha) eqn:Ea.
  { apply fpr_out_of_range in Ea. rejected. }
  assert (Ha : ~ (alpha < 0 \/ 1 < alpha))
    by (rewrite <- fpr_out_of_range; congruence).
  destruct (Qltb fpr 0 || Qltb 1 fpr) eqn:Ef.
  { apply fpr_out_of_range in Ef. rejected. }
  assert (Hf : ~ (fpr < 0 \/ 1 < fpr))
    by (rewrite <- fpr_out_of_range; congruence).
  destruct (max_iter <=? 0)%Z eqn:Em.
  { apply Z.leb_le in Em. rejected. }
  apply Z.leb_gt in Em.
  destruct (Qltb tol 0) eqn:Et.
  { apply Qltb_lt in Et. rejected. }
  assert (Ht : ~ tol < 0) by (rewrite <- Qltb_lt; congruence).
  cbn. split; [|reflexivity].
  intros [H|[H|[H|[H|[H|H]]]]]; try tauto. lia.
Qed.

Lemma GMM_init_spec cov fpr max_iter means n_components precs seed tol warm ws :
  (~ In cov VALID_COVARIANCE_TYPES \/ fpr < 0 \/ 1 < fpr \/
   (max_iter <= 0)%Z \/ (n_components <= 0)%Z \/ tol < 0 ->
   raises_ValueError
     (GaussianMixtureOutlierDetector.init cov fpr max_iter means n_components
        precs seed tol warm ws)) /\
  (~ (~ In cov VALID_COVARIANCE_TYPES \/ fpr < 0 \/ 1 < fpr \/
      (max_iter <= 0)%Z \/ (n_components <= 0)%Z \/ tol < 0) ->
   GaussianMixtureOutlierDetector.init cov fpr max_iter means n_components
     precs seed tol warm ws =
   Ok (GaussianMixtureOutlierDetector.mk cov fpr max_iter means n_components
         precs seed tol warm ws None None None)).
Proof.
  unfold GaussianMixtureOutlierDetector.init,
    GaussianMixtureOutlierDetector.check_params, raises_ValueError. cbn.
  destruct (str_in cov VALID_COVARIANCE_TYPES) eqn:Ec; cbn.
  2:{ assert (Hc : ~ In cov VALID_COVARIANCE_TYPES)
        by (rewrite <- str_in_In; congruence).
      rejected. }
  apply str_in_In in Ec.
  destruct (Qltb fpr 0 || Qltb 1 fpr) eqn:Ef.
  { apply fpr_out_of_range in Ef. rejected. }
  assert (Hf : ~ (fpr < 0 \/ 1 < fpr))
    by (rewrite <- fpr_out_of_range; congruence).
  destruct (max_iter <=? 0)%Z eqn:Em.
  { apply Z.leb_le in Em. rejected. }
  apply Z.leb_gt in Em.
  destruct (n_components <=? 0)%Z eqn:En.
  { apply Z.leb_le in En. rejected. }
  apply Z.leb_gt in En.
  destruct (Qltb tol 0) eqn:Et.
  { apply Qltb_lt in Et. rejected. }
  assert (Ht : ~ tol < 0) by (rewrite <- Qltb_lt; congruence).
  cbn. split; [|reflexivity].
  intros [H|[H|[H|[H|[H|H]]]]]; try tauto; lia.
Qed.

Lemma VMF_init_spec normalized fpr :
  (fpr < 0 \/ 1 < fpr ->
   raises_ValueError (VMFOutlierDetector.init normalized fpr)) /\
  (~ (fpr < 0 \/ 1 < fpr) ->
   VMFOutlierDetector.init normalized fpr =
   Ok (VMFOutlierDetector.mk normalized fpr None None None None)).
Proof.
  unfold VMFOutlierDetector.init, VMFOutlierDetector.check_params,
    raises_ValueError. cbn.
  destruct (Qltb fpr 0 || Qltb 1 fpr) eqn:Ef.
  { apply fpr_out_of_range in Ef. rejected. }
  assert (Hf : ~ (fpr < 0 \/ 1 < fpr))
    by (rewrite <- fpr_out_of_range; congruence).
  cbn. split; [tauto | reflexivity].
Qed.

(** C10. Every constructor validates its hyperparameters: a value outside
    the stated domain (fpr outside [0,1] for every family; n_neighbors <= 1
    or p < 1 for FastABOD; bandwidth <= 0 or an unknown kernel for kernel
    density; alpha outside [0,1], max_iter <= 0 or tol < 0 for the Gaussian
    family; an unknown covariance_type, max_iter <= 0, n_components <= 0 or
    tol < 0 for the mixture family) makes the constructor raise ValueError,
    so no object exists on which fit could be called; any other value
    yields the unfitted object. *)
Theorem C10_construction_validates_hyperparameters :
  (forall fpr metric mp n_jobs n_neighbors p,
      (fpr < 0 \/ 1 < fpr \/ (n_neighbors <= 1)%Z \/ (p < 1)%Z ->
       raises_ValueError (FastABOD.init fpr metric mp n_jobs n_neighbors p)) /\
      (~ (fpr < 0 \/ 1 < fpr \/ (n_neighbors <= 1)%Z \/ (p < 1)%Z) ->
       FastABOD.init fpr metric mp n_jobs n_neighbors p =
       Ok (FastABOD.mk fpr metric mp n_jobs n_neighbors p None None None))) /\
  (forall bandwidth fpr kernel metric mp,
      (bandwidth <= 0 \/ fpr < 0 \/ 1 < fpr \/ ~ In kernel VALID_KERNELS ->
       raises_ValueError
         (KernelDensityOutlierDetector.init bandwidth fpr kernel metric mp)) /\
      (~ (bandwidth <= 0 \/ fpr < 0 \/ 1 < fpr \/ ~ In kernel VALID_KERNELS) ->
       KernelDensityOutlierDetector.init bandwidth fpr kernel metric mp =
       Ok (KernelDensityOutlierDetector.mk bandwidth fpr kernel metric mp
             None None None))) /\
  (forall alpha centered fpr max_iter tol,
      (alpha < 0 \/ 1 < alpha \/ fpr < 0 \/ 1 < fpr \/ (max_iter <= 0)%Z \/
       tol < 0 ->
       raises_ValueError
         (GaussianOutlierDetector.init alpha centered fpr max_iter tol)) /\
      (~ (alpha < 0 \/ 1 < alpha \/ fpr < 0 \/ 1 < fpr \/ (max_iter <= 0)%Z \/
          tol < 0) ->
       GaussianOutlierDetector.init alpha centered fpr max_iter tol =
       Ok (GaussianOutlierDetector.mk alpha centered fpr max_iter tol
             None None None None None))) /\
  (forall cov fpr max_iter means n_components precs seed tol warm ws,
      (~ In cov VALID_COVARIANCE_TYPES \/ fpr < 0 \/ 1 < fpr \/
       (max_iter <= 0)%Z \/ (n_components <= 0)%Z \/ tol < 0 ->
       raises_ValueError
         (GaussianMixtureOutlierDetector.init cov fpr max_iter means
            n_components precs seed tol warm ws)) /\
      (~ (~ In cov VALID_COVARIANCE_TYPES \/ fpr < 0 \/ 1 < fpr \/
          (max_iter <= 0)%Z \/ (n_components <= 0)%Z \/ tol < 0) ->
       GaussianMixtureOutlierDetector.init cov fpr max_iter means n_components
         precs seed tol warm ws =
       Ok (GaussianMixtureOutlierDetector.mk cov fpr max_iter means
             n_components precs seed tol warm ws None None None))) /\
  (forall normalized fpr,
      (fpr < 0 \/ 1 < fpr ->
       raises_ValueError (VMFOutlierDetector.init normalized fpr)) /\
      (~ (fpr < 0 \/ 1 < fpr) ->
       VMFOutlierDetector.init normalized fpr =
       Ok (VMFOutlierDetector.mk normalized fpr None None None None))).
Proof.
  repeat split;
    first [ apply FastABOD_init_spec | apply KDE_init_spec
          | apply Gaussian_init_spec | apply GMM_init_spec
          | apply VMF_init_spec ].
Qed.

(** The constructors at the values of the construction-time tests:
    fpr = -0.1 and fpr = 1.1, n_neighbors = 1, an unknown kernel, an
    unknown covariance type. *)
Lemma C10_witness :
  raises_ValueError (FastABOD.init (-1 # 10) "minkowski" None 1 5 2) /\
  raises_ValueError (FastABOD.init (1 # 100) "minkowski" None 1 1 2) /\
  raises_ValueError
    (KernelDensityOutlierDetector.init 1 (11 # 10) "gaussian" "euclidean" None) /\
  raises_ValueError
    (KernelDensityOutlierDetector.init 1 (1 # 100) "triangle" "euclidean" None) /\
  raises_ValueError
    (GaussianOutlierDetector.init (1 # 100) false (-1 # 10) 100 (1 # 10000)) /\
  raises_ValueError
    (GaussianMixtureOutlierDetector.init "banded" (1 # 100) 100 None 1 None
       None (1 # 1000) false None) /\
  raises_ValueError (VMFOutlierDetector.init false (11 # 10)).
Proof.
  pose proof C10_construction_validates_hyperparameters
    as (Habod & Hkde & Hgauss & Hgmm & Hvmf).
  repeat split.
  - apply Habod. left. reflexivity.
  - apply Habod. right. right. left. lia.
  - apply Hkde. right. right. left. reflexivity.
  - apply Hkde. right. right. right. unfold VALID_KERNELS.
    intros H. repeat (destruct H as [H|H]; [discriminate|]). exact H.
  - apply Hgauss. right. right. left. reflexivity.
  - apply Hgmm. left. unfold VALID_COVARIANCE_TYPES.
    intros H. repeat (destruct H as [H|H]; [discriminate|]). exact H.
  - apply Hvmf. right. reflexivity.
Defined.

(** ** The directional detector with [assume_normalized=True] *)

Section Properties.
Context {B : Backend}.

(** C1. When [assume_normalized] is set, [fit] never assigns [_normalizer];
    the in-sample scoring that [fit] itself performs checks that attribute
    and raises NotFittedError.  So on a detector that has no normalizer
    yet (every new one), [fit] of a valid matrix fails, and it has already
    stored the mean direction. *)
Theorem C1_vmf_assume_normalized_fit_raises :
  forall (s : VMFOutlierDetector.t) (X : matrix),
    VMFOutlierDetector.assume_normalized s = true ->
    VMFOutlierDetector._normalizer s = None ->
    check_array X = Ok X ->
    value (fit X (VMF s)) = Raise NotFittedError /\
    value (anomaly_score (Some X) (final (fit X (VMF s)))) =
      Raise NotFittedError /\
    final (fit X (VMF s)) =
      VMF (VMFOutlierDetector.set_mean_direction_
             (map (fun m => m / np_linalg_norm (np_mean_axis0 X))
                (np_mean_axis0 X)) s).
Proof.
  intros s X Hn Hnz HX.
  unfold fit, anomaly_score, VMFOutlierDetector.fit,
    VMFOutlierDetector.anomaly_score.
  msimpl.
  repeat (first [rewrite HX | rewrite Hn | rewrite Hnz]; cbn).
  repeat split.
Qed.

End Properties.

Lemma C1_witness :
  value (fit (B := Reference.backend) Reference.X_plane
           (Reference.new_vmf true (1 # 100))) =
  Raise NotFittedError.
Proof.
  apply (proj1 (C1_vmf_assume_normalized_fit_raises
                  (B := Reference.backend)
                  (VMFOutlierDetector.mk true (1 # 100) None None None None)
                  Reference.X_plane eq_refl eq_refl eq_refl)).
Defined.

(** ** Lists of fallible computations and row slices *)

Lemma mapR_map {A B C} (f : B -> result C) (g : A -> B) (l : list A) :
  mapR f (map g l) = mapR (fun x => f (g x)) l.
Proof.
  induction l as [|x l IH]; cbn [map mapR]; [reflexivity|].
  destruct (f (g x)); cbn [rbind]; [now rewrite IH | reflexivity].
Qed.

Lemma mapR_ext {A B} (f g : A -> result B) (l : list A) :
  (forall x, In x l -> f x = g x) -> mapR f l = mapR g l.
Proof.
  induction l as [|x l IH]; intros H; cbn [mapR]; [reflexivity|].
  rewrite (H x (or_introl eq_refl)).
  destruct (g x); cbn [rbind]; [|reflexivity].
  rewrite IH; [reflexivity|].
  intros y Hy. apply H. now right.
Qed.

Lemma mapR_length {A B} (f : A -> result B) (l : list A) (ys : list B) :
  mapR f l = Ok ys -> length ys = length l.
Proof.
  revert ys. induction l as [|x l IH]; intros ys; cbn [mapR].
  - now intros [= <-].
  - destruct (f x) as [y|e]; cbn [rbind]; [|discriminate].
    destruct (mapR f l) as [ys'|e]; cbn [rbind]; [|discriminate].
    intros [= <-]. cbn [length]. now rewrite (IH ys' eq_refl).
Qed.

Lemma mapR_app {A B} (f : A -> result B) (l1 l2 : list A) :
  mapR f (l1 ++ l2) =
  rbind (mapR f l1) (fun y1 => rbind (mapR f l2) (fun y2 => Ok (y1 ++ y2))).
Proof.
  induction l1 as [|x l1 IH]; cbn [app mapR rbind].
  - destruct (mapR f l2); reflexivity.
  - destruct (f x) as [y|e]; cbn [rbind]; [|reflexivity].
    rewrite IH. destruct (mapR f l1) as [y1|e]; cbn [rbind]; [|reflexivity].
    destruct (mapR f l2); reflexivity.
Qed.

(** Running the jobs chunk by chunk and concatenating is running them on
    the concatenation: same results, same first exception. *)
Lemma mapR_concat {A B} (f : A -> result B) (chunks : list (list A)) :
  rbind (mapR (mapR f) chunks) (fun r => Ok (concat r)) =
  mapR f (concat chunks).
Proof.
  induction chunks as [|c chunks IH]; cbn [mapR concat rbind];
    [reflexivity|].
  rewrite mapR_app, <- IH.
  destruct (mapR f c) as [y|e]; cbn [rbind]; [|reflexivity].
  destruct (mapR (mapR f) chunks) as [r|e]; reflexivity.
Qed.

(** An element that raises makes the whole list raise. *)
Lemma mapR_raises {A B} (f : A -> result B) (l : list A) (x : A) (e : exn) :
  In x l -> f x = Raise e -> exists e', mapR f l = Raise e'.
Proof.
  induction l as [|y l IH]; intros Hin Hx; [destruct Hin|].
  cbn [mapR]. destruct Hin as [->|Hin].
  - rewrite Hx. cbn. eauto.
  - destruct (f y) as [b|e0]; cbn [rbind]; [|eauto].
    destruct (IH Hin Hx) as [e' ->]. cbn. eauto.
Qed.

(** The exceptions of a list are exceptions of its elements. *)
Lemma mapR_raise_inv {A B} (f : A -> result B) (l : list A) (e : exn) :
  mapR f l = Raise e -> exists x, In x l /\ f x = Raise e.
Proof.
  induction l as [|y l IH]; cbn [mapR]; [discriminate|].
  destruct (f y) as [b|e0] eqn:Ey; cbn [rbind].
  - destruct (mapR f l) as [bs|e1]; cbn [rbind]; [discriminate|].
    intros [= ->]. destruct (IH eq_refl) as [x [Hx Hfx]].
    exists x. split; [now right | assumption].
  - intros [= ->]. exists y. split; [now left | assumption].
Qed.

Lemma firstn_plus {A} (a b : nat) (l : list A) :
  firstn (a + b) l = firstn a l ++ firstn b (skipn a l).
Proof.
  revert l. induction a as [|a IH]; intros l; [reflexivity|].
  destruct l as [|x l]; cbn [Nat.add firstn skipn app].
  - now rewrite firstn_nil.
  - now rewrite IH.
Qed.

Lemma skipn_plus {A} (a b : nat) (l : list A) :
  skipn (a + b) l = skipn b (skipn a l).
Proof.
  revert l. induction a as [|a IH]; intros l; [reflexivity|].
  destruct l as [|x l]; cbn [Nat.add skipn].
  - now rewrite skipn_nil.
  - apply IH.
Qed.

Lemma concat_slices_from {A} (n n_packs : nat) (l : list A)
    (packs : list nat) (start : nat) :
  concat (map (fun s => slice s l) (slices_from n n_packs packs start)) =
  firstn (packs_total n n_packs packs) (skipn start l).
Proof.
  revert start. induction packs as [|j packs IH]; intros start;
    cbn [slices_from packs_total]; [reflexivity|].
  fold (pack_size n n_packs j).
  destruct (0 <? pack_size n n_packs j)%nat eqn:E.
  - cbn [map concat]. rewrite IH. unfold slice. cbn [fst snd].
    replace (start + pack_size n n_packs j - start)%nat
      with (pack_size n n_packs j) by lia.
    now rewrite firstn_plus, skipn_plus.
  - apply Nat.ltb_ge in E.
    replace (pack_size n n_packs j) with 0%nat by lia.
    apply IH.
Qed.

Lemma packs_total_seq (n n_packs a len : nat) :
  packs_total n n_packs (seq a len) =
  (len * (n / n_packs)
   + (Nat.min (a + len) (n mod n_packs) - Nat.min a (n mod n_packs)))%nat.
Proof.
  revert a. induction len as [|len IH]; intros a; cbn [seq packs_total].
  - replace (a + 0)%nat with a by lia. lia.
  - rewrite IH. unfold pack_size.
    destruct (a <? n mod n_packs)%nat eqn:E.
    + apply Nat.ltb_lt in E. lia.
    + apply Nat.ltb_ge in E. lia.
Qed.

Lemma packs_total_all (n n_packs : nat) :
  (0 < n_packs)%nat -> packs_total n n_packs (seq 0 n_packs) = n.
Proof.
  intros Hk. rewrite packs_total_seq.
  pose proof (Nat.mod_upper_bound n n_packs ltac:(lia)) as Hm.
  pose proof (Nat.div_mod_eq n n_packs) as Hd.
  cbn [Nat.add]. rewrite Nat.min_r by lia. cbn [Nat.min]. lia.
Qed.

(** The slices of [gen_even_slices] partition the rows, in order. *)
Lemma gen_even_slices_partition {A} (l : list A) (n_packs : Z)
    (slices : list (nat * nat)) :
  gen_even_slices (length l) n_packs = Ok slices ->
  concat (map (fun s => slice s l) slices) = l.
Proof.
  unfold gen_even_slices. destruct (n_packs <? 1)%Z eqn:E; [discriminate|].
  apply Z.ltb_ge in E. intros [= <-].
  rewrite concat_slices_from, packs_total_all by lia.
  cbn [skipn]. apply firstn_all.
Qed.

Lemma skipn_combine {A B} (n : nat) (l1 : list A) (l2 : list B) :
  skipn n (combine l1 l2) = combine (skipn n l1) (skipn n l2).
Proof.
  revert l1 l2. induction n as [|n IH]; intros l1 l2; [reflexivity|].
  destruct l1 as [|x l1]; [reflexivity|].
  destruct l2 as [|y l2]; cbn [combine skipn].
  - now rewrite combine_nil.
  - apply IH.
Qed.

Lemma slice_combine {A B} (s : nat * nat) (l1 : list A) (l2 : list B) :
  slice s (combine l1 l2) = combine (slice s l1) (slice s l2).
Proof.
  unfold slice. now rewrite skipn_combine, combine_firstn.
Qed.

Lemma parallel_abof_spec (n_jobs : Z) (X : matrix) (ind : list (list nat))
    (fit_X : matrix) :
  (1 <= n_jobs)%Z ->
  length ind = length X ->
  rbind (parallel_abof n_jobs X ind fit_X) (fun r => Ok (concat r)) =
  _abof X ind fit_X.
Proof.
  intros Hj Hlen. unfold parallel_abof, _abof.
  destruct (gen_even_slices (length X) n_jobs) as [slices|e] eqn:Es.
  2:{ unfold gen_even_slices in Es.
      destruct (n_jobs <? 1)%Z eqn:E; [|discriminate].
      apply Z.ltb_lt in E. lia. }
  cbn [rbind].
  rewrite (mapR_ext _
             (fun s => mapR (fun pi => abof_row fit_X (fst pi) (snd pi))
                         (slice s (combine X ind)))).
  2:{ intros s _. unfold _abof. now rewrite slice_combine. }
  rewrite <- (mapR_map
                (mapR (fun pi => abof_row fit_X (fst pi) (snd pi)))
                (fun s => slice s (combine X ind))).
  rewrite mapR_concat.
  rewrite (gen_even_slices_partition (combine X ind) n_jobs); [reflexivity|].
  rewrite length_combine, Hlen, Nat.min_id. exact Es.
Qed.

Lemma parallel_abof_length (n_jobs : Z) (X : matrix) (ind : list (list nat))
    (fit_X : matrix) (res : list (list Q)) :
  length ind = length X ->
  parallel_abof n_jobs X ind fit_X = Ok res ->
  length (concat res) = length X.
Proof.
  intros Hlen Hres.
  assert (Hj : (1 <= n_jobs)%Z).
  { unfold parallel_abof, gen_even_slices in Hres.
    destruct (n_jobs <? 1)%Z eqn:E; [discriminate|].
    now apply Z.ltb_ge in E. }
  pose proof (parallel_abof_spec n_jobs X ind fit_X Hj Hlen) as Hspec.
  rewrite Hres in Hspec. cbn [rbind] in Hspec. symmetry in Hspec.
  apply mapR_length in Hspec.
  now rewrite Hspec, length_combine, Hlen, Nat.min_id.
Qed.

Lemma except_FloatingPointError_ok {A} (msg : string) (r : result A) (a : A) :
  except_FloatingPointError msg r = Ok a -> r = Ok a.
Proof.
  unfold except_FloatingPointError. destruct r as [a'|[]]; congruence.
Qed.

Lemma kneighbors_length {B : Backend} (nn : Neighbors.t) (X : matrix)
    (ind : list (list nat)) :
  Neighbors.kneighbors nn (Some X) = Ok ind -> length ind = length X.
Proof.
  unfold Neighbors.kneighbors.
  destruct (_ <=? _)%Z; [discriminate|].
  destruct (_ <? _)%nat; [discriminate|].
  destruct (negb _); [discriminate|].
  intros [= <-]. apply length_map.
Qed.

(** ** Prediction *)

Lemma gt_fval_fgt (s : Q) (t : fval) : gt_fval s t = true <-> fgt s t.
Proof.
  destruct t; cbn; [apply Qltb_lt | | | ]; intuition discriminate.
Qed.

Section Prediction.
Context {B : Backend}.

Lemma flag_length (t : fval) (ys : list Q) : length (flag t ys) = length ys.
Proof. apply length_map. Qed.

Lemma flag_nth (t : fval) (ys : list Q) (i : nat) :
  (i < length ys)%nat ->
  (nth i (flag t ys) 0%Z = 1%Z /\ fgt (nth i ys 0) t) \/
  (nth i (flag t ys) 0%Z = 0%Z /\ ~ fgt (nth i ys 0) t).
Proof.
  unfold flag. revert i.
  induction ys as [|y ys IH]; intros i Hi; cbn [length] in Hi; [lia|].
  destruct i as [|i]; cbn [map nth].
  - destruct (gt_fval y t) eqn:E.
    + left. split; [reflexivity | now apply gt_fval_fgt].
    + right. split; [reflexivity|]. rewrite <- gt_fval_fgt. congruence.
  - apply IH. lia.
Qed.

Lemma anomaly_score_length (d : detector) (X : matrix) (ys : list Q) :
  one_score_per_row ->
  value (anomaly_score (Some X) d) = Ok ys ->
  length ys = length X.
Proof.
  intros (Hkde & Hmah & Hgmm & Hnz) H.
  destruct d as [s|s|s|s|s];
    unfold anomaly_score, FastABOD.anomaly_score,
      KernelDensityOutlierDetector.anomaly_score,
      GaussianOutlierDetector.anomaly_score,
      GaussianMixtureOutlierDetector.anomaly_score,
      VMFOutlierDetector.anomaly_score in H;
    msimpl.
  - mcheck X; repeat mcase.
    match goal with
    | H : except_FloatingPointError _ _ = Ok _ |- _ =>
        apply except_FloatingPointError_ok in H
    end.
    match goal with
    | H : Neighbors.kneighbors _ _ = Ok _ |- _ =>
        apply kneighbors_length in H
    end.
    injection H as <-. rewrite length_map.
    eapply parallel_abof_length; eauto.
  - mcheck X; repeat mcase.
    injection H as <-. rewrite length_map. eauto.
  - mcheck X; repeat mcase. eauto.
  - mcheck X; repeat mcase.
    injection H as <-. rewrite length_map. eauto.
  - mcheck X; repeat mcase.
    all: unfold VMFOutlierDetector.cosine_scores in *.
    all: match goal with
         | H : (if ?c then _ else _) = Ok _ |- _ =>
             destruct c; [injection H as <- | discriminate]
         end.
    all: rewrite length_map; eauto.
Qed.

(** Scoring reads the detector and leaves it as it is. *)
Lemma anomaly_score_final (X : option matrix) (d : detector) :
  final (anomaly_score X d) = d.
Proof.
  destruct d as [s|s|s|s|s];
    unfold anomaly_score, FastABOD.anomaly_score,
      KernelDensityOutlierDetector.anomaly_score,
      GaussianOutlierDetector.anomaly_score,
      GaussianMixtureOutlierDetector.anomaly_score,
      VMFOutlierDetector.anomaly_score;
    msimpl; destruct X as [X|]; repeat mcase; reflexivity.
Qed.

Lemma predict_value (X : option matrix) (d : detector) (t : fval)
    (ys : list Q) :
  threshold_ d = Some t ->
  value (anomaly_score X d) = Ok ys ->
  value (predict X d) = Ok (flag t ys) /\ final (predict X d) = d.
Proof.
  intros Ht Hys. pose proof (anomaly_score_final X d) as Hfin.
  unfold predict. msimpl. rewrite Ht. cbn.
  destruct (anomaly_score X d) as [r s1 t1]. cbn in Hys, Hfin. subst r s1.
  cbn. rewrite Ht. cbn. split; reflexivity.
Qed.

(** C6, amended. On a detector with a stored threshold, [predict(X)]
    returns exactly when [anomaly_score(X)] returns.  When the scores are
    [ys], the result is the vector [flag t ys]: it has one entry per row
    of [X], each entry is 0 or 1, and it is 1 exactly at the rows whose
    score is strictly greater than the threshold.  When [anomaly_score(X)]
    raises, as FastABOD does on a matrix with a training row, [predict(X)]
    raises the same exception.  The detector is left unchanged. *)
Theorem C6_predict_thresholds_scores :
  forall (d : detector) (X : matrix) (t : fval),
    one_score_per_row ->
    threshold_ d = Some t ->
    (forall ys,
        value (anomaly_score (Some X) d) = Ok ys ->
        value (predict (Some X) d) = Ok (flag t ys) /\
        length (flag t ys) = length X /\
        (forall i, (i < length X)%nat ->
           (nth i (flag t ys) 0%Z = 1%Z /\ fgt (nth i ys 0) t) \/
           (nth i (flag t ys) 0%Z = 0%Z /\ ~ fgt (nth i ys 0) t))) /\
    (forall e,
        value (anomaly_score (Some X) d) = Raise e ->
        value (predict (Some X) d) = Raise e) /\
    final (predict (Some X) d) = d.
Proof.
  intros d X t Hrows Ht. split; [|split].
  - intros ys Hys.
    pose proof (anomaly_score_length d X ys Hrows Hys) as Hlen.
    destruct (predict_value (Some X) d t ys Ht Hys) as [Hv _].
    split; [exact Hv|]. split.
    + now rewrite flag_length.
    + intros i Hi. apply flag_nth. now rewrite Hlen.
  - intros e He. unfold predict. msimpl. rewrite Ht. cbn.
    destruct (anomaly_score (Some X) d) as [[ys|e'] d' tr]; cbn in *;
      [discriminate | congruence].
  - pose proof (anomaly_score_final (Some X) d) as Hfin.
    unfold predict. msimpl. rewrite Ht. cbn.
    destruct (anomaly_score (Some X) d) as [[ys|e'] d' tr]; cbn in *;
      subst d'; [rewrite Ht|]; reflexivity.
Qed.

End Prediction.

(** ** Threshold calibration and cached scores *)

Ltac unfold_methods :=
  unfold fit_predict, predict, fit, anomaly_score,
    FastABOD.fit, FastABOD.anomaly_score,
    KernelDensityOutlierDetector.fit,
    KernelDensityOutlierDetector.anomaly_score,
    GaussianOutlierDetector.fit, GaussianOutlierDetector.anomaly_score,
    GaussianOutlierDetector.feature_wise_anomaly_score,
    GaussianMixtureOutlierDetector.fit,
    GaussianMixtureOutlierDetector.anomaly_score,
    VMFOutlierDetector.fit, VMFOutlierDetector.anomaly_score in *.

Section Calibration.
Context {B : Backend}.


End Calibration.

Section CachedScores.
Context {B : Backend}.

(** C2, amended. After a successful [fit(X)], [anomaly_score(None)]
    returns a vector equal to the cached [y_score_] and leaves the detector
    unchanged.  The kernel-density, Gaussian, mixture and von Mises-Fisher
    detectors return the cached field itself, without any call; FastABOD
    queries the neighbour index and recomputes the factors, which
    reproduces the cached values. *)
Theorem C2_anomaly_score_none_returns_cached :
  forall (d : detector) (X : matrix),
    value (fit X d) = Ok tt ->
    exists ys,
      y_score_ (final (fit X d)) = Some ys /\
      value (anomaly_score None (final (fit X d))) = Ok ys /\
      final (anomaly_score None (final (fit X d))) = final (fit X d) /\
      trace (anomaly_score None (final (fit X d))) =
        match d with
        | ABOD _ => [E_kneighbors; E_abof]
        | _ => []
        end.
Proof.
  intros d X H.
  destruct d as [s|s|s|s|s]; unfold_methods; msimpl;
    mcheck X; repeat mcase;
    eexists; repeat split; reflexivity.
Qed.

End CachedScores.

(** FastABOD on four points of the plane: [fit] succeeds, and
    [anomaly_score(None)] then calls [kneighbors] and [_abof] again. *)
Lemma C2_counterexample :
  ~ returns_cached_without_recomputation (B := Reference.backend)
      (Reference.new_abod (1 # 100)) Reference.X_plane.
Proof.
  intros H. destruct (H eq_refl) as (ys & _ & _ & Htrace).
  vm_compute in Htrace. discriminate Htrace.
Qed.

Lemma C2_witness :
  exists ys,
    y_score_ (final (fit (B := Reference.backend) Reference.X_plane
                       (Reference.new_abod (1 # 100)))) = Some ys /\
    value (anomaly_score (B := Reference.backend) None
             (final (fit (B := Reference.backend) Reference.X_plane
                       (Reference.new_abod (1 # 100))))) = Ok ys.
Proof.
  destruct (C2_anomaly_score_none_returns_cached (B := Reference.backend)
              (Reference.new_abod (1 # 100)) Reference.X_plane eq_refl)
    as (ys & Hc & Hv & _).
  exists ys. split; assumption.
Defined.

(** ** Failing fits *)

Section FailingFit.
Context {B : Backend}.

Lemma fit_fails_in_validation (d : detector) (X : matrix) (e : exn) :
  check_array X = Raise e ->
  value (fit X d) = Raise e /\ final (fit X d) = d.
Proof.
  intros HX.
  destruct d as [s|s|s|s|s]; unfold_methods; msimpl; rewrite HX; cbn;
    split; reflexivity.
Qed.

Lemma fit_fails_in_estimator (d : detector) (X : matrix) (e : exn) :
  check_array X = Ok X ->
  estimator_fit d X = Raise e ->
  value (fit X d) = Raise e /\ final (fit X d) = d.
Proof.
  intros HX He.
  destruct d as [s|s|s|s|s]; unfold estimator_fit in He; unfold_methods;
    msimpl; rewrite HX; cbn.
  5:{ destruct (VMFOutlierDetector.assume_normalized s); [discriminate|].
      cbn. rewrite He. cbn. split; reflexivity. }
  all: match type of He with
       | rbind ?r _ = _ => destruct r; [discriminate|]
       end.
  all: cbn in He; injection He as ->; cbn; split; reflexivity.
Qed.

Lemma fit_fails_keeps_last_assigned (d : detector) (X : matrix) (e : exn) :
  value (fit X d) = Raise e ->
  last_assigned (final (fit X d)) = last_assigned d.
Proof.
  intros H.
  destruct d as [s|s|s|s|s]; unfold_methods; msimpl;
    mcheck X; repeat mcase; reflexivity.
Qed.

(** C4, amended. [fit] is all-or-nothing for the failures that occur
    before it assigns the model object: when input validation
    ([check_array]) raises, or when the backend estimator's own fit raises,
    [fit] raises that exception and the detector is exactly as before.  A
    failure in a later step (in-sample scoring, threshold calibration)
    keeps the attributes assigned so far; only the attribute assigned last
    (the threshold; the feature-wise threshold for the Gaussian detector)
    is then still the previous one. *)
Theorem C4_fit_failure_before_model_assignment :
  forall (d : detector) (X : matrix),
    (forall e, check_array X = Raise e ->
               value (fit X d) = Raise e /\ final (fit X d) = d) /\
    (forall e, check_array X = Ok X -> estimator_fit d X = Raise e ->
               value (fit X d) = Raise e /\ final (fit X d) = d) /\
    (forall e, value (fit X d) = Raise e ->
               last_assigned (final (fit X d)) = last_assigned d).
Proof.
  intros d X. split; [|split]; intros e.
  - apply fit_fails_in_validation.
  - apply fit_fails_in_estimator.
  - apply fit_fails_keeps_last_assigned.
Qed.

End FailingFit.

(** A fitted FastABOD detector is fitted again on data with a duplicated
    row: the second [fit] raises, after it has replaced the neighbour
    index. *)
Lemma C4_counterexample :
  ~ failed_fit_leaves_state_untouched (B := Reference.backend)
      (final (fit (B := Reference.backend) Reference.X_plane
                (Reference.new_abod (1 # 100))))
      Reference.X_dup.
Proof.
  intros H.
  specialize (H (ValueError "X must not contain training samples") eq_refl).
  vm_compute in H. discriminate H.
Qed.

Lemma C4_witness :
  (value (fit (B := Reference.backend) [] (Reference.new_kde (1 # 100))) =
     Raise (ValueError "Found array with 0 sample(s)") /\
   final (fit (B := Reference.backend) [] (Reference.new_kde (1 # 100))) =
     Reference.new_kde (1 # 100)) /\
  last_assigned
    (final (fit (B := Reference.backend) Reference.X_dup
              (final (fit (B := Reference.backend) Reference.X_plane
                        (Reference.new_abod (1 # 100)))))) =
  last_assigned
    (final (fit (B := Reference.backend) Reference.X_plane
              (Reference.new_abod (1 # 100)))).
Proof.
  split.
  - apply (proj1 (C4_fit_failure_before_model_assignment
                    (B := Reference.backend) (Reference.new_kde (1 # 100)) [])).
    reflexivity.
  - apply (proj2 (proj2 (C4_fit_failure_before_model_assignment
                           (B := Reference.backend)
                           (final (fit (B := Reference.backend)
                                     Reference.X_plane
                                     (Reference.new_abod (1 # 100))))
                           Reference.X_dup))
             (ValueError "X must not contain training samples")).
    reflexivity.
Defined.

(** ** Detectors that have not been fitted *)

Section Unfitted.
Context {B : Backend}.

Lemma constructed_unassigned (d : detector) :
  constructed d ->
  threshold_ d = None /\ 0 <= fpr d <= 1 /\
  forall X, value (anomaly_score X d) = Raise NotFittedError.
Proof.
  intros Hc. destruct Hc as [? ? ? ? ? ? s H|? ? ? ? ? s H|? ? ? ? ? s H
                            |? ? ? ? ? ? ? ? ? ? s H|? ? s H].
  - unfold FastABOD.init, FastABOD.check_params in H. cbn in H.
    destruct (Qltb fpr0 0 || Qltb 1 fpr0) eqn:Ef; [discriminate|].
    apply orb_false_iff in Ef. destruct Ef as [E0 E1].
    apply Qltb_ge in E0, E1.
    destruct (_ <=? _)%Z; [discriminate|]. destruct (_ <? _)%Z; [discriminate|].
    cbn in H. injection H as <-. cbn. repeat split; assumption.
  - unfold KernelDensityOutlierDetector.init,
      KernelDensityOutlierDetector.check_params in H. cbn in H.
    destruct (Qle_bool _ _); [discriminate|].
    destruct (Qltb fpr0 0 || Qltb 1 fpr0) eqn:Ef; [discriminate|].
    apply orb_false_iff in Ef. destruct Ef as [E0 E1].
    apply Qltb_ge in E0, E1.
    destruct (negb _); [discriminate|].
    cbn in H. injection H as <-. cbn. repeat split; assumption.
  - unfold GaussianOutlierDetector.init,
      GaussianOutlierDetector.check_params in H. cbn in H.
    destruct (Qltb alpha 0 || Qltb 1 alpha); [discriminate|].
    destruct (Qltb fpr0 0 || Qltb 1 fpr0) eqn:Ef; [discriminate|].
    apply orb_false_iff in Ef. destruct Ef as [E0 E1].
    apply Qltb_ge in E0, E1.
    destruct (_ <=? _)%Z; [discriminate|].
    destruct (Qltb tol 0); [discriminate|].
    cbn in H. injection H as <-. cbn. repeat split; assumption.
  - unfold GaussianMixtureOutlierDetector.init,
      GaussianMixtureOutlierDetector.check_params in H. cbn in H.
    destruct (negb _); [discriminate|].
    destruct (Qltb fpr0 0 || Qltb 1 fpr0) eqn:Ef; [discriminate|].
    apply orb_false_iff in Ef. destruct Ef as [E0 E1].
    apply Qltb_ge in E0, E1.
    destruct (_ <=? _)%Z; [discriminate|].
    destruct (_ <=? _)%Z; [discriminate|].
    destruct (Qltb tol 0); [discriminate|].
    cbn in H. injection H as <-. cbn. repeat split; assumption.
  - unfold VMFOutlierDetector.init, VMFOutlierDetector.check_params in H.
    cbn in H.
    destruct (Qltb fpr0 0 || Qltb 1 fpr0) eqn:Ef; [discriminate|].
    apply orb_false_iff in Ef. destruct Ef as [E0 E1].
    apply Qltb_ge in E0, E1.
    cbn in H. injection H as <-. cbn. repeat split; assumption.
Qed.

Lemma fit_keeps_fpr (d : detector) (X : matrix) :
  fpr (final (fit X d)) = fpr d.
Proof.
  destruct d as [s|s|s|s|s]; unfold_methods; msimpl;
    mcheck X; repeat mcase; reflexivity.
Qed.

Lemma check_array_widths (X : matrix) :
  check_array X = Ok X -> forall r, In r X -> length r = n_features X.
Proof.
  unfold check_array. destruct X as [|r0 X0]; [discriminate|].
  destruct (0 <? length r0)%nat; cbn [andb]; [|discriminate].
  destruct (forallb _ _) eqn:E; [|discriminate].
  intros _ r Hr. rewrite forallb_forall in E.
  apply Nat.eqb_eq. exact (E r Hr).
Qed.

Lemma mapR_all_ok {A C} (f : A -> result C) (l : list A) :
  (forall x, In x l -> exists y, f x = Ok y) -> exists ys, mapR f l = Ok ys.
Proof.
  induction l as [|x l IH]; intros H; cbn [mapR]; [eauto|].
  destruct (H x (or_introl eq_refl)) as [y ->].
  destruct IH as [ys ->]; [intros z Hz; apply H; now right|].
  cbn. eauto.
Qed.

Lemma percentile_in_range (f : Q) :
  0 <= f <= 1 -> Qltb (100 * (1 - f)) 0 || Qltb 100 (100 * (1 - f)) = false.
Proof.
  intros [H0 H1]. apply orb_false_iff. rewrite !Qltb_ge. split; lra.
Qed.

Lemma np_percentile_axis0_ok (Y : matrix) (f : Q) :
  0 <= f <= 1 -> exists t, np_percentile_axis0 Y (100 * (1 - f)) = Ok t.
Proof.
  intros Hf. unfold np_percentile_axis0. apply mapR_all_ok.
  intros c _. unfold np_percentile. rewrite (percentile_in_range f Hf).
  destruct c; eauto.
Qed.

Lemma feature_wise_rows_ok (g : GraphLasso) (X : matrix) :
  check_array X = Ok X ->
  length (location_ g) = n_features X ->
  exists Y, mapR (GaussianOutlierDetector.feature_wise_row g) X = Ok Y.
Proof.
  intros HX Hg. apply mapR_all_ok. intros x Hx.
  unfold GaussianOutlierDetector.feature_wise_row,
    GaussianOutlierDetector.broadcast_sub.
  rewrite Hg, (check_array_widths X HX x Hx), Nat.eqb_refl. cbn. eauto.
Qed.

(** A failing [fit] of a detector with a valid [fpr] does not touch the
    stored threshold. *)
Lemma fit_fails_keeps_threshold (d : detector) (X : matrix) (e : exn) :
  glasso_location_shape ->
  0 <= fpr d <= 1 ->
  value (fit X d) = Raise e ->
  threshold_ (final (fit X d)) = threshold_ d.
Proof.
  intros Hshape Hf H.
  destruct d as [s|s|s|s|s].
  3:{ unfold_methods; msimpl; mcheck X; repeat mcase; try reflexivity.
      - exfalso.
        match goal with
        | Hp : np_percentile_axis0 ?Y _ = Raise _ |- _ =>
            destruct (np_percentile_axis0_ok Y _ Hf) as [t Ht]; congruence
        end.
      - exfalso.
        match goal with
        | Hg : GraphLasso_fit _ _ _ _ _ = Ok ?g,
          Hm : mapR _ X = Raise _ |- _ =>
            destruct (feature_wise_rows_ok g X HX (Hshape _ _ _ _ _ _ Hg))
              as [Y HY]; congruence
        end. }
  all: pose proof (fit_fails_keeps_last_assigned _ X e H) as Hl.
  all: unfold last_assigned in Hl; now injection Hl.
Qed.

Lemma unfitted_no_threshold (d : detector) :
  glasso_location_shape ->
  unfitted d -> threshold_ d = None /\ 0 <= fpr d <= 1.
Proof.
  intros Hshape Hu. induction Hu as [d Hc|d X e Hu [IHt IHf] Hfail].
  - destruct (constructed_unassigned d Hc) as (Ht & Hf & _). now split.
  - split.
    + rewrite (fit_fails_keeps_threshold d X e Hshape IHf Hfail). exact IHt.
    + rewrite fit_keeps_fpr. exact IHf.
Qed.

(** C5, amended. On a detector on which [fit] has never been called, every
    call of [anomaly_score] and of [predict] raises NotFittedError; and on
    every detector on which no [fit] has succeeded yet, also after failing
    calls of [fit], every call of [predict] raises NotFittedError. *)
Theorem C5_not_fitted_errors :
  forall (d : detector),
    glasso_location_shape ->
    (constructed d -> raises_not_fitted d) /\
    (unfitted d -> forall X, value (predict X d) = Raise NotFittedError).
Proof.
  intros d Hshape.
  assert (Hp : forall d', threshold_ d' = None ->
                 forall X, value (predict X d') = Raise NotFittedError).
  { intros d' Ht X. unfold predict. msimpl. rewrite Ht. reflexivity. }
  split.
  - intros Hc X. destruct (constructed_unassigned d Hc) as (Ht & _ & Ha).
    split; [apply Ha | now apply Hp].
  - intros Hu. apply Hp. now apply unfitted_no_threshold.
Qed.

End Unfitted.

(** A fresh FastABOD detector is fitted on data with a duplicated row:
    [fit] raises, yet it has assigned the neighbour index, so
    [anomaly_score] on other data returns scores. *)
Lemma C5_counterexample :
  unfitted (B := Reference.backend)
    (final (fit (B := Reference.backend) Reference.X_dup
              (Reference.new_abod (1 # 100)))) /\
  ~ raises_not_fitted (B := Reference.backend)
      (final (fit (B := Reference.backend) Reference.X_dup
                (Reference.new_abod (1 # 100)))).
Proof.
  split.
  - apply (unfitted_fit_failed (B := Reference.backend)
             (Reference.new_abod (1 # 100)) Reference.X_dup
             (ValueError "X must not contain training samples")).
    + apply unfitted_new.
      exact (constructed_ABOD (1 # 100) "minkowski" None 1 2 2 _ eq_refl).
    + reflexivity.
  - intros H. destruct (H (Some [[5; 5]])) as [Hs _].
    vm_compute in Hs. discriminate Hs.
Qed.

Lemma reference_glasso_location_shape :
  glasso_location_shape (B := Reference.backend).
Proof.
  intros alpha centered max_iter tol X g H. cbn in H.
  unfold Reference.ref_GraphLasso_fit in H.
  destruct (n_features X <? 2)%nat; [discriminate|]. injection H as <-.
  cbn [location_]. destruct centered.
  - now rewrite length_map, length_seq.
  - unfold np_mean_axis0, columns. now rewrite !length_map, length_seq.
Qed.

Lemma C5_witness :
  raises_not_fitted (B := Reference.backend) (Reference.new_gauss (1 # 100)) /\
  forall X,
    value (predict (B := Reference.backend) X
             (final (fit (B := Reference.backend) Reference.X_dup
                       (Reference.new_abod (1 # 100))))) =
    Raise NotFittedError.
Proof.
  split.
  - apply (proj1 (C5_not_fitted_errors (B := Reference.backend)
                    (Reference.new_gauss (1 # 100))
                    reference_glasso_location_shape)).
    exact (constructed_GAUSS (1 # 100) false (1 # 100) 100 (1 # 10000) _
             eq_refl).
  - apply (proj2 (C5_not_fitted_errors (B := Reference.backend)
                    (final (fit (B := Reference.backend) Reference.X_dup
                              (Reference.new_abod (1 # 100))))
                    reference_glasso_location_shape)).
    apply (unfitted_fit_failed (B := Reference.backend)
             (Reference.new_abod (1 # 100)) Reference.X_dup
             (ValueError "X must not contain training samples")).
    + apply unfitted_new.
      exact (constructed_ABOD (1 # 100) "minkowski" None 1 2 2 _ eq_refl).
    + reflexivity.
Defined.

(** ** Sorting and percentiles *)

Lemma insert_key_In {A} (x y : Q * A) (l : list (Q * A)) :
  In y (insert_key x l) -> y = x \/ In y l.
Proof.
  induction l as [|z l IH]; cbn [insert_key].
  - intros [<-|[]]. now left.
  - destruct (Qle_bool (fst x) (fst z)).
    + intros [<-|H]; [now left | now right].
    + intros [<-|H]; [right; now left|].
      destruct (IH H) as [->|H']; [now left | right; now right].
Qed.

Lemma insert_key_sorted {A} (x : Q * A) (l : list (Q * A)) :
  StronglySorted key_le l -> StronglySorted key_le (insert_key x l).
Proof.
  induction l as [|z l IH]; intros Hs; cbn [insert_key].
  - constructor; constructor.
  - apply StronglySorted_inv in Hs. destruct Hs as [Hs Hz].
    destruct (Qle_bool (fst x) (fst z)) eqn:E.
    + apply Qle_bool_iff in E. constructor.
      * constructor; assumption.
      * constructor; [exact E|].
        rewrite Forall_forall in Hz |- *. intros y Hy.
        unfold key_le in *. apply Qle_trans with (fst z); auto.
    + assert (Hzx : fst z <= fst x).
      { apply Qlt_le_weak, Qnot_le_lt. intro Hle.
        apply Qle_bool_iff in Hle. congruence. }
      constructor; [now apply IH|].
      rewrite Forall_forall in Hz |- *. intros y Hy.
      destruct (insert_key_In _ _ _ Hy) as [->|Hy']; [exact Hzx | auto].
Qed.

Lemma sort_key_sorted {A} (l : list (Q * A)) :
  StronglySorted key_le (sort_key l).
Proof.
  induction l as [|x l IH]; cbn [sort_key]; [constructor|].
  now apply insert_key_sorted.
Qed.

Lemma insert_key_length {A} (x : Q * A) (l : list (Q * A)) :
  length (insert_key x l) = S (length l).
Proof.
  induction l as [|z l IH]; cbn [insert_key]; [reflexivity|].
  destruct (Qle_bool _ _); cbn [length]; [reflexivity | now rewrite IH].
Qed.

Lemma sort_key_length {A} (l : list (Q * A)) :
  length (sort_key l) = length l.
Proof.
  induction l as [|x l IH]; cbn [sort_key length]; [reflexivity|].
  now rewrite insert_key_length, IH.
Qed.

Lemma sort_key_In {A} (y : Q * A) (l : list (Q * A)) :
  In y (sort_key l) -> In y l.
Proof.
  induction l as [|x l IH]; cbn [sort_key]; [tauto|].
  intros H. destruct (insert_key_In _ _ _ H) as [->|H'];
    [now left | right; auto].
Qed.

Lemma insert_key_In_l {A} (x y : Q * A) (l : list (Q * A)) :
  y = x \/ In y l -> In y (insert_key x l).
Proof.
  induction l as [|z l IH]; cbn [insert_key].
  - intros [->|[]]. now left.
  - destruct (Qle_bool (fst x) (fst z)).
    + intros [->|H]; [now left | now right].
    + intros [->|[->|H]]; [right; apply IH; now left | now left
                          | right; apply IH; now right].
Qed.

Lemma sort_key_In_l {A} (y : Q * A) (l : list (Q * A)) :
  In y l -> In y (sort_key l).
Proof.
  induction l as [|x l IH]; cbn [sort_key]; [tauto|].
  intros [->|H]; apply insert_key_In_l; [now left | right; auto].
Qed.











(** ** The false-positive rate and the number of flagged samples *)

Section FalsePositiveRate.
Context {B : Backend}.





Lemma predict_inv (Xq : option matrix) (d : detector) (y : list Z) :
  value (predict Xq d) = Ok y ->
  exists t ys,
    threshold_ d = Some t /\
    value (anomaly_score Xq d) = Ok ys /\
    y = flag t ys.
Proof.
  intros H. pose proof (anomaly_score_final Xq d) as Hfin.
  unfold predict in H. msimpl.
  destruct (threshold_ d) as [t|] eqn:Ht; cbn in H; [|discriminate].
  destruct (anomaly_score Xq d) as [[ys|e] s1 t1]; cbn in H, Hfin;
    [|discriminate].
  subst s1. rewrite Ht in H. cbn in H. injection H as <-.
  exists t, ys. repeat split.
Qed.




End FalsePositiveRate.





(** ** Vectors of rationals *)

Lemma dot_cons (x y : Q) (xs ys : vec) :
  dot (x :: xs) (y :: ys) = x * y + dot xs ys.
Proof. reflexivity. Qed.

Lemma dot_nil_r (v : vec) : dot v [] = 0.
Proof. destruct v; reflexivity. Qed.

Lemma vsub_cons (x y : Q) (xs ys : vec) :
  vsub (x :: xs) (y :: ys) = (x - y) :: vsub xs ys.
Proof. reflexivity. Qed.



Lemma dot_self_nonneg (v : vec) : 0 <= dot v v.
Proof.
  induction v as [|x v IH]; [apply Qle_refl|].
  rewrite dot_cons. nra.
Qed.

Lemma dot_self_zero (v : vec) :
  dot v v == 0 -> Forall (fun x => x == 0) v.
Proof.
  induction v as [|x v IH]; intros H; [constructor|].
  rewrite dot_cons in H. pose proof (dot_self_nonneg v) as Hv.
  assert (Hx : x * x == 0) by nra.
  constructor.
  - destruct (Qmult_integral _ _ Hx); assumption.
  - apply IH. nra.
Qed.

Lemma dot_zero_l (u v : vec) : Forall (fun x => x == 0) u -> dot u v == 0.
Proof.
  intros H. revert v. induction H as [|x u Hx Hu IH]; intros v.
  - reflexivity.
  - destruct v as [|y v]; [reflexivity|].
    rewrite dot_cons, IH, Hx. ring.
Qed.

Lemma vsub_coincide (a p : vec) :
  Forall2 Qeq a p -> Forall (fun x => x == 0) (vsub a p).
Proof.
  induction 1 as [|x y a p Hxy Hap IH]; [constructor|].
  rewrite vsub_cons. constructor; [|exact IH]. rewrite Hxy. ring.
Qed.

Lemma vsub_zero_coincide (a p : vec) :
  length a = length p ->
  Forall (fun x => x == 0) (vsub a p) -> Forall2 Qeq a p.
Proof.
  revert p. induction a as [|x a IH]; intros [|y p] Hlen H;
    try discriminate; [constructor|].
  rewrite vsub_cons in H. inversion H as [|? ? Hx Hrest]; subst.
  constructor; [lra | apply IH; [now injection Hlen | assumption]].
Qed.





(** ** The angle-based outlier factor *)











Lemma filter_neq_seq_length (i a n : nat) :
  (a <= i)%nat -> (i < a + n)%nat ->
  length (filter (fun j => negb (j =? i)%nat) (seq a n)) = (n - 1)%nat.
Proof.
  revert a. induction n as [|n IH]; intros a Ha Hi; [lia|].
  cbn [seq filter]. destruct (a =? i)%nat eqn:E; cbn [negb].
  - apply Nat.eqb_eq in E. subst a.
    rewrite (proj2 (filter_ext_in_iff _ (fun _ => true) (seq (S i) n))).
    + rewrite filter_true. rewrite length_seq. lia.
    + intros j Hj. apply in_seq in Hj.
      apply negb_true_iff, Nat.eqb_neq. lia.
  - apply Nat.eqb_neq in E. cbn [length].
    rewrite (IH (S a)) by lia. lia.
Qed.


Section AngleBased.
Context {B : Backend}.

Lemma argsort_dist_length (nn : Neighbors.t) (q : vec) (cands : list nat) :
  length (Neighbors.argsort_dist nn q cands) = length cands.
Proof.
  unfold Neighbors.argsort_dist.
  now rewrite length_map, sort_key_length, length_map.
Qed.

(** [kneighbors] returns one index list per query row, each of
    [n_neighbors] indices. *)
Lemma kneighbors_shape (nn : Neighbors.t) (X : option matrix)
    (ind : list (list nat)) :
  Neighbors.kneighbors nn X = Ok ind ->
  length ind = length (queries nn X) /\
  forall I, In I ind -> length I = Z.to_nat (Neighbors.n_neighbors nn).
Proof.
  unfold Neighbors.kneighbors.
  destruct (_ <=? _)%Z; [discriminate|].
  destruct X as [Xq|]; cbn [queries].
  - destruct (_ <? _)%nat eqn:Ek; [discriminate|].
    destruct (negb _); [discriminate|].
    apply Nat.ltb_ge in Ek. intros [= <-]. split; [apply length_map|].
    intros I HI. apply in_map_iff in HI. destruct HI as [q [<- _]].
    rewrite length_firstn, argsort_dist_length, length_seq. lia.
  - destruct (_ <? _)%nat eqn:Ek; [discriminate|].
    apply Nat.ltb_ge in Ek. intros [= <-].
    split; [now rewrite length_map, length_seq|].
    intros I HI. apply in_map_iff in HI. destruct HI as [i [<- Hi]].
    apply in_seq in Hi.
    rewrite length_firstn, argsort_dist_length,
      (filter_neq_seq_length i 0) by lia.
    lia.
Qed.

Lemma mapR_Forall2 {A C} (f : A -> result C) (P : A -> C -> Prop)
    (l : list A) (ys : list C) :
  (forall x y, In x l -> f x = Ok y -> P x y) ->
  mapR f l = Ok ys -> Forall2 P l ys.
Proof.
  revert ys. induction l as [|x l IH]; intros ys HP; cbn [mapR].
  - intros [= <-]. constructor.
  - destruct (f x) as [y|e] eqn:Ex; cbn [rbind]; [|discriminate].
    destruct (mapR f l) as [ys'|e]; cbn [rbind]; [|discriminate].
    intros [= <-]. constructor.
    + apply HP; [now left | exact Ex].
    + apply IH; [|reflexivity]. intros z w Hz. apply HP. now right.
Qed.



End AngleBased.

(** ** Query points that coincide with training points *)

Lemma np_true_divide_raise (x : fval) (y : Q) (e : exn) :
  np_true_divide x y = Raise e -> e = FloatingPointError.
Proof.
  unfold np_true_divide. destruct x as [a| | |].
  - destruct (Qeq_bool y 0); [|discriminate].
    destruct (Qeq_bool a 0); [congruence|].
    destruct (Qltb 0 a); discriminate.
  - destruct (Qltb y 0); discriminate.
  - destruct (Qltb y 0); discriminate.
  - discriminate.
Qed.

Lemma abof_term_raise (pa pb : vec) (e : exn) :
  abof_term pa pb = Raise e -> e = FloatingPointError.
Proof.
  unfold abof_term.
  destruct (np_true_divide (Finite (dot pa pb)) (dot pa pa)) as [q|e0] eqn:E;
    cbn [rbind].
  - apply np_true_divide_raise.
  - intros [= <-]. eapply np_true_divide_raise. exact E.
Qed.

Lemma abof_row_raise (fit_X : matrix) (p : vec) (I : list nat) (e : exn) :
  abof_row fit_X p I = Raise e -> e = FloatingPointError.
Proof.
  unfold abof_row.
  destruct (mapR _ _) as [qs|e0] eqn:E; cbn [rbind].
  - unfold np_var_checked. destruct (all_finite qs) as [[|q l]|];
      congruence.
  - intros [= <-]. apply mapR_raise_inv in E. destruct E as [ab [_ Hab]].
    eapply abof_term_raise. exact Hab.
Qed.

Lemma _abof_raise (X : matrix) (ind : list (list nat)) (fit_X : matrix)
    (e : exn) :
  _abof X ind fit_X = Raise e -> e = FloatingPointError.
Proof.
  unfold _abof. intros H. apply mapR_raise_inv in H.
  destruct H as [pI [_ H]]. eapply abof_row_raise. exact H.
Qed.

(** A zero difference vector makes the first quotient 0/0. *)
Lemma abof_term_degenerate (pa pb : vec) :
  Forall (fun x => x == 0) pa -> abof_term pa pb = Raise FloatingPointError.
Proof.
  intros H. unfold abof_term, np_true_divide.
  rewrite (Qeq_eq_bool _ _ (dot_zero_l pa pa H)).
  rewrite (Qeq_eq_bool _ _ (dot_zero_l pa pb H)). reflexivity.
Qed.

Lemma dot_zero_r (u v : vec) : Forall (fun x => x == 0) v -> dot u v == 0.
Proof.
  intros H. revert u. induction H as [|y v Hy Hv IH]; intros u.
  - rewrite dot_nil_r. reflexivity.
  - destruct u as [|x u]; [reflexivity|].
    rewrite dot_cons, IH, Hy. ring.
Qed.

(** A zero second vector makes the second quotient 0/0, when the first
    one has not raised already. *)
Lemma abof_term_degenerate_r (pa pb : vec) :
  Forall (fun x => x == 0) pb -> abof_term pa pb = Raise FloatingPointError.
Proof.
  intros H. unfold abof_term, np_true_divide.
  pose proof (dot_zero_r pa pb H) as Hab.
  pose proof (dot_zero_l pb pb H) as Hbb.
  rewrite (Qeq_eq_bool _ _ Hab).
  destruct (Qeq_bool (dot pa pa) 0); cbn [rbind]; [reflexivity|].
  rewrite (Qeq_eq_bool _ _ Hbb).
  assert (Hq : dot pa pb / dot pa pa == 0).
  { rewrite Hab. unfold Qdiv. ring. }
  now rewrite (Qeq_eq_bool _ _ Hq).
Qed.

(** Among two or more elements, each one occurs in a pair. *)
Lemma combinations2_covers {A} (z : A) (l : list A) :
  In z l -> (2 <= length l)%nat ->
  exists r, In (z, r) (combinations2 l) \/ In (r, z) (combinations2 l).
Proof.
  induction l as [|x l IH]; [intros []|].
  intros Hin Hlen. cbn [combinations2].
  destruct Hin as [->|Hin].
  - destruct l as [|y l]; [cbn in Hlen; lia|].
    exists y. left. apply in_or_app. left. apply in_map. now left.
  - exists x. right. apply in_or_app. left. apply in_map. exact Hin.
Qed.

Lemma abof_row_degenerate (fit_X : matrix) (p : vec) (I : list nat) (j : nat) :
  (2 <= length I)%nat ->
  In j I ->
  Forall2 Qeq (nth j fit_X []) p ->
  abof_row fit_X p I = Raise FloatingPointError.
Proof.
  intros Hlen Hj Hco.
  set (rows := map (fun j => vsub (nth j fit_X []) p) I).
  assert (Hz : In (vsub (nth j fit_X []) p) rows).
  { unfold rows. apply in_map_iff. exists j. now split. }
  pose proof (vsub_coincide _ _ Hco) as Hzero.
  destruct (combinations2_covers _ rows Hz) as [r Hr].
  { unfold rows. now rewrite length_map. }
  assert (Hraise : exists e,
            mapR (fun ab => abof_term (fst ab) (snd ab)) (combinations2 rows)
            = Raise e).
  { destruct Hr as [Hr|Hr].
    - eapply mapR_raises; [exact Hr|]. cbn [fst snd].
      now apply abof_term_degenerate.
    - eapply mapR_raises; [exact Hr|]. cbn [fst snd].
      now apply abof_term_degenerate_r. }
  destruct Hraise as [e He].
  destruct (abof_row fit_X p I) as [z|e'] eqn:E.
  - unfold abof_row in E. fold rows in E. rewrite He in E. discriminate E.
  - f_equal. eapply abof_row_raise. exact E.
Qed.

Lemma _abof_degenerate (X : matrix) (ind : list (list nat)) (fit_X : matrix)
    (p : vec) (I : list nat) (j : nat) :
  In (p, I) (combine X ind) ->
  (2 <= length I)%nat ->
  In j I ->
  Forall2 Qeq (nth j fit_X []) p ->
  _abof X ind fit_X = Raise FloatingPointError.
Proof.
  intros HpI Hlen Hj Hco.
  destruct (mapR_raises
              (fun pi => abof_row fit_X (fst pi) (snd pi))
              _ _ FloatingPointError HpI) as [e He].
  { cbn [fst snd]. now apply (abof_row_degenerate fit_X p I j). }
  unfold _abof. rewrite He. f_equal.
  eapply _abof_raise. unfold _abof. exact He.
Qed.

Lemma sorted_head_min {A} (x : Q * A) (l : list (Q * A)) (y : Q * A) :
  StronglySorted key_le (x :: l) -> In y (x :: l) -> fst x <= fst y.
Proof.
  intros Hs [<-|Hy]; [apply Qle_refl|].
  apply StronglySorted_inv in Hs. destruct Hs as [_ Hx].
  rewrite Forall_forall in Hx. exact (Hx y Hy).
Qed.

Lemma in_combine_map {A C} (g : A -> C) (x : A) (l : list A) :
  In x l -> In (x, g x) (combine l (map g l)).
Proof.
  induction l as [|y l IH]; [intros []|].
  cbn [map combine]. intros [->|H]; [now left | right; auto].
Qed.

Lemma check_array_raise (X : matrix) (e : exn) :
  check_array X = Raise e -> exists msg, e = ValueError msg.
Proof.
  unfold check_array. destruct X as [|r X0]; [intros [= <-]; eauto|].
  destruct (_ && _); [discriminate | intros [= <-]; eauto].
Qed.

Section Overlap.
Context {B : Backend}.

Lemma kneighbors_raise (nn : Neighbors.t) (X : option matrix) (e : exn) :
  Neighbors.kneighbors nn X = Raise e -> exists msg, e = ValueError msg.
Proof.
  unfold Neighbors.kneighbors.
  destruct (_ <=? _)%Z; [intros [= <-]; eauto|].
  destruct X as [Xq|].
  - destruct (_ <? _)%nat; [intros [= <-]; eauto|].
    destruct (negb _); [intros [= <-]; eauto | discriminate].
  - destruct (_ <? _)%nat; [intros [= <-]; eauto | discriminate].
Qed.

(** The nearest neighbour of a training point is a point equal to it. *)
Lemma nearest_of_training_point (nn : Neighbors.t) (p : vec) (k : nat) :
  metric_separates nn ->
  check_array (Neighbors._fit_X nn) = Ok (Neighbors._fit_X nn) ->
  In p (Neighbors._fit_X nn) ->
  (2 <= k)%nat ->
  (k <= length (Neighbors._fit_X nn))%nat ->
  exists i0 i1 I,
    firstn k (Neighbors.argsort_dist nn p
                (seq 0 (length (Neighbors._fit_X nn)))) = i0 :: i1 :: I /\
    Forall2 Qeq (nth i0 (Neighbors._fit_X nn) []) p.
Proof.
  intros Hmetric Hrect Hp Hk Hn.
  set (fit_X := Neighbors._fit_X nn) in *.
  unfold Neighbors.argsort_dist.
  set (keyed := map (fun i => (Neighbors.dist_to nn p i, i))
                  (seq 0 (length fit_X))).
  pose proof (sort_key_sorted keyed) as Hsorted.
  pose proof (sort_key_length keyed) as Hlen.
  unfold keyed in Hlen at 2. rewrite length_map, length_seq in Hlen.
  destruct (sort_key keyed) as [|[d0 i0] [|[d1 i1] S]] eqn:ES;
    cbn [length] in Hlen; try lia.
  destruct k as [|[|k]]; try lia.
  exists i0, i1, (firstn k (map snd S)). split; [reflexivity|].
  (* the head is an entry of the keyed list *)
  assert (Hhead : In (d0, i0) keyed).
  { apply sort_key_In. rewrite ES. now left. }
  apply in_map_iff in Hhead. destruct Hhead as [i [[= <- <-] Hi]].
  apply in_seq in Hi.
  (* the training point itself is a candidate, at distance zero *)
  destruct (In_nth fit_X p [] Hp) as [j [Hj Hnth]].
  assert (Hcand : In (Neighbors.dist_to nn p j, j) (sort_key keyed)).
  { apply sort_key_In_l. unfold keyed. apply in_map_iff.
    exists j. split; [reflexivity | apply in_seq; lia]. }
  rewrite ES in Hcand.
  pose proof (sorted_head_min _ _ _ Hsorted Hcand) as Hmin.
  cbn [fst] in Hmin.
  assert (Hwidth : forall r, In r fit_X -> length p = length r).
  { intros r Hr.
    rewrite (check_array_widths fit_X Hrect p Hp),
      (check_array_widths fit_X Hrect r Hr). reflexivity. }
  assert (Hzero : Neighbors.dist_to nn p j == 0).
  { unfold Neighbors.dist_to. fold fit_X. rewrite Hnth.
    apply (Hmetric p p eq_refl).
    clear. induction p; constructor; [reflexivity | assumption]. }
  assert (Hi0 : In (nth i fit_X []) fit_X) by (apply nth_In; lia).
  destruct (Hmetric p (nth i fit_X []) (Hwidth _ Hi0)) as [Hnonneg Hsep].
  unfold Neighbors.dist_to in Hmin, Hzero. fold fit_X in Hmin, Hzero.
  assert (Hd0 : distance (Neighbors.metric nn) (Neighbors.metric_params nn)
                  (Neighbors.p nn) p (nth i fit_X []) == 0) by lra.
  apply Hsep in Hd0.
  clear - Hd0. induction Hd0; constructor; [now symmetry | assumption].
Qed.

(** The index returns, for a query row that is a training row, a
    neighbour equal to it. *)
Lemma training_point_has_coinciding_neighbour (nn : Neighbors.t) (X : matrix)
    (p : vec) (ind : list (list nat)) :
  metric_separates nn ->
  check_array (Neighbors._fit_X nn) = Ok (Neighbors._fit_X nn) ->
  (1 < Neighbors.n_neighbors nn)%Z ->
  In p X ->
  In p (Neighbors._fit_X nn) ->
  Neighbors.kneighbors nn (Some X) = Ok ind ->
  exists I j,
    In (p, I) (combine X ind) /\ In j I /\
    Forall2 Qeq (nth j (Neighbors._fit_X nn) []) p.
Proof.
  intros Hmetric Hrect Hk HpX Hp Hind.
  unfold Neighbors.kneighbors in Hind.
  destruct (_ <=? _)%Z; [discriminate|].
  destruct (_ <? _)%nat eqn:En; [discriminate|].
  destruct (negb _); [discriminate|].
  apply Nat.ltb_ge in En. injection Hind as <-.
  destruct (nearest_of_training_point nn p
              (Z.to_nat (Neighbors.n_neighbors nn)) Hmetric Hrect Hp
              ltac:(lia) En) as (i0 & i1 & I & HI & Hco).
  exists (i0 :: i1 :: I), i0. split; [|split; [now left | exact Hco]].
  rewrite <- HI.
  exact (in_combine_map
           (fun q =>
              firstn (Z.to_nat (Neighbors.n_neighbors nn))
                (Neighbors.argsort_dist nn q
                   (seq 0 (length (Neighbors._fit_X nn)))))
           p X HpX).
Qed.

(** A query row with a coinciding neighbour makes [anomaly_score] raise
    the overlap error. *)
Lemma coinciding_neighbour_raises (s : FastABOD.t) (knn : Neighbors.t)
    (X : matrix) (ind : list (list nat)) (p : vec) (I : list nat) (j : nat) :
  FastABOD._knn s = Some knn ->
  (1 < Neighbors.n_neighbors knn)%Z ->
  check_array X = Ok X ->
  Neighbors.kneighbors knn (Some X) = Ok ind ->
  (1 <= FastABOD.n_jobs s)%Z ->
  In (p, I) (combine X ind) ->
  In j I ->
  Forall2 Qeq (nth j (Neighbors._fit_X knn) []) p ->
  value (anomaly_score (Some X) (ABOD s)) = Raise (ValueError overlap_message).
Proof.
  intros Hknn Hk HX Hind Hjobs HpI Hj Hco.
  destruct (kneighbors_shape knn (Some X) ind Hind) as [Hlen Hsize].
  assert (HI : (2 <= length I)%nat).
  { rewrite (Hsize I) by (eapply in_combine_r; exact HpI). lia. }
  pose proof (_abof_degenerate X ind (Neighbors._fit_X knn) p I j HpI HI Hj
                Hco) as Hraise.
  pose proof (parallel_abof_spec (FastABOD.n_jobs s) X ind
                (Neighbors._fit_X knn) Hjobs Hlen) as Hpar.
  rewrite Hraise in Hpar.
  destruct (parallel_abof (FastABOD.n_jobs s) X ind (Neighbors._fit_X knn))
    as [res|e] eqn:Eres; cbn [rbind] in Hpar; [discriminate|].
  injection Hpar as ->.
  unfold anomaly_score, FastABOD.anomaly_score. msimpl.
  repeat (first [rewrite Hknn | rewrite HX | rewrite Hind | rewrite Eres];
          cbn).
  reflexivity.
Qed.

(** C8. On a fitted FastABOD detector with at least two neighbours:
    - when a row of a valid query coincides with one of its neighbours, so
      that a pairwise denominator is zero, [anomaly_score] returns no
      score and raises the ValueError that reports the overlap with the
      training data;
    - over a metric that separates points a training point is its own
      nearest neighbour, so every query with a row that is a training
      point raises ValueError, and for a valid query (an index with enough
      training points, a positive number of jobs) it is the overlap
      error. *)
Theorem C8_overlap_with_training_data_raises :
  forall (s : FastABOD.t) (knn : Neighbors.t) (X : matrix),
    FastABOD._knn s = Some knn ->
    (1 < Neighbors.n_neighbors knn)%Z ->
    (forall ind p I j,
        check_array X = Ok X ->
        Neighbors.kneighbors knn (Some X) = Ok ind ->
        (1 <= FastABOD.n_jobs s)%Z ->
        In (p, I) (combine X ind) ->
        In j I ->
        Forall2 Qeq (nth j (Neighbors._fit_X knn) []) p ->
        value (anomaly_score (Some X) (ABOD s)) =
          Raise (ValueError overlap_message)) /\
    (forall p,
        metric_separates knn ->
        check_array (Neighbors._fit_X knn) = Ok (Neighbors._fit_X knn) ->
        In p X ->
        In p (Neighbors._fit_X knn) ->
        (exists msg,
            value (anomaly_score (Some X) (ABOD s)) =
              Raise (ValueError msg)) /\
        (forall ind,
            check_array X = Ok X ->
            Neighbors.kneighbors knn (Some X) = Ok ind ->
            (1 <= FastABOD.n_jobs s)%Z ->
            value (anomaly_score (Some X) (ABOD s)) =
              Raise (ValueError overlap_message))).
Proof.
  intros s knn X Hknn Hk. split.
  { intros ind p I j HX Hind Hjobs HpI Hj Hco.
    now apply (coinciding_neighbour_raises s knn X ind p I j). }
  intros p Hmetric Hrect HpX Hp.
  assert (Hmain : forall ind,
            check_array X = Ok X ->
            Neighbors.kneighbors knn (Some X) = Ok ind ->
            (1 <= FastABOD.n_jobs s)%Z ->
            value (anomaly_score (Some X) (ABOD s)) =
              Raise (ValueError overlap_message)).
  { intros ind HX Hind Hjobs.
    destruct (training_point_has_coinciding_neighbour knn X p ind Hmetric
                Hrect Hk HpX Hp Hind) as (I & j & HpI & Hj & Hco).
    now apply (coinciding_neighbour_raises s knn X ind p I j). }
  split; [|exact Hmain].
  destruct (check_array X) as [X'|e] eqn:HX.
  2:{ destruct (check_array_raise X e HX) as [msg ->]. exists msg.
      unfold anomaly_score, FastABOD.anomaly_score. msimpl.
      repeat (first [rewrite Hknn | rewrite HX]; cbn). reflexivity. }
  pose proof (check_array_ok X X' HX) as ->.
  destruct (Neighbors.kneighbors knn (Some X)) as [ind|e] eqn:Hind.
  2:{ destruct (kneighbors_raise knn (Some X) e Hind) as [msg ->].
      exists msg.
      unfold anomaly_score, FastABOD.anomaly_score. msimpl.
      repeat (first [rewrite Hknn | rewrite HX | rewrite Hind]; cbn).
      reflexivity. }
  destruct (Z_lt_le_dec (FastABOD.n_jobs s) 1) as [Hj|Hj].
  - eexists.
    unfold anomaly_score, FastABOD.anomaly_score. msimpl.
    repeat (first [rewrite Hknn | rewrite HX | rewrite Hind]; cbn).
    unfold parallel_abof, gen_even_slices.
    rewrite (proj2 (Z.ltb_lt _ _) Hj). cbn. reflexivity.
  - exists overlap_message. now apply (Hmain ind).
Qed.

End Overlap.

(** ** The reference backend satisfies the backend contracts *)

Lemma reference_one_score_per_row : one_score_per_row (B := Reference.backend).
Proof.
  repeat split.
  - intros kde X ld. cbn. unfold Reference.ref_kde_score_samples.
    destruct (Reference.widths_agree _ _); [|discriminate].
    intros [= <-]. apply length_map.
  - intros g X y. cbn. unfold Reference.ref_mahalanobis.
    destruct (Reference.widths_agree _ _); [|discriminate].
    intros [= <-]. apply length_map.
  - intros gmm X ll. cbn. unfold Reference.ref_gmm_score_samples.
    destruct (means_ gmm); [discriminate|].
    destruct (Reference.widths_agree _ _); [|discriminate].
    intros [= <-]. apply length_map.
  - intros X X'. cbn. unfold Reference.ref_Normalizer_transform.
    intros [= <-]. apply length_map.
Qed.

Lemma reference_metric_separates (n_jobs k : Z) (X : matrix) :
  metric_separates (B := Reference.backend)
    (Neighbors.mk "minkowski" None n_jobs k 2 X).
Proof.
  intros x y Hlen. cbn. unfold Reference.ref_distance. cbn.
  unfold Reference.sq_dist. split; [apply dot_self_nonneg|]. split.
  - intros H. apply vsub_zero_coincide; [exact Hlen|].
    now apply dot_self_zero.
  - intros H. apply dot_zero_l. now apply vsub_coincide.
Qed.

(** ** The theorems at concrete inputs *)

(** FastABOD fitted on four points of the plane, and these four points
    as the test matrix: the matrix passes the validation and [predict]
    raises, every row being its own nearest neighbour. *)
Lemma C6_counterexample :
  ~ predicts_every_valid_matrix (B := Reference.backend)
      (final (fit (B := Reference.backend) Reference.X_plane
                (Reference.new_abod3 (1 # 2))))
      Reference.X_plane.
Proof.
  intros H. destruct (H eq_refl) as (y & Hy & _).
  vm_compute in Hy. discriminate Hy.
Qed.

Lemma C6_witness :
  value (predict (B := Reference.backend) (Some Reference.X_query)
           (final (fit (B := Reference.backend) Reference.X_plane
                     (Reference.new_abod3 (1 # 2))))) =
  Ok [1; 0]%Z.
Proof.
  lazymatch eval vm_compute in
    (final (fit (B := Reference.backend) Reference.X_plane
              (Reference.new_abod3 (1 # 2))),
     value (anomaly_score (B := Reference.backend) (Some Reference.X_query)
              (final (fit (B := Reference.backend) Reference.X_plane
                        (Reference.new_abod3 (1 # 2)))))) with
  | (?d, Ok ?ys) =>
      lazymatch eval vm_compute in (threshold_ d) with
      | Some ?t =>
          exact (proj1 (proj1 (C6_predict_thresholds_scores
                                 (B := Reference.backend) d
                                 Reference.X_query t
                                 reference_one_score_per_row eq_refl)
                          ys eq_refl))
      end
  end.
Defined.

Lemma C8_witness :
  value (anomaly_score (B := Reference.backend) (Some [[5; 5]; [1; 1]])
           (final (fit (B := Reference.backend) Reference.X_plane
                     (Reference.new_abod (1 # 100))))) =
  Raise (ValueError overlap_message).
Proof.
  lazymatch eval vm_compute in
    (final (fit (B := Reference.backend) Reference.X_plane
              (Reference.new_abod (1 # 100)))) with
  | ABOD ?s =>
      lazymatch eval vm_compute in (FastABOD._knn s) with
      | Some ?knn =>
          lazymatch eval vm_compute in
            (Neighbors.kneighbors (B := Reference.backend) knn
               (Some [[5; 5]; [1; 1]])) with
          | Ok ?ind =>
              exact (proj2 (proj2 (C8_overlap_with_training_data_raises
                                     (B := Reference.backend) s knn
                                     [[5; 5]; [1; 1]] eq_refl
                                     ltac:(cbn; lia))
                              [1; 1]
                              (reference_metric_separates 1 2
                                 Reference.X_plane)
                              eq_refl
                              (or_intror (or_introl eq_refl))
                              (or_intror (or_intror (or_introl eq_refl))))
                       ind eq_refl eq_refl ltac:(cbn; lia))
          end
      end
  end.
Defined.


(* ================================================================= *)
(** * Further properties of the detectors *)

(** ** What the methods write *)

Section Writes.
Context {B : Backend}.

Lemma predict_final (X : option matrix) (d : detector) :
  final (predict X d) = d.
Proof.
  unfold predict. msimpl.
  destruct (threshold_ d) eqn:Ht; cbn; [|reflexivity].
  pose proof (anomaly_score_final X d) as Hf.
  destruct (anomaly_score X d) as [[ys|e] d' tr]; cbn in *; subst d'.
  - rewrite Ht. reflexivity.
  - reflexivity.
Qed.

Lemma feature_wise_final (X : option matrix)
    (s : GaussianOutlierDetector.t) :
  final (GaussianOutlierDetector.feature_wise_anomaly_score X s) = s.
Proof.
  unfold GaussianOutlierDetector.feature_wise_anomaly_score. msimpl.
  destruct X as [X|]; msimpl; repeat mcase; reflexivity.
Qed.

(** Scoring and prediction are read-only: [anomaly_score], [predict] and
    [feature_wise_anomaly_score] leave every attribute of the detector as
    it was, whether they return or raise. *)
Theorem scoring_and_prediction_are_read_only :
  forall (d : detector) (s : GaussianOutlierDetector.t) (X : option matrix),
    final (anomaly_score X d) = d /\
    final (predict X d) = d /\
    final (GaussianOutlierDetector.feature_wise_anomaly_score X s) = s.
Proof.
  intros d s X. split; [apply anomaly_score_final|].
  split; [apply predict_final | apply feature_wise_final].
Qed.

(** [fit] writes fitted attributes only: the arguments given to the
    constructor are the same after [fit], whether it returns or raises. *)
Theorem fit_keeps_hyperparameters :
  forall (d : detector) (X : matrix),
    hyperparameters (final (fit X d)) = hyperparameters d.
Proof.
  intros d X.
  destruct d as [s|s|s|s|s]; unfold_methods; msimpl;
    mcheck X; repeat mcase; reflexivity.
Qed.

End Writes.

(** ** Fitting again *)

(** Case analysis on the next call of the goal. *)
Ltac gcase :=
  match goal with
  | |- context [negb ?b] => mleaf b; destruct b
  | |- context [match ?r with Ok _ => _ | Raise _ => _ end] =>
      mleaf r; destruct r
  | |- context [match ?r with Some _ => _ | None => _ end] =>
      mleaf r; destruct r
  | |- context [if ?r then _ else _] => mleaf r; destruct r
  end; cbn.

Section Refit.
Context {B : Backend}.

(** [fit] reads no fitted attribute: on a detector that builds its
    estimator from the training matrix, [fit(X)] returns or raises, and
    calls the libraries, as on a new detector with the same
    hyperparameters; a successful [fit] leaves nothing of an earlier
    one. *)
Theorem fit_forgets_earlier_fits :
  forall (d : detector) (X : matrix),
    builds_estimator d = true ->
    value (fit X d) = value (fit X (hyperparameters d)) /\
    trace (fit X d) = trace (fit X (hyperparameters d)) /\
    (value (fit X d) = Ok tt ->
     final (fit X d) = final (fit X (hyperparameters d))).
Proof.
  intros d X Hb.
  destruct d as [s|s|s|s|s]; destruct s; cbn in Hb; subst;
    unfold_methods; msimpl;
    mcheck X; repeat gcase; repeat split; intros; try discriminate;
    reflexivity.
Qed.

(** After a successful [fit], every fitted attribute of the detector is
    assigned. *)
Theorem fit_assigns_every_fitted_attribute :
  forall (d : detector) (X : matrix),
    value (fit X d) = Ok tt ->
    all_assigned (final (fit X d)) = true.
Proof.
  intros d X.
  destruct d as [s|s|s|s|s]; destruct s; unfold_methods; msimpl;
    mcheck X; repeat gcase; intros; try discriminate; reflexivity.
Qed.

End Refit.

(** ** In-sample scores and predictions *)

Section InSample.
Context {B : Backend}.

Lemma fit_then_score_None (d : detector) (X : matrix) :
  value (fit X d) = Ok tt ->
  exists t ys,
    threshold_ (final (fit X d)) = Some t /\
    y_score_ (final (fit X d)) = Some ys /\
    value (anomaly_score None (final (fit X d))) = Ok ys.
Proof.
  destruct d as [s|s|s|s|s]; unfold_methods; msimpl;
    mcheck X; repeat mcase; intros _; do 2 eexists;
    repeat split; reflexivity.
Qed.

(** After a successful [fit], [predict(None)] returns, for every family,
    the cached in-sample scores compared with the stored threshold: one
    flag per cached score, 1 exactly where the score exceeds the
    threshold. *)
Theorem predict_None_flags_cached_scores :
  forall (d : detector) (X : matrix),
    value (fit X d) = Ok tt ->
    exists t ys,
      threshold_ (final (fit X d)) = Some t /\
      y_score_ (final (fit X d)) = Some ys /\
      value (predict None (final (fit X d))) = Ok (flag t ys) /\
      length (flag t ys) = length ys /\
      (forall i, (i < length ys)%nat ->
         (nth i (flag t ys) 0%Z = 1%Z /\ fgt (nth i ys 0) t) \/
         (nth i (flag t ys) 0%Z = 0%Z /\ ~ fgt (nth i ys 0) t)).
Proof.
  intros d X Hfit.
  destruct (fit_then_score_None d X Hfit) as (t & ys & Ht & Hys & Hs).
  exists t, ys. repeat split; try assumption.
  - exact (proj1 (predict_value None _ t ys Ht Hs)).
  - apply flag_length.
  - intros i Hi. apply flag_nth. exact Hi.
Qed.

Lemma fit_then_score_training (d : detector) (X : matrix) :
  scores_training_as_new d = true ->
  value (fit X d) = Ok tt ->
  exists ys,
    y_score_ (final (fit X d)) = Some ys /\
    value (anomaly_score (Some X) (final (fit X d))) = Ok ys.
Proof.
  intros Hd.
  destruct d as [s|s|s|s|s]; cbn in Hd; try discriminate;
    unfold_methods; msimpl;
    mcheck X; repeat mcase; intros _; eexists; split; reflexivity.
Qed.

(** For the kernel density, Gaussian and Gaussian mixture detectors,
    scoring the training matrix after [fit] returns the cached scores, so
    that [fit_predict(X)] is the in-sample prediction: it returns what
    [predict(None)] returns after [fit(X)], the cached scores compared
    with the stored threshold. *)
Theorem fit_predict_is_in_sample_prediction :
  forall (d : detector) (X : matrix),
    scores_training_as_new d = true ->
    value (fit X d) = Ok tt ->
    exists t ys,
      threshold_ (final (fit X d)) = Some t /\
      y_score_ (final (fit X d)) = Some ys /\
      value (anomaly_score (Some X) (final (fit X d))) = Ok ys /\
      value (fit_predict X d) = Ok (flag t ys) /\
      value (predict None (final (fit X d))) = Ok (flag t ys) /\
      final (fit_predict X d) = final (fit X d).
Proof.
  intros d X Hd Hfit.
  destruct (fit_then_score_None d X Hfit) as (t & ys & Ht & Hys & Hn).
  destruct (fit_then_score_training d X Hd Hfit) as (ys' & Hys' & Hs).
  assert (ys' = ys) by congruence. subst ys'.
  exists t, ys.
  destruct (predict_value (Some X) _ t ys Ht Hs) as [Hp Hpf].
  destruct (predict_value None _ t ys Ht Hn) as [Hpn _].
  repeat split; try assumption.
  - unfold fit_predict, bind.
    destruct (fit X d) as [[[]|e] d1 tr1]; cbn in *; [|discriminate].
    destruct (predict (Some X) d1) as [r d2 tr2]; cbn in *. exact Hp.
  - unfold fit_predict, bind.
    destruct (fit X d) as [[[]|e] d1 tr1]; cbn in *; [|discriminate].
    destruct (predict (Some X) d1) as [r d2 tr2]; cbn in *. exact Hpf.
Qed.

End InSample.

(** ** The angle-based detector: jobs, signs and exceptions *)

Section AngleBasedScores.
Context {B : Backend}.

Lemma parallel_abof_sequential (n_jobs : Z) (X : matrix)
    (ind : list (list nat)) (fit_X : matrix) :
  (1 <= n_jobs)%Z ->
  length ind = length X ->
  rbind (except_FloatingPointError overlap_message
           (parallel_abof n_jobs X ind fit_X))
        (fun r => Ok (map Qopp (concat r))) =
  rbind (except_FloatingPointError overlap_message (_abof X ind fit_X))
        (fun zs => Ok (map Qopp zs)).
Proof.
  intros Hjobs Hlen.
  pose proof (parallel_abof_spec n_jobs X ind fit_X Hjobs Hlen) as Hpar.
  destruct (parallel_abof n_jobs X ind fit_X) as [res|e] eqn:Eres;
    cbn [rbind] in Hpar; rewrite <- Hpar.
  - reflexivity.
  - unfold except_FloatingPointError. destruct e; reflexivity.
Qed.

Lemma FastABOD_anomaly_score_value (s : FastABOD.t) (X : option matrix) :
  value (anomaly_score X (ABOD s)) =
  match FastABOD._knn s with
  | None => Raise NotFittedError
  | Some knn =>
      rbind (match X with
             | Some X' => check_array X'
             | None => Ok (Neighbors._fit_X knn)
             end)
        (fun Xq =>
           rbind (Neighbors.kneighbors knn
                    (match X with Some _ => Some Xq | None => None end))
             (fun ind =>
                rbind (except_FloatingPointError overlap_message
                         (parallel_abof (FastABOD.n_jobs s) Xq ind
                            (Neighbors._fit_X knn)))
                  (fun r => Ok (map Qopp (concat r)))))
  end.
Proof.
  destruct s as [f m mp nj k p [knn|] ys0 t0];
    unfold anomaly_score, FastABOD.anomaly_score; msimpl; [|reflexivity].
  destruct X as [X|]; msimpl.
  - destruct (check_array X) as [X'|e]; cbn; [|reflexivity].
    destruct (Neighbors.kneighbors knn (Some X')) as [ind|e]; cbn;
      [|reflexivity].
    unfold overlap_message.
    destruct (except_FloatingPointError _ _); reflexivity.
  - destruct (Neighbors.kneighbors knn None) as [ind|e]; cbn; [|reflexivity].
    unfold overlap_message.
    destruct (except_FloatingPointError _ _); reflexivity.
Qed.

Lemma FastABOD_anomaly_score_sequential (s : FastABOD.t) (knn : Neighbors.t)
    (X : option matrix) :
  FastABOD._knn s = Some knn ->
  (1 <= FastABOD.n_jobs s)%Z ->
  value (anomaly_score X (ABOD s)) = sequential_scores knn X.
Proof.
  intros Hknn Hjobs.
  rewrite FastABOD_anomaly_score_value, Hknn. unfold sequential_scores.
  destruct X as [X|].
  - destruct (check_array X) as [X'|e]; cbn [rbind]; [|reflexivity].
    destruct (Neighbors.kneighbors knn (Some X')) as [ind|e] eqn:Eind;
      cbn [rbind]; [|reflexivity].
    apply parallel_abof_sequential; [exact Hjobs|].
    exact (kneighbors_length knn X' ind Eind).
  - cbn [rbind].
    destruct (Neighbors.kneighbors knn None) as [ind|e] eqn:Eind;
      cbn [rbind]; [|reflexivity].
    apply parallel_abof_sequential; [exact Hjobs|].
    exact (proj1 (kneighbors_shape knn None ind Eind)).
Qed.

(** The scores of FastABOD do not depend on the number of jobs: with
    [n_jobs >= 1], [anomaly_score] returns or raises what one call of
    [_abof] on all the rows gives, the scores in the order of the rows,
    and so the same as with any other number of jobs. *)
Theorem FastABOD_scores_do_not_depend_on_n_jobs :
  forall (s : FastABOD.t) (knn : Neighbors.t) (X : option matrix) (j : Z),
    FastABOD._knn s = Some knn ->
    (1 <= FastABOD.n_jobs s)%Z ->
    (1 <= j)%Z ->
    value (anomaly_score X (ABOD s)) = sequential_scores knn X /\
    value (anomaly_score X
             (ABOD (FastABOD.mk (FastABOD.fpr s) (FastABOD.metric s)
                      (FastABOD.metric_params s) j (FastABOD.n_neighbors s)
                      (FastABOD.p s) (FastABOD._knn s) (FastABOD.y_score_ s)
                      (FastABOD.threshold_ s)))) =
    value (anomaly_score X (ABOD s)).
Proof.
  intros s knn X j Hknn Hjobs Hj.
  rewrite (FastABOD_anomaly_score_sequential s knn X Hknn Hjobs).
  split; [reflexivity|].
  apply FastABOD_anomaly_score_sequential; [exact Hknn | exact Hj].
Qed.

Lemma parallel_abof_n_jobs (n_jobs : Z) (X : matrix) (ind : list (list nat))
    (fit_X : matrix) :
  (n_jobs < 1)%Z ->
  parallel_abof n_jobs X ind fit_X =
  Raise (ValueError "gen_even_slices got n_packs=%s, must be >=1").
Proof.
  intro H. unfold parallel_abof, gen_even_slices.
  destruct (Z.ltb_spec n_jobs 1); [reflexivity | lia].
Qed.

Lemma parallel_abof_ok_n_jobs (n_jobs : Z) (X : matrix)
    (ind : list (list nat)) (fit_X : matrix) (res : list (list Q)) :
  parallel_abof n_jobs X ind fit_X = Ok res -> (1 <= n_jobs)%Z.
Proof.
  intro H. destruct (Z.ltb_spec n_jobs 1) as [Hlt|]; [|assumption].
  rewrite (parallel_abof_n_jobs n_jobs X ind fit_X Hlt) in H. discriminate.
Qed.

Lemma parallel_abof_raise (n_jobs : Z) (X : matrix) (ind : list (list nat))
    (fit_X : matrix) (msg : string) (e : exn) :
  except_FloatingPointError msg (parallel_abof n_jobs X ind fit_X) = Raise e ->
  exists msg', e = ValueError msg'.
Proof.
  unfold parallel_abof, gen_even_slices.
  destruct (_ <? _)%Z; cbn [rbind].
  - intros [= <-]. eauto.
  - destruct (mapR _ _) as [res|e'] eqn:Eres; [discriminate|].
    destruct (mapR_raise_inv _ _ _ Eres) as (sl & _ & Hsl).
    apply _abof_raise in Hsl. subst e'. intros [= <-]. eauto.
Qed.

Lemma FastABOD_anomaly_score_raise (s : FastABOD.t) (X : option matrix)
    (e : exn) :
  value (anomaly_score X (ABOD s)) = Raise e ->
  is_ValueError_or_NotFittedError e.
Proof.
  rewrite FastABOD_anomaly_score_value.
  destruct (FastABOD._knn s) as [knn|]; [|intros [= <-]; now left].
  intro H. right.
  destruct (match X with
            | Some X' => check_array X'
            | None => Ok (Neighbors._fit_X knn)
            end) as [Xq|e0] eqn:EX; cbn [rbind] in H.
  - destruct (Neighbors.kneighbors knn _) as [ind|e1] eqn:Eind;
      cbn [rbind] in H.
    + destruct (except_FloatingPointError _ _) as [res|e2] eqn:Eres;
        cbn [rbind] in H; [discriminate|].
      injection H as <-. exact (parallel_abof_raise _ _ _ _ _ _ Eres).
    + injection H as <-. exact (kneighbors_raise _ _ _ Eind).
  - injection H as <-. destruct X as [X|]; [|discriminate].
    exact (check_array_raise _ _ EX).
Qed.

End AngleBasedScores.

(** ** The angle-based detector: fitting *)

Section AngleBasedFit.
Context {B : Backend}.

(** The steps of [FastABOD.fit] on a valid matrix and a known metric. *)
Lemma FastABOD_fit_steps (s : FastABOD.t) (X : matrix) :
  check_array X = Ok X ->
  valid_metric (FastABOD.metric s) = true ->
  match value (anomaly_score None (ABOD (FastABOD.set_knn (knn_of s X) s)))
  with
  | Raise e =>
      value (fit X (ABOD s)) = Raise e /\
      final (fit X (ABOD s)) = ABOD (FastABOD.set_knn (knn_of s X) s)
  | Ok ys =>
      match np_percentile ys (100 * (1 - FastABOD.fpr s)) with
      | Raise e =>
          value (fit X (ABOD s)) = Raise e /\
          final (fit X (ABOD s)) =
            ABOD (FastABOD.set_y_score_ ys (FastABOD.set_knn (knn_of s X) s))
      | Ok t =>
          value (fit X (ABOD s)) = Ok tt /\
          final (fit X (ABOD s)) =
            ABOD (FastABOD.set_threshold_ t
                    (FastABOD.set_y_score_ ys
                       (FastABOD.set_knn (knn_of s X) s)))
      end
  end.
Proof.
  intros HX Hm.
  destruct s as [f m mp nj k p knn0 ys0 t0]. cbn in Hm.
  unfold knn_of. unfold_methods. msimpl.
  rewrite HX. cbn. unfold Neighbors.fit. rewrite Hm. cbn.
  repeat gcase; split; reflexivity.
Qed.

Lemma FastABOD_fit_inv (s : FastABOD.t) (X : matrix) :
  value (fit X (ABOD s)) = Ok tt ->
  check_array X = Ok X /\
  valid_metric (FastABOD.metric s) = true /\
  exists ys t,
    value (anomaly_score None (ABOD (FastABOD.set_knn (knn_of s X) s))) =
      Ok ys /\
    np_percentile ys (100 * (1 - FastABOD.fpr s)) = Ok t /\
    final (fit X (ABOD s)) =
      ABOD (FastABOD.set_threshold_ t
              (FastABOD.set_y_score_ ys (FastABOD.set_knn (knn_of s X) s))).
Proof.
  intro Hfit.
  destruct (check_array X) as [X'|e] eqn:HX.
  2:{ rewrite (proj1 (fit_fails_in_validation (ABOD s) X e HX)) in Hfit.
      discriminate. }
  pose proof (check_array_ok _ _ HX). subst X'.
  destruct (valid_metric (FastABOD.metric s)) eqn:Hm.
  2:{ assert (He : estimator_fit (ABOD s) X = Raise (ValueError "Metric not valid")).
      { cbn. unfold Neighbors.fit. rewrite Hm. reflexivity. }
      rewrite (proj1 (fit_fails_in_estimator (ABOD s) X _ HX He)) in Hfit.
      discriminate. }
  split; [reflexivity|]. split; [reflexivity|].
  pose proof (FastABOD_fit_steps s X HX Hm) as Hsteps.
  destruct (value (anomaly_score None _)) as [ys|e].
  - destruct (np_percentile ys _) as [t|e] eqn:Et.
    + exists ys, t. repeat split; [exact Et | apply Hsteps].
    + destruct Hsteps as [Hv _]. congruence.
  - destruct Hsteps as [Hv _]. congruence.
Qed.

Lemma FastABOD_fit_raise (s : FastABOD.t) (X : matrix) (e : exn) :
  value (fit X (ABOD s)) = Raise e -> exists msg, e = ValueError msg.
Proof.
  intro Hfit.
  destruct (check_array X) as [X'|e0] eqn:HX.
  2:{ rewrite (proj1 (fit_fails_in_validation (ABOD s) X e0 HX)) in Hfit.
      injection Hfit as <-. exact (check_array_raise _ _ HX). }
  pose proof (check_array_ok _ _ HX). subst X'.
  destruct (valid_metric (FastABOD.metric s)) eqn:Hm.
  2:{ assert (He : estimator_fit (ABOD s) X = Raise (ValueError "Metric not valid")).
      { cbn. unfold Neighbors.fit. rewrite Hm. reflexivity. }
      rewrite (proj1 (fit_fails_in_estimator (ABOD s) X _ HX He)) in Hfit.
      injection Hfit as <-. eauto. }
  pose proof (FastABOD_fit_steps s X HX Hm) as Hsteps.
  destruct (value (anomaly_score None _)) as [ys|e1] eqn:Es.
  - destruct (np_percentile ys _) as [t|e1] eqn:Et.
    + destruct Hsteps as [Hv _]. congruence.
    + destruct Hsteps as [Hv _]. rewrite Hv in Hfit. injection Hfit as <-.
      unfold np_percentile in Et.
      destruct (_ || _); [injection Et as <-; eauto|].
      destruct ys; discriminate.
  - destruct Hsteps as [Hv _]. rewrite Hv in Hfit. injection Hfit as <-.
    destruct (FastABOD_anomaly_score_raise _ _ _ Es) as [->|Hve];
      [|exact Hve].
    rewrite FastABOD_anomaly_score_value in Es. cbn in Es.
    exfalso. clear - Es.
    destruct (Neighbors.kneighbors _ None) as [ind|e] eqn:Eind; cbn in Es.
    + destruct (except_FloatingPointError _ _) as [r|e] eqn:Er; cbn in Es;
        [discriminate|].
      injection Es as ->. apply parallel_abof_raise in Er.
      destruct Er as [msg Hmsg]. discriminate.
    + injection Es as ->. apply kneighbors_raise in Eind.
      destruct Eind as [msg Hmsg]. discriminate.
Qed.

(** FastABOD raises ValueError and NotFittedError only.  A
    FloatingPointError of [_abof] never leaves [anomaly_score]: it is
    turned into a ValueError, also when [fit] scores the training data;
    and [fit] raises nothing but ValueError. *)
Theorem FastABOD_raises_ValueError_or_NotFittedError :
  forall (s : FastABOD.t) (e : exn),
    (forall X, value (anomaly_score X (ABOD s)) = Raise e ->
               is_ValueError_or_NotFittedError e) /\
    (forall X, value (predict X (ABOD s)) = Raise e ->
               is_ValueError_or_NotFittedError e) /\
    (forall X, value (fit X (ABOD s)) = Raise e ->
               exists msg, e = ValueError msg).
Proof.
  intros s e. split; [|split].
  - intro X. apply FastABOD_anomaly_score_raise.
  - intros X Hp. unfold predict in Hp. msimpl.
    destruct (FastABOD.threshold_ s) as [t|] eqn:Ht; cbn in Hp.
    + destruct (FastABOD.anomaly_score X s) as [[ys|e'] s' tr] eqn:Es;
        cbn in Hp.
      * pose proof (anomaly_score_final X (ABOD s)) as Hf.
        unfold anomaly_score in Hf. rewrite Es in Hf. cbn in Hf.
        injection Hf as ->. rewrite Ht in Hp. discriminate.
      * injection Hp as <-.
        apply (FastABOD_anomaly_score_raise s X).
        unfold anomaly_score. rewrite Es. reflexivity.
    + injection Hp as <-. now left.
  - intro X. apply FastABOD_fit_raise.
Qed.

(** With [n_jobs] below 1, and so with the value -1 that the documentation
    gives for all processors, FastABOD cannot be used: [fit] raises
    ValueError on every matrix and assigns no threshold, and so does
    [anomaly_score] on a detector that has its index. *)
Theorem FastABOD_n_jobs_below_one_raises :
  forall (s : FastABOD.t),
    (FastABOD.n_jobs s < 1)%Z ->
    (forall X, raises_ValueError (value (fit X (ABOD s))) /\
               threshold_ (final (fit X (ABOD s))) = threshold_ (ABOD s)) /\
    (forall X knn, FastABOD._knn s = Some knn ->
                   raises_ValueError (value (anomaly_score X (ABOD s)))).
Proof.
  intros s Hjobs.
  assert (Hscore : forall s' X ys,
             FastABOD.n_jobs s' = FastABOD.n_jobs s ->
             value (anomaly_score X (ABOD s')) <> Ok ys).
  { intros s' X ys Hn Hv. rewrite FastABOD_anomaly_score_value in Hv.
    destruct (FastABOD._knn s') as [knn|]; [|discriminate].
    destruct (match X with
              | Some X' => check_array X'
              | None => Ok (Neighbors._fit_X knn)
              end) as [Xq|]; cbn [rbind] in Hv; [|discriminate].
    destruct (Neighbors.kneighbors knn _) as [ind|]; cbn [rbind] in Hv;
      [|discriminate].
    rewrite parallel_abof_n_jobs in Hv by lia. discriminate. }
  split.
  - intro X.
    destruct (value (fit X (ABOD s))) as [[]|e] eqn:Hfit.
    + exfalso. destruct (FastABOD_fit_inv s X Hfit)
        as (_ & _ & ys & t & Hs & _).
      exact (Hscore (FastABOD.set_knn (knn_of s X) s) None ys eq_refl Hs).
    + split; [destruct (FastABOD_fit_raise s X e Hfit) as [msg ->];
              exists msg; reflexivity|].
      destruct (check_array X) as [X'|e0] eqn:HX.
      2:{ rewrite (proj2 (fit_fails_in_validation (ABOD s) X e0 HX)).
          reflexivity. }
      pose proof (check_array_ok _ _ HX). subst X'.
      destruct (valid_metric (FastABOD.metric s)) eqn:Hm.
      2:{ assert (He : estimator_fit (ABOD s) X =
                         Raise (ValueError "Metric not valid")).
          { cbn. unfold Neighbors.fit. rewrite Hm. reflexivity. }
          rewrite (proj2 (fit_fails_in_estimator (ABOD s) X _ HX He)).
          reflexivity. }
      pose proof (FastABOD_fit_steps s X HX Hm) as Hsteps.
      destruct (value (anomaly_score None _)) as [ys|e1] eqn:Es.
      * exfalso.
        exact (Hscore (FastABOD.set_knn (knn_of s X) s) None ys eq_refl Es).
      * destruct Hsteps as [_ ->]. reflexivity.
  - intros X knn Hknn.
    destruct (value (anomaly_score X (ABOD s))) as [ys|e] eqn:Hv.
    + exfalso. exact (Hscore s X ys eq_refl Hv).
    + destruct (FastABOD_anomaly_score_raise s X e Hv) as [->|[msg ->]];
        [|exists msg; reflexivity].
      rewrite FastABOD_anomaly_score_value, Hknn in Hv.
      exfalso.
      destruct (match X with
                | Some X' => check_array X'
                | None => Ok (Neighbors._fit_X knn)
                end) as [Xq|e0] eqn:EX; cbn [rbind] in Hv.
      * destruct (Neighbors.kneighbors knn _) as [ind|e1] eqn:Eind;
          cbn [rbind] in Hv.
        -- rewrite parallel_abof_n_jobs in Hv by lia. discriminate.
        -- injection Hv as ->. apply kneighbors_raise in Eind.
           destruct Eind as [msg Hmsg]. discriminate.
      * injection Hv as ->. destruct X as [X|]; [|discriminate].
        apply check_array_raise in EX. destruct EX as [msg Hmsg].
        discriminate.
Qed.

End AngleBasedFit.

(** ** The angle-based detector: the sign of the scores *)

Lemma Qsum_nonneg (l : list Q) : Forall (fun x => 0 <= x) l -> 0 <= Qsum l.
Proof.
  induction 1 as [|x l Hx _ IH]; cbn; [apply Qle_refl|].
  change 0 with (0 + 0). apply Qplus_le_compat; assumption.
Qed.

Lemma np_mean_nonneg (l : list Q) :
  Forall (fun x => 0 <= x) l -> 0 <= np_mean l.
Proof.
  intro H. unfold np_mean, Qdiv.
  apply Qmult_le_0_compat; [apply Qsum_nonneg; exact H|].
  apply Qinv_le_0_compat. unfold Qlen.
  change 0 with (inject_Z 0). rewrite <- Zle_Qle. lia.
Qed.

Lemma np_var_nonneg (l : list Q) : 0 <= np_var l.
Proof.
  unfold np_var. apply np_mean_nonneg.
  apply Forall_forall. intros y Hy. apply in_map_iff in Hy.
  destruct Hy as [x [<- _]]. generalize (x - np_mean l). intro a. nra.
Qed.

Lemma np_var_singleton (q : Q) : np_var [q] == 0.
Proof.
  unfold np_var, np_mean, Qlen, Qsum. cbn [map fold_right length].
  change (inject_Z (Z.of_nat 1)) with 1. field.
Qed.

Lemma np_var_checked_ok (ts : list fval) (z : Q) :
  np_var_checked ts = Ok z -> exists qs, all_finite ts = Some qs /\ z = np_var qs.
Proof.
  unfold np_var_checked. destruct (all_finite ts) as [[|q qs]|];
    try discriminate.
  intros [= <-]. eauto.
Qed.

Lemma abof_row_nonneg (fit_X : matrix) (p : vec) (I : list nat) (z : Q) :
  abof_row fit_X p I = Ok z -> 0 <= z.
Proof.
  unfold abof_row. destruct (mapR _ _) as [ts|]; cbn [rbind]; [|discriminate].
  intro H. apply np_var_checked_ok in H. destruct H as (qs & _ & ->).
  apply np_var_nonneg.
Qed.

Lemma mapR_length_all_finite {A} (f : A -> result fval) (l : list A)
    (ts : list fval) (qs : list Q) :
  mapR f l = Ok ts -> all_finite ts = Some qs -> length qs = length l.
Proof.
  intros Hm Hf. rewrite <- (mapR_length _ _ _ Hm). clear Hm.
  revert qs Hf. induction ts as [|t ts IH]; intros qs Hf.
  - injection Hf as <-. reflexivity.
  - destruct t; try discriminate. cbn in Hf.
    destruct (all_finite ts) as [qs'|]; [|discriminate].
    injection Hf as <-. cbn. f_equal. apply IH. reflexivity.
Qed.

(** With two neighbours there is one pair, and the variance of one number
    is zero. *)
Lemma abof_row_two_neighbours (fit_X : matrix) (p : vec) (I : list nat)
    (z : Q) :
  length I = 2%nat -> abof_row fit_X p I = Ok z -> z == 0.
Proof.
  intros HI. destruct I as [|a [|b [|c I]]]; try discriminate.
  unfold abof_row. cbn [map combinations2 app].
  destruct (mapR _ _) as [ts|] eqn:Ets; cbn [rbind]; [|discriminate].
  intro H. apply np_var_checked_ok in H. destruct H as (qs & Hqs & ->).
  pose proof (mapR_length_all_finite _ _ _ _ Ets Hqs) as Hlen.
  destruct qs as [|q [|q' qs]]; try discriminate.
  apply np_var_singleton.
Qed.

Lemma mapR_Forall {A C} (f : A -> result C) (P : C -> Prop) (l : list A)
    (ys : list C) :
  (forall x y, In x l -> f x = Ok y -> P y) ->
  mapR f l = Ok ys -> Forall P ys.
Proof.
  intros H Hm.
  pose proof (mapR_Forall2 f (fun _ y => P y) l ys H Hm) as HF.
  clear - HF. induction HF; constructor; assumption.
Qed.

Lemma _abof_nonneg (X : matrix) (ind : list (list nat)) (fit_X : matrix)
    (zs : list Q) :
  _abof X ind fit_X = Ok zs -> Forall (fun z => 0 <= z) zs.
Proof.
  unfold _abof. apply mapR_Forall.
  intros [p I] z _ H. exact (abof_row_nonneg _ _ _ _ H).
Qed.

Lemma _abof_two_neighbours (X : matrix) (ind : list (list nat))
    (fit_X : matrix) (zs : list Q) :
  (forall I, In I ind -> length I = 2%nat) ->
  _abof X ind fit_X = Ok zs -> Forall (fun z => z == 0) zs.
Proof.
  intro Hind. unfold _abof. apply mapR_Forall.
  intros [p I] z Hin H. apply (abof_row_two_neighbours _ _ _ _ (Hind I (in_combine_r _ _ _ _ Hin)) H).
Qed.

Section AngleBasedSign.
Context {B : Backend}.

Lemma FastABOD_anomaly_score_inv (s : FastABOD.t) (X : option matrix)
    (ys : list Q) :
  value (anomaly_score X (ABOD s)) = Ok ys ->
  exists knn ind zs,
    FastABOD._knn s = Some knn /\
    (1 <= FastABOD.n_jobs s)%Z /\
    (forall X', X = Some X' -> check_array X' = Ok X') /\
    Neighbors.kneighbors knn X = Ok ind /\
    _abof (queries knn X) ind (Neighbors._fit_X knn) = Ok zs /\
    ys = map Qopp zs.
Proof.
  intro Hv. rewrite FastABOD_anomaly_score_value in Hv.
  destruct (FastABOD._knn s) as [knn|]; [|discriminate].
  assert (HX : forall X', X = Some X' -> check_array X' = Ok X').
  { intros X' ->. destruct (check_array X') as [X''|] eqn:E; [|discriminate].
    now rewrite (check_array_ok _ _ E). }
  assert (EX : match X with
               | Some X' => check_array X'
               | None => Ok (Neighbors._fit_X knn)
               end = Ok (queries knn X)).
  { destruct X as [X'|]; [exact (HX X' eq_refl) | reflexivity]. }
  rewrite EX in Hv. cbn [rbind] in Hv.
  assert (EI : match X with
               | Some _ => Some (queries knn X)
               | None => None
               end = X) by (destruct X; reflexivity).
  rewrite EI in Hv.
  destruct (Neighbors.kneighbors knn X) as [ind|] eqn:Eind;
    cbn [rbind] in Hv; [|discriminate].
  destruct (except_FloatingPointError _ _) as [res|] eqn:Eres;
    cbn [rbind] in Hv; [|discriminate].
  apply except_FloatingPointError_ok in Eres.
  pose proof (parallel_abof_ok_n_jobs _ _ _ _ _ Eres) as Hjobs.
  pose proof (parallel_abof_spec (FastABOD.n_jobs s) (queries knn X) ind
                (Neighbors._fit_X knn) Hjobs
                (proj1 (kneighbors_shape knn X ind Eind))) as Hpar.
  rewrite Eres in Hpar. cbn [rbind] in Hpar.
  exists knn, ind, (concat res). injection Hv as <-.
  repeat split; auto.
Qed.

(** The scores of FastABOD are never positive: a score is the negative of
    a variance. *)
Theorem FastABOD_scores_are_not_positive :
  forall (s : FastABOD.t) (X : option matrix) (ys : list Q),
    value (anomaly_score X (ABOD s)) = Ok ys ->
    Forall (fun y => y <= 0) ys.
Proof.
  intros s X ys Hv.
  destruct (FastABOD_anomaly_score_inv s X ys Hv)
    as (knn & ind & zs & _ & _ & _ & _ & Hz & ->).
  apply _abof_nonneg in Hz. clear Hv.
  induction Hz as [|z zs Hz0 _ IH]; cbn [map]; constructor;
    [lra | exact IH].
Qed.

End AngleBasedSign.

(** ** The angle-based detector with two neighbours *)

Lemma np_sort_In (x : Q) (a : list Q) : In x (np_sort a) -> In x a.
Proof.
  unfold np_sort. intro H. apply in_map_iff in H.
  destruct H as [[y []] [<- Hy]]. apply sort_key_In in Hy.
  apply in_map_iff in Hy. destruct Hy as [z [[= <-] Hz]]. exact Hz.
Qed.

Lemma nth_all_zero (l : list Q) (i : nat) :
  Forall (fun x => x == 0) l -> nth i l 0 == 0.
Proof.
  intro H. destruct (Nat.lt_ge_cases i (length l)) as [Hi|Hi].
  - exact (proj1 (Forall_forall _ l) H _ (nth_In l 0 Hi)).
  - rewrite nth_overflow by exact Hi. reflexivity.
Qed.

Lemma np_percentile_all_zero (a : list Q) (q : Q) (t : fval) :
  Forall (fun x => x == 0) a ->
  np_percentile a q = Ok t ->
  forall s, s == 0 -> gt_fval s t = false.
Proof.
  intros Ha Ht s Hs. unfold np_percentile in Ht.
  destruct (_ || _); [discriminate|].
  destruct a as [|x a]; [injection Ht as <-; reflexivity|].
  injection Ht as <-. cbn [gt_fval]. apply Qltb_ge.
  assert (Hsorted : Forall (fun x => x == 0) (np_sort (x :: a))).
  { apply Forall_forall. intros y Hy. apply np_sort_In in Hy.
    exact (proj1 (Forall_forall _ _) Ha y Hy). }
  unfold percentile_sorted. cbv zeta.
  rewrite !(nth_all_zero _ _ Hsorted), Hs. lra.
Qed.

Section TwoNeighbours.
Context {B : Backend}.

Lemma FastABOD_two_neighbours_scores (s : FastABOD.t) (knn : Neighbors.t)
    (X : option matrix) (ys : list Q) :
  FastABOD._knn s = Some knn ->
  Neighbors.n_neighbors knn = 2%Z ->
  value (anomaly_score X (ABOD s)) = Ok ys ->
  Forall (fun y => y == 0) ys.
Proof.
  intros Hknn Hk Hv.
  destruct (FastABOD_anomaly_score_inv s X ys Hv)
    as (knn' & ind & zs & Hknn' & _ & _ & Hind & Hz & ->).
  assert (knn' = knn) by congruence. subst knn'.
  destruct (kneighbors_shape knn X ind Hind) as [_ Hsize].
  rewrite Hk in Hsize.
  apply (_abof_two_neighbours _ _ _ _ Hsize) in Hz. clear Hv.
  induction Hz as [|z zs Hz0 _ IH]; cbn [map]; constructor;
    [rewrite Hz0; reflexivity | exact IH].
Qed.

(** With [n_neighbors = 2], the least value that the constructor accepts,
    FastABOD detects nothing: a sample has one pair of neighbours, the
    variance over one pair is zero, so every score is zero, the threshold
    is zero, and [predict] flags no sample, whatever fpr is. *)
Theorem FastABOD_two_neighbours_flag_nothing :
  forall (s : FastABOD.t) (X : matrix),
    FastABOD.n_neighbors s = 2%Z ->
    value (fit X (ABOD s)) = Ok tt ->
    (forall Xq ys,
        value (anomaly_score Xq (final (fit X (ABOD s)))) = Ok ys ->
        Forall (fun y => y == 0) ys) /\
    (forall Xq y,
        value (predict Xq (final (fit X (ABOD s)))) = Ok y ->
        Forall (fun z => z = 0%Z) y).
Proof.
  intros s X Hk Hfit.
  destruct (FastABOD_fit_inv s X Hfit) as (_ & _ & ys0 & t & Hs0 & Ht & ->).
  assert (Hscores : forall Xq ys,
             value (anomaly_score Xq
                      (ABOD (FastABOD.set_threshold_ t
                               (FastABOD.set_y_score_ ys0
                                  (FastABOD.set_knn (knn_of s X) s))))) =
               Ok ys ->
             Forall (fun y => y == 0) ys).
  { intros Xq ys. apply (FastABOD_two_neighbours_scores _ (knn_of s X));
      [reflexivity | exact Hk]. }
  split; [exact Hscores|].
  intros Xq y Hp.
  destruct (predict_inv Xq _ y Hp) as (t' & ys & Ht' & Hys & ->).
  cbn in Ht'. injection Ht' as <-.
  pose proof (FastABOD_two_neighbours_scores
                (FastABOD.set_knn (knn_of s X) s) (knn_of s X) None ys0
                eq_refl Hk Hs0) as Hzero0.
  pose proof (Hscores Xq ys Hys) as Hzero.
  unfold flag. clear - Hzero Hzero0 Ht.
  induction Hzero as [|z ys Hz _ IH]; cbn [map]; constructor; [|exact IH].
  rewrite (np_percentile_all_zero ys0 _ t Hzero0 Ht z Hz). reflexivity.
Qed.

End TwoNeighbours.

(** ** The angle-based detector: training matrices that cannot be fitted *)

Section AngleBasedTraining.
Context {B : Backend}.

Lemma kneighbors_None_few_rows (nn : Neighbors.t) :
  (0 < Neighbors.n_neighbors nn)%Z ->
  (length (Neighbors._fit_X nn) <= Z.to_nat (Neighbors.n_neighbors nn))%nat ->
  Neighbors.kneighbors nn None =
    Raise (ValueError "Expected n_neighbors <= n_samples").
Proof.
  intros Hk Hn. unfold Neighbors.kneighbors.
  destruct (Z.leb_spec (Neighbors.n_neighbors nn) 0); [lia|].
  destruct (Nat.ltb_spec (length (Neighbors._fit_X nn))
              (Z.to_nat (Neighbors.n_neighbors nn) + 1)); [reflexivity | lia].
Qed.

Lemma kneighbors_None_enough_rows (nn : Neighbors.t) :
  (0 < Neighbors.n_neighbors nn)%Z ->
  (Z.to_nat (Neighbors.n_neighbors nn) < length (Neighbors._fit_X nn))%nat ->
  exists ind, Neighbors.kneighbors nn None = Ok ind.
Proof.
  intros Hk Hn. unfold Neighbors.kneighbors.
  destruct (Z.leb_spec (Neighbors.n_neighbors nn) 0); [lia|].
  destruct (Nat.ltb_spec (length (Neighbors._fit_X nn))
              (Z.to_nat (Neighbors.n_neighbors nn) + 1)); [lia | eauto].
Qed.

(** FastABOD needs more training samples than neighbours: on a valid
    matrix with at most [n_neighbors] rows, [fit] assigns the index and
    then raises the ValueError of the neighbour query, before any score or
    threshold is assigned. *)
Theorem FastABOD_fit_needs_more_rows_than_neighbours :
  forall (s : FastABOD.t) (X : matrix),
    check_array X = Ok X ->
    valid_metric (FastABOD.metric s) = true ->
    (0 < FastABOD.n_neighbors s)%Z ->
    (length X <= Z.to_nat (FastABOD.n_neighbors s))%nat ->
    value (fit X (ABOD s)) =
      Raise (ValueError "Expected n_neighbors <= n_samples") /\
    final (fit X (ABOD s)) = ABOD (FastABOD.set_knn (knn_of s X) s).
Proof.
  intros s X HX Hm Hk Hn.
  pose proof (FastABOD_fit_steps s X HX Hm) as Hsteps.
  rewrite FastABOD_anomaly_score_value in Hsteps.
  change (FastABOD._knn (FastABOD.set_knn (knn_of s X) s))
    with (Some (knn_of s X)) in Hsteps.
  cbn [rbind] in Hsteps.
  rewrite (kneighbors_None_few_rows (knn_of s X)) in Hsteps;
    [exact Hsteps | exact Hk | exact Hn].
Qed.

(** Among candidates that hold a row equal to [p], the nearest row is
    equal to [p]. *)
Lemma nearest_among (nn : Neighbors.t) (p : vec) (cands : list nat)
    (k j : nat) :
  metric_separates nn ->
  (forall i, In i cands -> length (nth i (Neighbors._fit_X nn) []) = length p) ->
  In j cands ->
  Forall2 Qeq (nth j (Neighbors._fit_X nn) []) p ->
  (2 <= k)%nat ->
  (k <= length cands)%nat ->
  exists i0 i1 I,
    firstn k (Neighbors.argsort_dist nn p cands) = i0 :: i1 :: I /\
    Forall2 Qeq (nth i0 (Neighbors._fit_X nn) []) p.
Proof.
  intros Hmetric Hwidth Hj Hco Hk Hn.
  set (fit_X := Neighbors._fit_X nn) in *.
  unfold Neighbors.argsort_dist.
  set (keyed := map (fun i => (Neighbors.dist_to nn p i, i)) cands).
  pose proof (sort_key_sorted keyed) as Hsorted.
  pose proof (sort_key_length keyed) as Hlen.
  unfold keyed in Hlen at 2. rewrite length_map in Hlen.
  destruct (sort_key keyed) as [|[d0 i0] [|[d1 i1] S]] eqn:ES;
    cbn [length] in Hlen; try lia.
  destruct k as [|[|k]]; try lia.
  exists i0, i1, (firstn k (map snd S)). split; [reflexivity|].
  assert (Hhead : In (d0, i0) keyed).
  { apply sort_key_In. rewrite ES. now left. }
  apply in_map_iff in Hhead. destruct Hhead as [i [[= <- <-] Hi]].
  assert (Hcand : In (Neighbors.dist_to nn p j, j) (sort_key keyed)).
  { apply sort_key_In_l. unfold keyed. apply in_map_iff.
    exists j. split; [reflexivity | exact Hj]. }
  rewrite ES in Hcand.
  pose proof (sorted_head_min _ _ _ Hsorted Hcand) as Hmin.
  cbn [fst] in Hmin.
  assert (Hsym : forall a b : vec, Forall2 Qeq a b -> Forall2 Qeq b a).
  { clear. intros a b H. induction H; constructor;
      [now symmetry | assumption]. }
  assert (Hzero : Neighbors.dist_to nn p j == 0).
  { unfold Neighbors.dist_to. fold fit_X.
    apply (Hmetric p (nth j fit_X []) (eq_sym (Hwidth j Hj))).
    apply Hsym. exact Hco. }
  destruct (Hmetric p (nth i fit_X []) (eq_sym (Hwidth i Hi)))
    as [Hnonneg Hsep].
  unfold Neighbors.dist_to in Hmin, Hzero. fold fit_X in Hmin, Hzero.
  assert (Hd0 : distance (Neighbors.metric nn) (Neighbors.metric_params nn)
                  (Neighbors.p nn) p (nth i fit_X []) == 0) by lra.
  apply Hsep in Hd0. apply Hsym. exact Hd0.
Qed.

Lemma in_combine_seq_map {A C} (g : nat -> C) (M : list A) (d : A)
    (a j : nat) :
  (j < length M)%nat ->
  In (nth j M d, g (a + j)%nat) (combine M (map g (seq a (length M)))).
Proof.
  revert a j. induction M as [|r M IH]; intros a j Hj; [cbn in Hj; lia|].
  cbn [length seq map combine].
  destruct j as [|j].
  - left. cbn [nth]. f_equal. f_equal. lia.
  - right. cbn [nth]. replace (a + S j)%nat with (S a + j)%nat by lia.
    apply IH. cbn in Hj. lia.
Qed.

(** On a training matrix with two equal rows the in-sample factors cannot
    be computed. *)
Lemma duplicate_rows_abof_raises (nn : Neighbors.t) (ind : list (list nat)) :
  metric_separates nn ->
  check_array (Neighbors._fit_X nn) = Ok (Neighbors._fit_X nn) ->
  (1 < Neighbors.n_neighbors nn)%Z ->
  has_duplicate_rows (Neighbors._fit_X nn) ->
  Neighbors.kneighbors nn None = Ok ind ->
  _abof (Neighbors._fit_X nn) ind (Neighbors._fit_X nn) =
    Raise FloatingPointError.
Proof.
  intros Hmetric Hrect Hk (i & j & Hi & Hj & Hij & Hco) Hind.
  set (fit_X := Neighbors._fit_X nn) in *.
  unfold Neighbors.kneighbors in Hind. fold fit_X in Hind.
  destruct (_ <=? _)%Z; [discriminate|].
  destruct (_ <? _)%nat eqn:En; [discriminate|].
  apply Nat.ltb_ge in En. injection Hind as <-.
  set (k := Z.to_nat (Neighbors.n_neighbors nn)) in *.
  set (cands := filter (fun j0 => negb (j0 =? j)%nat) (seq 0 (length fit_X))).
  assert (Hrow : forall a, (a < length fit_X)%nat ->
                           length (nth a fit_X []) = n_features fit_X).
  { intros a Ha. apply (check_array_widths fit_X Hrect).
    apply nth_In. exact Ha. }
  destruct (nearest_among nn (nth j fit_X []) cands k i) as
    (i0 & i1 & I & HI & Hco0).
  - exact Hmetric.
  - intros a Ha. apply filter_In in Ha. destruct Ha as [Ha _].
    apply in_seq in Ha. rewrite !Hrow by lia. reflexivity.
  - apply filter_In. split; [apply in_seq; lia|].
    apply negb_true_iff. apply Nat.eqb_neq. exact Hij.
  - exact Hco.
  - subst k. lia.
  - unfold cands. rewrite filter_neq_seq_length by lia. lia.
  - apply (_abof_degenerate fit_X _ fit_X (nth j fit_X []) (i0 :: i1 :: I) i0).
    + rewrite <- HI.
      exact (in_combine_seq_map
               (fun i2 : nat =>
                  firstn k
                    (Neighbors.argsort_dist nn (nth i2 fit_X [])
                       (filter (fun j0 => negb (j0 =? i2)%nat)
                          (seq 0 (length fit_X)))))
               fit_X [] 0 j Hj).
    + cbn. lia.
    + now left.
    + exact Hco0.
Qed.

(** FastABOD cannot be fitted on data with duplicate samples.  Over a
    metric that separates points, a training matrix with two equal rows
    makes [fit] raise ValueError; when the matrix is valid and large
    enough and the metric and the number of jobs are accepted, it is the
    error that reports an overlap between the query and the training
    data: the index is assigned, the scores and the threshold are not. *)
Theorem FastABOD_fit_rejects_duplicate_rows :
  forall (s : FastABOD.t) (X : matrix),
    metric_separates (knn_of s X) ->
    (1 < FastABOD.n_neighbors s)%Z ->
    has_duplicate_rows X ->
    raises_ValueError (value (fit X (ABOD s))) /\
    (check_array X = Ok X ->
     valid_metric (FastABOD.metric s) = true ->
     (1 <= FastABOD.n_jobs s)%Z ->
     (Z.to_nat (FastABOD.n_neighbors s) < length X)%nat ->
     value (fit X (ABOD s)) = Raise (ValueError overlap_message) /\
     final (fit X (ABOD s)) = ABOD (FastABOD.set_knn (knn_of s X) s)).
Proof.
  intros s X Hmetric Hk Hdup. split.
  - destruct (value (fit X (ABOD s))) as [[]|e] eqn:Hfit.
    + exfalso.
      destruct (FastABOD_fit_inv s X Hfit) as (HX & Hm & ys & t & Hs & _).
      destruct (FastABOD_anomaly_score_inv _ _ _ Hs)
        as (knn & ind & zs & Hknn & _ & _ & Hind & Hz & _).
      cbn in Hknn. injection Hknn as <-.
      pose proof (duplicate_rows_abof_raises (knn_of s X) ind Hmetric HX Hk
                    Hdup Hind) as Hr.
      change (_abof X ind X = Raise FloatingPointError) in Hr.
      change (_abof X ind X = Ok zs) in Hz.
      congruence.
    + destruct (FastABOD_fit_raise s X e Hfit) as [msg ->].
      exists msg. reflexivity.
  - intros HX Hm Hjobs Hn.
    pose proof (FastABOD_fit_steps s X HX Hm) as Hsteps.
    rewrite (FastABOD_anomaly_score_sequential
               (FastABOD.set_knn (knn_of s X) s) (knn_of s X) None eq_refl
               Hjobs) in Hsteps.
    unfold sequential_scores in Hsteps. cbn [rbind] in Hsteps.
    destruct (Neighbors.kneighbors (knn_of s X) None) as [ind|e] eqn:Eind.
    + cbn [rbind] in Hsteps.
      pose proof (duplicate_rows_abof_raises (knn_of s X) ind Hmetric HX Hk
                    Hdup Eind) as Hr.
      change (_abof X ind X = Raise FloatingPointError) in Hr.
      change (Neighbors._fit_X (knn_of s X)) with X in Hsteps.
      rewrite Hr in Hsteps. exact Hsteps.
    + exfalso.
      destruct (kneighbors_None_enough_rows (knn_of s X)) as [ind Hind];
        [cbn; lia | exact Hn | congruence].
Qed.

End AngleBasedTraining.

(** ** fit_predict *)

Section FitPredict.
Context {B : Backend}.

Lemma predict_raise (X : option matrix) (d : detector) (t : fval) (e : exn) :
  threshold_ d = Some t ->
  value (anomaly_score X d) = Raise e ->
  value (predict X d) = Raise e.
Proof.
  intros Ht He. unfold predict. msimpl. rewrite Ht. cbn.
  destruct (anomaly_score X d) as [[ys|e'] d' tr]; cbn in *;
    [discriminate | congruence].
Qed.

Lemma fit_predict_value (X : matrix) (d : detector) :
  (forall e, value (fit X d) = Raise e ->
             value (fit_predict X d) = Raise e /\
             final (fit_predict X d) = final (fit X d)) /\
  (value (fit X d) = Ok tt ->
   value (fit_predict X d) = value (predict (Some X) (final (fit X d))) /\
   final (fit_predict X d) = final (fit X d)).
Proof.
  unfold fit_predict, bind.
  pose proof (predict_final (Some X) (final (fit X d))) as Hf.
  destruct (fit X d) as [[[]|e] d1 tr1]; cbn in *.
  - split; [discriminate|]. intros _.
    destruct (predict (Some X) d1) as [r d2 tr2]; cbn in *.
    split; [reflexivity | exact Hf].
  - split; [|discriminate]. intros e' [= <-]. split; reflexivity.
Qed.

Lemma kneighbors_Some_ok (nn : Neighbors.t) (X : matrix) :
  (0 < Neighbors.n_neighbors nn)%Z ->
  (Z.to_nat (Neighbors.n_neighbors nn) <= length (Neighbors._fit_X nn))%nat ->
  (forall r, In r X -> length r = n_features (Neighbors._fit_X nn)) ->
  exists ind, Neighbors.kneighbors nn (Some X) = Ok ind.
Proof.
  intros Hk Hn Hw. unfold Neighbors.kneighbors.
  destruct (Z.leb_spec (Neighbors.n_neighbors nn) 0); [lia|].
  destruct (Nat.ltb_spec (length (Neighbors._fit_X nn))
              (Z.to_nat (Neighbors.n_neighbors nn))); [lia|].
  assert (Hall : forallb
                   (fun r => (length r =? n_features (Neighbors._fit_X nn))%nat)
                   X = true).
  { apply forallb_forall. intros r Hr. apply Nat.eqb_eq. exact (Hw r Hr). }
  rewrite Hall. cbn [negb]. eauto.
Qed.

Lemma kneighbors_None_rows (nn : Neighbors.t) (ind : list (list nat)) :
  Neighbors.kneighbors nn None = Ok ind ->
  (0 < Neighbors.n_neighbors nn)%Z /\
  (Z.to_nat (Neighbors.n_neighbors nn) < length (Neighbors._fit_X nn))%nat.
Proof.
  unfold Neighbors.kneighbors.
  destruct (Z.leb_spec (Neighbors.n_neighbors nn) 0); [discriminate|].
  destruct (Nat.ltb_spec (length (Neighbors._fit_X nn))
              (Z.to_nat (Neighbors.n_neighbors nn) + 1)); [discriminate|].
  intros _. lia.
Qed.

(** FastABOD has no [fit_predict]: over a metric that separates points,
    [fit_predict] never returns.  When [fit] succeeds, [predict] scores
    the training matrix as new data, every row finds itself among its
    neighbours, and the ValueError that reports the overlap with the
    training data is raised; the in-sample prediction is
    [predict(None)]. *)
Theorem FastABOD_fit_predict_always_raises :
  forall (s : FastABOD.t) (X : matrix),
    metric_separates (knn_of s X) ->
    (1 < FastABOD.n_neighbors s)%Z ->
    raises_ValueError (value (fit_predict X (ABOD s))) /\
    (value (fit X (ABOD s)) = Ok tt ->
     value (fit_predict X (ABOD s)) = Raise (ValueError overlap_message) /\
     value (predict (Some X) (final (fit X (ABOD s)))) =
       Raise (ValueError overlap_message)).
Proof.
  intros s X Hmetric Hk.
  assert (Hok : value (fit X (ABOD s)) = Ok tt ->
                value (fit_predict X (ABOD s)) =
                  Raise (ValueError overlap_message) /\
                value (predict (Some X) (final (fit X (ABOD s)))) =
                  Raise (ValueError overlap_message)).
  { intro Hfit.
    destruct (proj2 (fit_predict_value X (ABOD s)) Hfit) as [Hfp _].
    rewrite Hfp.
    destruct (FastABOD_fit_inv s X Hfit) as (HX & Hm & ys & t & Hs & Ht & Hfin).
    rewrite Hfin.
    destruct (FastABOD_anomaly_score_inv _ _ _ Hs)
      as (knn & ind0 & zs & Hknn & Hjobs & _ & Hind0 & _ & _).
    cbn in Hknn. injection Hknn as <-.
    change (Neighbors.kneighbors (knn_of s X) None = Ok ind0) in Hind0.
    destruct (kneighbors_None_rows _ _ Hind0) as [Hk0 Hn].
    destruct (kneighbors_Some_ok (knn_of s X) X Hk0 ltac:(lia)
                (check_array_widths X HX)) as [ind Hind].
    destruct X as [|p X']; [discriminate HX|].
    destruct (training_point_has_coinciding_neighbour (knn_of s (p :: X'))
                (p :: X') p ind Hmetric HX Hk
                (or_introl eq_refl) (or_introl eq_refl) Hind)
      as (I & j & HpI & Hj & Hco).
    assert (Hraise :
              value (anomaly_score (Some (p :: X'))
                       (ABOD (FastABOD.set_threshold_ t
                                (FastABOD.set_y_score_ ys
                                   (FastABOD.set_knn (knn_of s (p :: X')) s))))) =
              Raise (ValueError overlap_message)).
    { apply (coinciding_neighbour_raises _ (knn_of s (p :: X')) (p :: X') ind
               p I j); try assumption; reflexivity. }
    split; (eapply predict_raise; [|exact Hraise]; reflexivity). }
  split; [|exact Hok].
  destruct (value (fit X (ABOD s))) as [[]|e] eqn:Hfit.
  - destruct (Hok eq_refl) as [Hv _]. rewrite Hv. eexists. reflexivity.
  - destruct (proj1 (fit_predict_value X (ABOD s)) e Hfit) as [Hv _].
    rewrite Hv. destruct (FastABOD_fit_raise s X e Hfit) as [msg ->].
    exists msg. reflexivity.
Qed.

End FitPredict.

(** ** In-sample false positives of the percentile thresholds *)

Lemma flag_cons (t : fval) (y : Q) (ys : list Q) :
  flag t (y :: ys) = (if gt_fval y t then 1%Z else 0%Z) :: flag t ys.
Proof. reflexivity. Qed.









Section InSampleFalsePositives.
Context {B : Backend}.


End InSampleFalsePositives.

(** ** The feature-wise scores of the Gaussian detector *)

Lemma feature_wise_row_length {B : Backend} (g : GraphLasso) (x r : vec) :
  GaussianOutlierDetector.feature_wise_row g x = Ok r ->
  length r = length (precision_ g).
Proof.
  unfold GaussianOutlierDetector.feature_wise_row.
  destruct (GaussianOutlierDetector.broadcast_sub x (location_ g)) as [d|e];
    cbn [rbind]; [|discriminate].
  intros [= <-]. rewrite length_map, length_seq. reflexivity.
Qed.

(** The subtraction [x - location_] follows the broadcasting of numpy: a
    row of one entry is subtracted from every entry of the location. *)
Lemma broadcast_sub_ok (x location : vec) :
  length x = length location \/ length x = 1%nat ->
  exists d, GaussianOutlierDetector.broadcast_sub x location = Ok d.
Proof.
  intro H. unfold GaussianOutlierDetector.broadcast_sub.
  destruct (Nat.eqb_spec (length x) (length location)); [eauto|].
  destruct (Nat.eqb_spec (length x) 1); [eauto|].
  destruct H; contradiction.
Qed.

Lemma feature_wise_row_width {B : Backend} (g : GraphLasso) (x : vec) :
  length x <> length (location_ g) ->
  length x <> 1%nat ->
  raises_ValueError (GaussianOutlierDetector.feature_wise_row g x).
Proof.
  intros H H1. unfold GaussianOutlierDetector.feature_wise_row,
    GaussianOutlierDetector.broadcast_sub.
  destruct (Nat.eqb_spec (length x) (length (location_ g))); [contradiction|].
  destruct (Nat.eqb_spec (length x) 1); [contradiction|].
  destruct (length (location_ g) =? 1)%nat; cbn [rbind]; eexists; reflexivity.
Qed.

Lemma feature_wise_rows_broadcast {B : Backend} (g : GraphLasso) (X : matrix) :
  check_array X = Ok X ->
  n_features X = length (location_ g) \/ n_features X = 1%nat ->
  exists Y, mapR (GaussianOutlierDetector.feature_wise_row g) X = Ok Y.
Proof.
  intros HX Hw. apply mapR_all_ok. intros x Hx.
  unfold GaussianOutlierDetector.feature_wise_row.
  destruct (broadcast_sub_ok x (location_ g)) as [d ->].
  - rewrite (check_array_widths X HX x Hx). exact Hw.
  - cbn [rbind]. eauto.
Qed.

Lemma feature_wise_rows_shape {B : Backend} (g : GraphLasso) (X Y : matrix) :
  mapR (GaussianOutlierDetector.feature_wise_row g) X = Ok Y ->
  length Y = length X /\
  forall r, In r Y -> length r = length (precision_ g).
Proof.
  intro H. split; [exact (mapR_length _ _ _ H)|].
  apply Forall_forall.
  apply (mapR_Forall (GaussianOutlierDetector.feature_wise_row g)
           (fun r => length r = length (precision_ g)) X Y);
    [|exact H].
  intros x r _ Hr. exact (feature_wise_row_length g x r Hr).
Qed.

Lemma np_percentile_axis0_length (Y : matrix) (q : Q) (t : list fval) :
  np_percentile_axis0 Y q = Ok t -> length t = n_features Y.
Proof.
  unfold np_percentile_axis0. intro H. apply mapR_length in H.
  rewrite H. unfold columns. rewrite length_map, length_seq. reflexivity.
Qed.

Section FeatureWise.
Context {B : Backend}.

Lemma feature_wise_value (s : GaussianOutlierDetector.t) (X : option matrix) :
  value (GaussianOutlierDetector.feature_wise_anomaly_score X s) =
  match GaussianOutlierDetector._glasso s with
  | None => Raise NotFittedError
  | Some g =>
      match X with
      | None =>
          match GaussianOutlierDetector.Y_score_ s with
          | Some Y => Ok Y
          | None => Raise AttributeError
          end
      | Some X' =>
          rbind (check_array X')
            (mapR (GaussianOutlierDetector.feature_wise_row g))
      end
  end.
Proof.
  destruct s as [a c f mi tl [g|] ys t Y fwt];
    unfold GaussianOutlierDetector.feature_wise_anomaly_score; msimpl;
    [|reflexivity].
  destruct X as [X|]; msimpl.
  - destruct (check_array X) as [X'|e]; cbn; [|reflexivity].
    destruct (mapR _ X'); reflexivity.
  - destruct Y; reflexivity.
Qed.

(** The domain of [feature_wise_anomaly_score].  Before the model is
    assigned the method raises NotFittedError.  Afterwards, on an invalid
    matrix it raises the ValueError of the validation; on a valid matrix,
    the fitted location having one entry per row and per column of the
    precision matrix, it returns one row per sample and one column per
    feature of the model when the width of the matrix is the length of
    the location or is one (a single column is broadcast against the
    location), and it raises ValueError for every other width. *)
Theorem feature_wise_anomaly_score_domain :
  forall (s : GaussianOutlierDetector.t) (X : matrix),
    (GaussianOutlierDetector._glasso s = None ->
     forall Xq,
       value (GaussianOutlierDetector.feature_wise_anomaly_score Xq s) =
         Raise NotFittedError) /\
    (forall g,
       GaussianOutlierDetector._glasso s = Some g ->
       (forall e, check_array X = Raise e ->
          value (GaussianOutlierDetector.feature_wise_anomaly_score (Some X) s)
            = Raise e) /\
       (check_array X = Ok X ->
        glasso_well_shaped g ->
        n_features X = length (location_ g) \/ n_features X = 1%nat ->
        exists Y,
          value (GaussianOutlierDetector.feature_wise_anomaly_score (Some X) s)
            = Ok Y /\
          length Y = length X /\
          forall r, In r Y -> length r = length (location_ g)) /\
       (check_array X = Ok X ->
        glasso_well_shaped g ->
        n_features X <> length (location_ g) ->
        n_features X <> 1%nat ->
        raises_ValueError
          (value (GaussianOutlierDetector.feature_wise_anomaly_score
                    (Some X) s)))).
Proof.
  intros s X. split.
  - intros Hg Xq. rewrite feature_wise_value, Hg. reflexivity.
  - intros g Hg. repeat split.
    + intros e He. rewrite feature_wise_value, Hg, He. reflexivity.
    + intros HX [Hsq _] Hw. rewrite feature_wise_value, Hg, HX. cbn [rbind].
      destruct (feature_wise_rows_broadcast g X HX Hw) as [Y HY].
      exists Y. split; [exact HY|]. rewrite <- Hsq.
      exact (feature_wise_rows_shape g X Y HY).
    + intros HX _ Hw Hw1. rewrite feature_wise_value, Hg, HX. cbn [rbind].
      destruct X as [|x X']; [discriminate HX|].
      cbn [mapR].
      destruct (feature_wise_row_width g x Hw Hw1) as [msg ->].
      exists msg. reflexivity.
Qed.

Lemma Gaussian_fit_inv (s : GaussianOutlierDetector.t) (X : matrix) :
  value (fit X (GAUSS s)) = Ok tt ->
  check_array X = Ok X /\
  exists g ys dls Y fwt,
    GraphLasso_fit (GaussianOutlierDetector.alpha s)
      (GaussianOutlierDetector.assume_centered s)
      (GaussianOutlierDetector.max_iter s)
      (GaussianOutlierDetector.tol s) X = Ok g /\
    mahalanobis g X = Ok ys /\
    chi2_fit ys = Ok dls /\
    mapR (GaussianOutlierDetector.feature_wise_row g) X = Ok Y /\
    np_percentile_axis0 Y (100 * (1 - GaussianOutlierDetector.fpr s)) =
      Ok fwt /\
    final (fit X (GAUSS s)) =
      GAUSS (GaussianOutlierDetector.mk
               (GaussianOutlierDetector.alpha s)
               (GaussianOutlierDetector.assume_centered s)
               (GaussianOutlierDetector.fpr s)
               (GaussianOutlierDetector.max_iter s)
               (GaussianOutlierDetector.tol s)
               (Some g) (Some ys)
               (Some (chi2_ppf (1 - GaussianOutlierDetector.fpr s)
                        (fst (fst dls)) (snd (fst dls)) (snd dls)))
               (Some Y) (Some fwt)).
Proof.
  destruct s as [a c f mi tl g0 ys0 t0 Y0 fwt0].
  unfold_methods. msimpl. mcheck X; repeat mcase. intros _.
  split; [reflexivity|].
  do 5 eexists. repeat split; try eassumption; reflexivity.
Qed.

(** What a successful [fit] of the Gaussian detector leaves for the
    feature-wise analysis: [Y_score_] is the feature-wise score of the
    training matrix, one row per sample and one column per feature of the
    precision matrix; [feature_wise_anomaly_score] returns it for [None]
    and for the training matrix; and [feature_wise_threshold_] holds, for
    every column, its [100 (1 - fpr)] percentile. *)
Theorem Gaussian_fit_feature_wise_attributes :
  forall (s : GaussianOutlierDetector.t) (X : matrix),
    value (fit X (GAUSS s)) = Ok tt ->
    exists s' g Y fwt,
      final (fit X (GAUSS s)) = GAUSS s' /\
      GaussianOutlierDetector._glasso s' = Some g /\
      GaussianOutlierDetector.Y_score_ s' = Some Y /\
      GaussianOutlierDetector.feature_wise_threshold_ s' = Some fwt /\
      value (GaussianOutlierDetector.feature_wise_anomaly_score None s') =
        Ok Y /\
      value (GaussianOutlierDetector.feature_wise_anomaly_score (Some X) s') =
        Ok Y /\
      length Y = length X /\
      (forall r, In r Y -> length r = length (precision_ g)) /\
      np_percentile_axis0 Y (100 * (1 - GaussianOutlierDetector.fpr s)) =
        Ok fwt /\
      length fwt = length (precision_ g).
Proof.
  intros s X Hfit.
  destruct (Gaussian_fit_inv s X Hfit)
    as (HX & g & ys & dls & Y & fwt & _ & _ & _ & HY & Hfwt & Hfin).
  destruct (feature_wise_rows_shape g X Y HY) as [Hlen Hrows].
  eexists. exists g, Y, fwt.
  split; [exact Hfin|].
  repeat split; try reflexivity; try assumption.
  - rewrite feature_wise_value. cbn. rewrite HX. cbn [rbind]. exact HY.
  - rewrite (np_percentile_axis0_length _ _ _ Hfwt).
    destruct X as [|x X']; [discriminate HX|].
    destruct Y as [|r Y']; [discriminate Hlen|].
    apply Hrows. now left.
Qed.

End FeatureWise.

(** ** The angle-based detector: training matrices that can be fitted *)



Section AngleBasedDistinctRows.
Context {B : Backend}.




End AngleBasedDistinctRows.

(** ** Matrices that do not pass validation *)

Section InvalidInput.
Context {B : Backend}.

(** A matrix that [check_array] rejects (no sample, no feature, rows of
    different widths) never reaches a scoring function.  On a fitted
    detector [anomaly_score] and [predict] raise the ValueError of the
    validation and call nothing else; on any detector they raise that
    error or NotFittedError, and the only call they can have made is the
    validation. *)
Theorem invalid_matrix_is_rejected_before_scoring :
  forall (d : detector) (X : matrix) (e : exn),
    check_array X = Raise e ->
    (all_assigned d = true ->
     value (anomaly_score (Some X) d) = Raise e /\
     value (predict (Some X) d) = Raise e /\
     trace (anomaly_score (Some X) d) = [E_check_array] /\
     trace (predict (Some X) d) = [E_check_array]) /\
    (value (anomaly_score (Some X) d) = Raise e \/
     value (anomaly_score (Some X) d) = Raise NotFittedError) /\
    (value (predict (Some X) d) = Raise e \/
     value (predict (Some X) d) = Raise NotFittedError) /\
    (forall ev, In ev (trace (predict (Some X) d)) -> ev = E_check_array).
Proof.
  intros d X e He.
  destruct d as [s|s|s|s|s]; destruct s; unfold_methods; msimpl;
    repeat first [progress (rewrite He; cbn) | gcase];
    repeat split; intros; cbn in *; try discriminate; try reflexivity;
    try (left; reflexivity); try (right; reflexivity);
    try (repeat match goal with
                | H : context [is_Some ?o] |- _ => destruct o; cbn in H
                end; discriminate);
    try match goal with
      | H : In _ [] |- _ => destruct H
      | H : In _ [_] |- _ => destruct H as [<-|[]]; reflexivity
      end.
Qed.

End InvalidInput.

(** ** The directional detector: what the cached scores are scores of *)

Section Directional.
Context {B : Backend}.

Lemma cosine_scores_ok (X : matrix) (mu : vec) :
  (forall r, In r X -> length r = length mu) ->
  VMFOutlierDetector.cosine_scores X mu = Ok (map (fun r => 1 - dot r mu) X).
Proof.
  intro H. unfold VMFOutlierDetector.cosine_scores.
  assert (Hall : forallb (fun r => (length r =? length mu)%nat) X = true).
  { apply forallb_forall. intros r Hr. apply Nat.eqb_eq. exact (H r Hr). }
  rewrite Hall. reflexivity.
Qed.

Lemma cosine_scores_inv (X : matrix) (mu : vec) (ys : list Q) :
  VMFOutlierDetector.cosine_scores X mu = Ok ys ->
  ys = map (fun r => 1 - dot r mu) X.
Proof.
  unfold VMFOutlierDetector.cosine_scores.
  destruct (forallb _ _); [|discriminate]. now intros [= <-].
Qed.

Lemma np_mean_axis0_length (X : matrix) :
  length (np_mean_axis0 X) = n_features X.
Proof.
  unfold np_mean_axis0, columns. rewrite !length_map, length_seq. reflexivity.
Qed.

Lemma VMF_fit_inv (s : VMFOutlierDetector.t) (X : matrix) :
  VMFOutlierDetector.assume_normalized s = false ->
  value (fit X (VMF s)) = Ok tt ->
  check_array X = Ok X /\
  exists Xn Xnn ys dls,
    Normalizer_transform X = Ok Xn /\
    check_array Xn = Ok Xn /\
    Normalizer_transform Xn = Ok Xnn /\
    VMFOutlierDetector.cosine_scores Xnn
      (map (fun m => m / np_linalg_norm (np_mean_axis0 Xn))
         (np_mean_axis0 Xn)) = Ok ys /\
    chi2_fit ys = Ok dls /\
    final (fit X (VMF s)) =
      VMF (VMFOutlierDetector.mk false (VMFOutlierDetector.fpr s) (Some tt)
             (Some (map (fun m => m / np_linalg_norm (np_mean_axis0 Xn))
                      (np_mean_axis0 Xn)))
             (Some ys)
             (Some (chi2_ppf (1 - VMFOutlierDetector.fpr s)
                      (fst (fst dls)) (snd (fst dls)) (snd dls)))).
Proof.
  destruct s as [an f nz mu0 ys0 t0]. cbn. intros ->.
  unfold_methods. msimpl. mcheck X; repeat mcase. intros _.
  split; [reflexivity|].
  match goal with
  | H : check_array ?Xn = Ok ?Xn' |- _ =>
      pose proof (check_array_ok _ _ H); subst Xn'
  end.
  match goal with u : unit |- _ => destruct u end.
  do 4 eexists. repeat split; try eassumption; reflexivity.
Qed.

(** The cached scores of the directional detector are scores of data
    normalized twice.  With [assume_normalized=False], [fit] normalizes
    the training matrix and scores the result through [anomaly_score],
    which normalizes again: [y_score_], and the threshold fitted to it,
    come from the twice-normalized rows, while scoring the training matrix
    afterwards, as [fit_predict] does, normalizes once.  [fit_predict]
    returns whenever [fit] does. *)
Theorem VMF_fit_scores_twice_normalized_data :
  forall (s : VMFOutlierDetector.t) (X : matrix),
    VMFOutlierDetector.assume_normalized s = false ->
    value (fit X (VMF s)) = Ok tt ->
    exists Xn Xnn mu t,
      Normalizer_transform X = Ok Xn /\
      Normalizer_transform Xn = Ok Xnn /\
      mu = map (fun m => m / np_linalg_norm (np_mean_axis0 Xn))
             (np_mean_axis0 Xn) /\
      y_score_ (final (fit X (VMF s))) =
        Some (map (fun r => 1 - dot r mu) Xnn) /\
      threshold_ (final (fit X (VMF s))) = Some t /\
      value (anomaly_score None (final (fit X (VMF s)))) =
        Ok (map (fun r => 1 - dot r mu) Xnn) /\
      value (anomaly_score (Some X) (final (fit X (VMF s)))) =
        Ok (map (fun r => 1 - dot r mu) Xn) /\
      value (fit_predict X (VMF s)) =
        Ok (flag t (map (fun r => 1 - dot r mu) Xn)).
Proof.
  intros s X Han Hfit.
  destruct (VMF_fit_inv s X Han Hfit)
    as (HX & Xn & Xnn & ys & dls & HXn & HcXn & HXnn & Hys & Hdls & Hfin).
  apply cosine_scores_inv in Hys.
  set (mu := map (fun m => m / np_linalg_norm (np_mean_axis0 Xn))
               (np_mean_axis0 Xn)) in *.
  assert (Hscore : value (anomaly_score (Some X) (final (fit X (VMF s)))) =
                   Ok (map (fun r => 1 - dot r mu) Xn)).
  { rewrite Hfin. unfold anomaly_score, VMFOutlierDetector.anomaly_score.
    msimpl. rewrite HX. cbn. rewrite HXn. cbn.
    rewrite cosine_scores_ok; [reflexivity|].
    intros r Hr. unfold mu.
    rewrite length_map, np_mean_axis0_length.
    exact (check_array_widths Xn HcXn r Hr). }
  exists Xn, Xnn, mu, (chi2_ppf (1 - VMFOutlierDetector.fpr s)
                         (fst (fst dls)) (snd (fst dls)) (snd dls)).
  split; [exact HXn|]. split; [exact HXnn|]. split; [reflexivity|].
  split; [rewrite Hfin, Hys; reflexivity|].
  split; [rewrite Hfin; reflexivity|].
  split; [rewrite Hfin, Hys; reflexivity|].
  split; [exact Hscore|].
  rewrite (proj1 (proj2 (fit_predict_value X (VMF s)) Hfit)).
  apply predict_value; [rewrite Hfin; reflexivity | exact Hscore].
Qed.

End Directional.

(** ** The angle-based detector scores row by row *)

Section RowWise.
Context {B : Backend}.

Lemma check_array_iff (X : matrix) :
  check_array X = Ok X <->
  X <> [] /\ (0 < n_features X)%nat /\
  forall r, In r X -> length r = n_features X.
Proof.
  unfold check_array. destruct X as [|r0 X]; [split; [discriminate|tauto]|].
  cbn [n_features]. split.
  - destruct (Nat.ltb_spec 0 (length r0)); cbn [andb]; [|discriminate].
    destruct (forallb _ _) eqn:E; [|discriminate]. intros _.
    split; [discriminate|]. split; [assumption|].
    intros r Hr. apply Nat.eqb_eq.
    exact (proj1 (forallb_forall _ _) E r Hr).
  - intros (_ & H0 & Hw).
    destruct (Nat.ltb_spec 0 (length r0)); [|lia]. cbn [andb].
    destruct (forallb _ _) eqn:E; [reflexivity|].
    exfalso. apply not_true_iff_false in E. apply E.
    apply forallb_forall. intros r Hr. apply Nat.eqb_eq. exact (Hw r Hr).
Qed.

Lemma check_array_app (X1 X2 : matrix) :
  X1 <> [] -> X2 <> [] ->
  check_array (X1 ++ X2) = Ok (X1 ++ X2) ->
  check_array X1 = Ok X1 /\ check_array X2 = Ok X2 /\
  n_features X1 = n_features (X1 ++ X2) /\
  n_features X2 = n_features (X1 ++ X2).
Proof.
  intros H1 H2 H. apply check_array_iff in H. destruct H as (_ & H0 & Hw).
  assert (Hn1 : n_features X1 = n_features (X1 ++ X2)).
  { destruct X1; [congruence | reflexivity]. }
  assert (Hn2 : n_features X2 = n_features (X1 ++ X2)).
  { destruct X2 as [|r2 X2]; [congruence|].
    change (n_features (r2 :: X2)) with (length r2).
    apply Hw. apply in_or_app. right. now left. }
  repeat split; try assumption; apply check_array_iff.
  - split; [assumption|]. split; [lia|].
    intros r Hr. rewrite Hn1. apply Hw. apply in_or_app. now left.
  - split; [assumption|]. split; [lia|].
    intros r Hr. rewrite Hn2. apply Hw. apply in_or_app. now right.
Qed.

Lemma kneighbors_Some_app (nn : Neighbors.t) (X1 X2 : matrix) :
  X1 <> [] -> X2 <> [] ->
  check_array (X1 ++ X2) = Ok (X1 ++ X2) ->
  Neighbors.kneighbors nn (Some (X1 ++ X2)) =
  rbind (Neighbors.kneighbors nn (Some X1))
    (fun i1 => rbind (Neighbors.kneighbors nn (Some X2))
                 (fun i2 => Ok (i1 ++ i2))).
Proof.
  intros H1 H2 H.
  destruct (check_array_app X1 X2 H1 H2 H) as (Hc1 & Hc2 & Hn1 & Hn2).
  pose proof (check_array_widths _ H) as Hw.
  pose proof (check_array_widths _ Hc1) as Hw1.
  pose proof (check_array_widths _ Hc2) as Hw2.
  unfold Neighbors.kneighbors.
  destruct (_ <=? _)%Z; [reflexivity|].
  destruct (_ <? _)%nat; [reflexivity|].
  rewrite forallb_app.
  set (w := n_features (Neighbors._fit_X nn)).
  unfold matrix, vec in *.
  assert (Hall : forall X : list (list Q),
             X <> [] ->
             (forall r, In r X -> length r = n_features (X1 ++ X2)) ->
             forallb (fun r => (length r =? w)%nat) X =
             (n_features (X1 ++ X2) =? w)%nat).
  { intros X HXne HXw.
    destruct (Nat.eqb_spec (n_features (X1 ++ X2)) w) as [E|E].
    - apply forallb_forall. intros r Hr. apply Nat.eqb_eq.
      rewrite (HXw r Hr). exact E.
    - destruct X as [|r X]; [congruence|]. cbn [forallb].
      destruct (Nat.eqb_spec (length r) w) as [E'|E']; [|reflexivity].
      exfalso. apply E. rewrite <- (HXw r (or_introl eq_refl)). exact E'. }
  rewrite (Hall X1 H1), (Hall X2 H2).
  - destruct (_ =? _)%nat; cbn [andb negb rbind]; [|reflexivity].
    rewrite map_app. reflexivity.
  - intros r Hr. rewrite (Hw2 r Hr). exact Hn2.
  - intros r Hr. rewrite (Hw1 r Hr). exact Hn1.
Qed.

Lemma combine_app_eq {A C} (l1 l2 : list A) (m1 m2 : list C) :
  length l1 = length m1 ->
  combine (l1 ++ l2) (m1 ++ m2) = combine l1 m1 ++ combine l2 m2.
Proof.
  revert m1. induction l1 as [|x l1 IH]; intros [|y m1] H; cbn in *;
    try discriminate; [reflexivity|].
  f_equal. apply IH. congruence.
Qed.

Lemma sequential_scores_app (knn : Neighbors.t) (X1 X2 : matrix) :
  X1 <> [] -> X2 <> [] ->
  check_array (X1 ++ X2) = Ok (X1 ++ X2) ->
  sequential_scores knn (Some (X1 ++ X2)) =
  rbind (sequential_scores knn (Some X1))
    (fun y1 => rbind (sequential_scores knn (Some X2))
                 (fun y2 => Ok (y1 ++ y2))).
Proof.
  intros H1 H2 H.
  destruct (check_array_app X1 X2 H1 H2 H) as (Hc1 & Hc2 & _ & _).
  unfold sequential_scores. cbn beta iota. rewrite H, Hc1, Hc2.
  cbn [rbind].
  pose proof (kneighbors_Some_app knn X1 X2 H1 H2 H) as Hk.
  unfold matrix, vec in *. rewrite Hk. clear Hk.
  destruct (Neighbors.kneighbors knn (Some X1)) as [i1|e1] eqn:E1;
    cbn [rbind]; [|reflexivity].
  destruct (Neighbors.kneighbors knn (Some X2)) as [i2|e2] eqn:E2;
    cbn [rbind].
  2:{ (* the width and size checks do not depend on the rows *)
      exfalso. revert E1 E2. unfold Neighbors.kneighbors.
      pose proof (check_array_widths _ H) as Hw.
      destruct (_ <=? _)%Z; [discriminate|].
      destruct (_ <? _)%nat; [discriminate|].
      destruct X1 as [|r1 X1']; [congruence|].
      destruct X2 as [|r2 X2']; [congruence|].
      destruct (forallb _ (r1 :: X1')) eqn:F1; cbn [negb]; [|discriminate].
      intros _.
      destruct (forallb _ (r2 :: X2')) eqn:F2; cbn [negb]; [discriminate|].
      exfalso.
      pose proof Hc2 as Hc2'.
      pose proof (check_array_widths _ Hc2) as Hw2.
      cbn [forallb] in F1. apply andb_true_iff in F1. destruct F1 as [F1 _].
      apply Nat.eqb_eq in F1.
      assert (F2' : forallb
                      (fun r => (length r =? n_features (Neighbors._fit_X knn))%nat)
                      (r2 :: X2') = true).
      { apply forallb_forall. intros r Hr. apply Nat.eqb_eq.
        rewrite <- F1.
        rewrite (Hw r), (Hw r1); [reflexivity | now left |].
        cbn [app]. right. apply in_or_app. right. exact Hr. }
      congruence. }
  unfold _abof.
  rewrite combine_app_eq by (symmetry; exact (kneighbors_length knn X1 i1 E1)).
  rewrite mapR_app.
  match goal with
  | |- context [@mapR ?A ?C ?f (@combine ?T1 ?T2 X1 i1)] =>
      destruct (@mapR A C f (@combine T1 T2 X1 i1)) as [z1|e1]; cbn [rbind];
      [destruct (@mapR A C f (@combine T1 T2 X2 i2)) as [z2|e2];
       cbn [rbind]|]
  end.
  - unfold except_FloatingPointError. cbn [rbind]. rewrite map_app.
    reflexivity.
  - unfold except_FloatingPointError. destruct e2; reflexivity.
  - unfold except_FloatingPointError. destruct e1; reflexivity.
Qed.

(** FastABOD scores row by row: the score of a sample does not depend on
    the other rows of the query.  With [n_jobs >= 1], scoring a valid
    matrix made of two blocks gives the scores of the first block followed
    by those of the second, and raises what the first failing block
    raises. *)
Theorem FastABOD_scores_are_row_wise :
  forall (s : FastABOD.t) (knn : Neighbors.t) (X1 X2 : matrix),
    FastABOD._knn s = Some knn ->
    (1 <= FastABOD.n_jobs s)%Z ->
    X1 <> [] -> X2 <> [] ->
    check_array (X1 ++ X2) = Ok (X1 ++ X2) ->
    value (anomaly_score (Some (X1 ++ X2)) (ABOD s)) =
    rbind (value (anomaly_score (Some X1) (ABOD s)))
      (fun y1 => rbind (value (anomaly_score (Some X2) (ABOD s)))
                   (fun y2 => Ok (y1 ++ y2))).
Proof.
  intros s knn X1 X2 Hknn Hjobs H1 H2 H.
  rewrite !(FastABOD_anomaly_score_sequential s knn _ Hknn Hjobs).
  apply sequential_scores_app; assumption.
Qed.

End RowWise.

(** ** The threshold is calibrated on the scores of the training matrix *)

Section CalibrationOnTrainingScores.
Context {B : Backend}.

(** C9. After a successful [fit(X)], [y_score_] is the in-sample score
    vector of the training matrix [X] (the scores that the model estimated
    from [X] with the hyperparameters of the detector gives to the rows of
    [X]), and the stored threshold is its empirical 100(1-fpr) percentile
    for the angle-based, kernel-density and Gaussian-mixture detectors, and
    the (1-fpr) quantile of the chi-squared distribution whose degrees of
    freedom, location and scale are fitted to it for the Gaussian and the
    von Mises-Fisher detectors. *)
Theorem C9_threshold_calibration :
  forall (d : detector) (X : matrix),
    value (fit X d) = Ok tt ->
    match d with
    | ABOD _ | KDE _ | GMM _ =>
        percentile_calibrated_on d X (final (fit X d))
    | GAUSS _ | VMF _ =>
        chi2_calibrated_on d X (final (fit X d))
    end.
Proof.
  intros d X H.
  destruct d as [s|s|s|s|s].
  - destruct (FastABOD_fit_inv s X H) as (HX & Hm & ys & t & Hs & Ht & ->).
    destruct (FastABOD_anomaly_score_inv _ None ys Hs)
      as (knn & _ & _ & Hknn & Hjobs & _).
    exists ys, t. repeat split; [|exact Ht].
    cbn [in_sample_scores]. unfold Neighbors.fit. rewrite Hm. cbn [rbind].
    rewrite <- Hs. symmetry.
    apply FastABOD_anomaly_score_sequential; [reflexivity | exact Hjobs].
  - destruct s; unfold_methods; msimpl; mcheck X; repeat mcase.
    unfold percentile_calibrated_on, in_sample_scores. cbn.
    do 2 eexists.
    repeat match goal with
           | E : _ = Ok _ |- _ => rewrite E; cbn [rbind]; clear E
           end.
    repeat split; reflexivity.
  - destruct s; unfold_methods; msimpl; mcheck X; repeat mcase.
    unfold chi2_calibrated_on, in_sample_scores. cbn.
    match goal with
    | E : chi2_fit _ = Ok ?dls |- _ => destruct dls as [[df loc] scale]
    end.
    do 4 eexists.
    repeat split; try eassumption; try reflexivity.
    match goal with
    | E : GraphLasso_fit _ _ _ _ _ = Ok _ |- _ => rewrite E
    end. cbn [rbind]. eassumption.
  - destruct s; unfold_methods; msimpl; mcheck X; repeat mcase.
    unfold percentile_calibrated_on, in_sample_scores. cbn.
    do 2 eexists.
    repeat match goal with
           | E : _ = Ok _ |- _ => rewrite E; cbn [rbind]; clear E
           end.
    repeat split; reflexivity.
  - destruct s as [[|] f nz mu ys t]; unfold_methods; msimpl; mcheck X;
      repeat mcase.
    all: unfold chi2_calibrated_on, in_sample_scores, mean_direction; cbn.
    all: repeat match goal with
           | E : check_array _ = Ok _ |- _ =>
               apply check_array_ok in E; subst
           end.
    all: match goal with
         | E : chi2_fit _ = Ok ?dls |- _ => destruct dls as [[df loc] scale]
         end.
    all: do 4 eexists.
    all: repeat split; try eassumption; try reflexivity.
    all: repeat match goal with
           | E : Normalizer_transform _ = Ok _ |- _ =>
               rewrite E; cbn [rbind]; clear E
           end.
    all: eassumption.
Qed.

End CalibrationOnTrainingScores.

(** FastABOD with three neighbours and the Gaussian detector on four
    points of the plane, at fpr = 1/2.  The in-sample scores of FastABOD
    are -7/200, -7/162, -14/1521 and -103/2737800, and its threshold, their
    median, is -13447/608400. *)
Lemma C9_witness :
  percentile_calibrated_on (B := Reference.backend)
    (Reference.new_abod3 (1 # 2)) Reference.X_plane
    (final (fit (B := Reference.backend) Reference.X_plane
              (Reference.new_abod3 (1 # 2)))) /\
  (exists ys t,
     in_sample_scores (B := Reference.backend)
       (Reference.new_abod3 (1 # 2)) Reference.X_plane = Ok ys /\
     Forall2 Qeq ys
       [- (7 # 200); - (7 # 162); - (14 # 1521); - (103 # 2737800)] /\
     threshold_ (final (fit (B := Reference.backend) Reference.X_plane
                          (Reference.new_abod3 (1 # 2)))) =
       Some (Finite t) /\
     t == - (13447 # 608400)) /\
  chi2_calibrated_on (B := Reference.backend)
    (Reference.new_gauss (1 # 2)) Reference.X_plane
    (final (fit (B := Reference.backend) Reference.X_plane
              (Reference.new_gauss (1 # 2)))).
Proof.
  split; [|split].
  - exact (C9_threshold_calibration (B := Reference.backend)
             (Reference.new_abod3 (1 # 2)) Reference.X_plane
             ltac:(vm_compute; reflexivity)).
  - do 2 eexists. split; [vm_compute; reflexivity|].
    split; [repeat constructor; vm_compute; reflexivity|].
    split; vm_compute; reflexivity.
  - exact (C9_threshold_calibration (B := Reference.backend)
             (Reference.new_gauss (1 # 2)) Reference.X_plane
             ltac:(vm_compute; reflexivity)).
Defined.

(** ** The further properties at concrete inputs *)


Lemma X_dup_has_duplicate_rows : has_duplicate_rows Reference.X_dup.
Proof.
  exists 0%nat, 1%nat. cbn. repeat split; try lia.
  repeat constructor; reflexivity.
Qed.

Lemma fit_forgets_earlier_fits_witness :
  value (fit (B := Reference.backend) Reference.X_line
           (final (fit (B := Reference.backend) Reference.X_plane
                     (Reference.new_kde (1 # 100))))) =
  value (fit (B := Reference.backend) Reference.X_line
           (hyperparameters
              (final (fit (B := Reference.backend) Reference.X_plane
                        (Reference.new_kde (1 # 100)))))).
Proof.
  exact (proj1 (fit_forgets_earlier_fits (B := Reference.backend)
                  (final (fit (B := Reference.backend) Reference.X_plane
                            (Reference.new_kde (1 # 100))))
                  Reference.X_line eq_refl)).
Defined.

Lemma fit_assigns_every_fitted_attribute_witness :
  all_assigned
    (final (fit (B := Reference.backend) Reference.X_plane
              (Reference.new_gauss (1 # 100)))) = true.
Proof.
  apply (fit_assigns_every_fitted_attribute (B := Reference.backend)).
  vm_compute. reflexivity.
Defined.

Lemma predict_None_flags_cached_scores_witness :
  exists t ys,
    threshold_ (final (fit (B := Reference.backend) Reference.X_plane
                         (Reference.new_abod (1 # 100)))) = Some t /\
    y_score_ (final (fit (B := Reference.backend) Reference.X_plane
                       (Reference.new_abod (1 # 100)))) = Some ys /\
    value (predict (B := Reference.backend) None
             (final (fit (B := Reference.backend) Reference.X_plane
                       (Reference.new_abod (1 # 100))))) = Ok (flag t ys).
Proof.
  destruct (predict_None_flags_cached_scores (B := Reference.backend)
              (Reference.new_abod (1 # 100)) Reference.X_plane)
    as (t & ys & Ht & Hys & Hp & _).
  - vm_compute. reflexivity.
  - exists t, ys. repeat split; assumption.
Defined.

Lemma fit_predict_is_in_sample_prediction_witness :
  exists t ys,
    value (fit_predict (B := Reference.backend) Reference.X_line
             (Reference.new_kde (1 # 2))) = Ok (flag t ys) /\
    value (predict (B := Reference.backend) None
             (final (fit (B := Reference.backend) Reference.X_line
                       (Reference.new_kde (1 # 2))))) = Ok (flag t ys).
Proof.
  destruct (fit_predict_is_in_sample_prediction (B := Reference.backend)
              (Reference.new_kde (1 # 2)) Reference.X_line)
    as (t & ys & _ & _ & _ & Hfp & Hp & _).
  - reflexivity.
  - vm_compute. reflexivity.
  - exists t, ys. split; assumption.
Defined.

Lemma FastABOD_scores_do_not_depend_on_n_jobs_witness :
  value (anomaly_score (B := Reference.backend) (Some [[5; 5]; [0; 0]])
           (ABOD (FastABOD.mk (1 # 100) "minkowski" None 1 3 2
                    (Some (Neighbors.mk "minkowski" None 3 3 2
                             Reference.X_plane))
                    None None))) =
  value (anomaly_score (B := Reference.backend) (Some [[5; 5]; [0; 0]])
           (ABOD (FastABOD.mk (1 # 100) "minkowski" None 3 3 2
                    (Some (Neighbors.mk "minkowski" None 3 3 2
                             Reference.X_plane))
                    None None))).
Proof.
  apply (proj2 (FastABOD_scores_do_not_depend_on_n_jobs
                  (B := Reference.backend)
                  (FastABOD.mk (1 # 100) "minkowski" None 3 3 2
                     (Some (Neighbors.mk "minkowski" None 3 3 2
                              Reference.X_plane))
                     None None)
                  (Neighbors.mk "minkowski" None 3 3 2 Reference.X_plane)
                  (Some [[5; 5]; [0; 0]]) 1 eq_refl
                  ltac:(cbn; lia) ltac:(lia))).
Defined.

Lemma FastABOD_raises_ValueError_or_NotFittedError_witness :
  is_ValueError_or_NotFittedError
    (ValueError "X must not contain training samples").
Proof.
  apply (proj1 (FastABOD_raises_ValueError_or_NotFittedError
                  (B := Reference.backend)
                  (FastABOD.mk (1 # 100) "minkowski" None 1 2 2
                     (Some (Neighbors.mk "minkowski" None 1 2 2
                              Reference.X_plane))
                     None None)
                  (ValueError "X must not contain training samples"))
           (Some Reference.X_plane)).
  vm_compute. reflexivity.
Defined.

Lemma FastABOD_n_jobs_below_one_raises_witness :
  raises_ValueError
    (value (fit (B := Reference.backend) Reference.X_plane
              (ABOD (FastABOD.mk (1 # 100) "minkowski" None (-1) 2 2
                       None None None)))).
Proof.
  apply (proj1 (FastABOD_n_jobs_below_one_raises (B := Reference.backend)
                  (FastABOD.mk (1 # 100) "minkowski" None (-1) 2 2
                     None None None)
                  ltac:(cbn; lia))
           Reference.X_plane).
Defined.

Lemma FastABOD_scores_are_not_positive_witness :
  exists ys,
    value (anomaly_score (B := Reference.backend) (Some [[5; 5]; [0; 0]])
             (ABOD (FastABOD.mk (1 # 100) "minkowski" None 1 3 2
                      (Some (Neighbors.mk "minkowski" None 1 3 2
                               Reference.X_plane))
                      None None))) = Ok ys /\
    Forall (fun y => y <= 0) ys.
Proof.
  eexists. split.
  - vm_compute. reflexivity.
  - apply (FastABOD_scores_are_not_positive (B := Reference.backend)
             (FastABOD.mk (1 # 100) "minkowski" None 1 3 2
                (Some (Neighbors.mk "minkowski" None 1 3 2
                         Reference.X_plane))
                None None)
             (Some [[5; 5]; [0; 0]])).
    vm_compute. reflexivity.
Defined.

Lemma FastABOD_two_neighbours_flag_nothing_witness :
  exists y,
    value (predict (B := Reference.backend) None
             (final (fit (B := Reference.backend) Reference.X_plane
                       (Reference.new_abod (99 # 100))))) = Ok y /\
    Forall (fun z => z = 0%Z) y.
Proof.
  eexists. split.
  - vm_compute. reflexivity.
  - apply (proj2 (FastABOD_two_neighbours_flag_nothing
                    (B := Reference.backend)
                    (FastABOD.mk (99 # 100) "minkowski" None 1 2 2
                       None None None)
                    Reference.X_plane eq_refl
                    ltac:(vm_compute; reflexivity))
             None).
    vm_compute. reflexivity.
Defined.

Lemma FastABOD_fit_needs_more_rows_than_neighbours_witness :
  value (fit (B := Reference.backend) Reference.X_plane
           (ABOD (FastABOD.mk (1 # 100) "minkowski" None 1 4 2
                    None None None))) =
  Raise (ValueError "Expected n_neighbors <= n_samples").
Proof.
  apply (proj1 (FastABOD_fit_needs_more_rows_than_neighbours
                  (B := Reference.backend)
                  (FastABOD.mk (1 # 100) "minkowski" None 1 4 2
                     None None None)
                  Reference.X_plane eq_refl eq_refl
                  ltac:(cbn; lia) ltac:(cbn; lia))).
Defined.

Lemma FastABOD_fit_rejects_duplicate_rows_witness :
  value (fit (B := Reference.backend) Reference.X_dup
           (Reference.new_abod (1 # 100))) =
  Raise (ValueError overlap_message).
Proof.
  apply (proj2 (FastABOD_fit_rejects_duplicate_rows
                  (B := Reference.backend)
                  (FastABOD.mk (1 # 100) "minkowski" None 1 2 2
                     None None None)
                  Reference.X_dup
                  (reference_metric_separates 1 2 Reference.X_dup)
                  ltac:(cbn; lia)
                  X_dup_has_duplicate_rows)
           eq_refl eq_refl ltac:(cbn; lia) ltac:(cbn; lia)).
Defined.

Lemma FastABOD_fit_predict_always_raises_witness :
  value (fit_predict (B := Reference.backend) Reference.X_plane
           (Reference.new_abod (1 # 100))) =
  Raise (ValueError overlap_message).
Proof.
  apply (proj2 (FastABOD_fit_predict_always_raises
                  (B := Reference.backend)
                  (FastABOD.mk (1 # 100) "minkowski" None 1 2 2
                     None None None)
                  Reference.X_plane
                  (reference_metric_separates 1 2 Reference.X_plane)
                  ltac:(cbn; lia))
           ltac:(vm_compute; reflexivity)).
Defined.


Lemma feature_wise_anomaly_score_domain_witness :
  (exists Y,
     value (GaussianOutlierDetector.feature_wise_anomaly_score
              (B := Reference.backend) (Some [[1]; [2]; [3]])
              (GaussianOutlierDetector.mk (1 # 100) false (1 # 100) 100
                 (1 # 10000)
                 (Some (mkGraphLasso (Reference.identity 2) [0; 0]))
                 None None None None)) = Ok Y /\
     length Y = 3%nat /\
     forall r, In r Y -> length r = 2%nat) /\
  raises_ValueError
    (value (GaussianOutlierDetector.feature_wise_anomaly_score
              (B := Reference.backend) (Some [[1; 2; 3]])
              (GaussianOutlierDetector.mk (1 # 100) false (1 # 100) 100
                 (1 # 10000)
                 (Some (mkGraphLasso (Reference.identity 2) [0; 0]))
                 None None None None))).
Proof.
  split.
  - apply (proj1 (proj2 (proj2 (feature_wise_anomaly_score_domain
                                  (B := Reference.backend)
                                  (GaussianOutlierDetector.mk (1 # 100) false
                                     (1 # 100) 100 (1 # 10000)
                                     (Some (mkGraphLasso
                                              (Reference.identity 2) [0; 0]))
                                     None None None None)
                                  [[1]; [2]; [3]])
                           (mkGraphLasso (Reference.identity 2) [0; 0])
                           eq_refl))).
    + reflexivity.
    + split; [reflexivity|].
      intros r [<-|[<-|[]]]; reflexivity.
    + right. reflexivity.
  - apply (proj2 (proj2 (proj2 (feature_wise_anomaly_score_domain
                                  (B := Reference.backend)
                                  (GaussianOutlierDetector.mk (1 # 100) false
                                     (1 # 100) 100 (1 # 10000)
                                     (Some (mkGraphLasso
                                              (Reference.identity 2) [0; 0]))
                                     None None None None)
                                  [[1; 2; 3]])
                           (mkGraphLasso (Reference.identity 2) [0; 0])
                           eq_refl))).
    + reflexivity.
    + split; [reflexivity|].
      intros r [<-|[<-|[]]]; reflexivity.
    + cbn. lia.
    + cbn. lia.
Defined.

Lemma Gaussian_fit_feature_wise_attributes_witness :
  exists s' Y,
    final (fit (B := Reference.backend) Reference.X_plane
             (Reference.new_gauss (1 # 100))) = GAUSS s' /\
    GaussianOutlierDetector.Y_score_ s' = Some Y /\
    length Y = length Reference.X_plane.
Proof.
  destruct (Gaussian_fit_feature_wise_attributes (B := Reference.backend)
              (GaussianOutlierDetector.mk (1 # 100) false (1 # 100) 100
                 (1 # 10000) None None None None None)
              Reference.X_plane)
    as (s' & g & Y & fwt & Hfin & _ & HY & _ & _ & _ & Hlen & _).
  - vm_compute. reflexivity.
  - exists s', Y. repeat split; assumption.
Defined.


Lemma invalid_matrix_is_rejected_before_scoring_witness :
  value (predict (B := Reference.backend) (Some [])
           (final (fit (B := Reference.backend) Reference.X_line
                     (Reference.new_kde (1 # 100))))) =
  Raise (ValueError "Found array with 0 sample(s)").
Proof.
  apply (proj1 (invalid_matrix_is_rejected_before_scoring
                  (B := Reference.backend)
                  (final (fit (B := Reference.backend) Reference.X_line
                            (Reference.new_kde (1 # 100))))
                  [] (ValueError "Found array with 0 sample(s)") eq_refl)).
  vm_compute. reflexivity.
Defined.

Lemma VMF_fit_scores_twice_normalized_data_witness :
  exists y,
    value (fit_predict (B := Reference.backend) Reference.X_plane
             (Reference.new_vmf false (1 # 100))) = Ok y.
Proof.
  destruct (VMF_fit_scores_twice_normalized_data (B := Reference.backend)
              (VMFOutlierDetector.mk false (1 # 100) None None None None)
              Reference.X_plane)
    as (Xn & Xnn & mu & t & _ & _ & _ & _ & _ & _ & _ & Hfp).
  - reflexivity.
  - vm_compute. reflexivity.
  - eexists. exact Hfp.
Defined.

Lemma FastABOD_scores_are_row_wise_witness :
  value (anomaly_score (B := Reference.backend) (Some [[5; 5]; [0; 0]])
           (ABOD (FastABOD.mk (1 # 100) "minkowski" None 1 3 2
                    (Some (Neighbors.mk "minkowski" None 1 3 2
                             Reference.X_plane))
                    None None))) =
  rbind
    (value (anomaly_score (B := Reference.backend) (Some [[5; 5]])
              (ABOD (FastABOD.mk (1 # 100) "minkowski" None 1 3 2
                       (Some (Neighbors.mk "minkowski" None 1 3 2
                                Reference.X_plane))
                       None None))))
    (fun y1 =>
       rbind
         (value (anomaly_score (B := Reference.backend) (Some [[0; 0]])
                   (ABOD (FastABOD.mk (1 # 100) "minkowski" None 1 3 2
                            (Some (Neighbors.mk "minkowski" None 1 3 2
                                     Reference.X_plane))
                            None None))))
         (fun y2 => Ok (y1 ++ y2))).
Proof.
  apply (FastABOD_scores_are_row_wise (B := Reference.backend)
           (FastABOD.mk (1 # 100) "minkowski" None 1 3 2
              (Some (Neighbors.mk "minkowski" None 1 3 2 Reference.X_plane))
              None None)
           (Neighbors.mk "minkowski" None 1 3 2 Reference.X_plane)
           [[5; 5]] [[0; 0]]).
  - reflexivity.
  - cbn. lia.
  - discriminate.
  - discriminate.
  - reflexivity.
Defined.
